(** * pdbecif: the mmCIF object tree and the literal-value formatter

    A shallow embedding of [src/__init__.py] (Python 2).  The module holds

    - the value formatter [_formatVal];
    - the classes [Item], [Category], [SaveFrame], [DataBlock] and [CifFile],
      whose instances live in a shared store and refer to one another by
      reference.

    Python objects are mutable and aliased, so the classes are embedded over
    an explicit store (a list of objects, an object being referred to by its
    position) and every method is a function in a small state-and-exception
    monad: a call returns a value and a store, or raises an exception and
    leaves the store as it was at the raise.  Dictionaries with string keys
    are [gmap string _]; a dictionary that is iterated over is the list of
    its entries in iteration order.  Attribute access is dynamic, as in the
    source: [x.id] on a value without that attribute raises
    [AttributeError].

    The first part holds the embedding and the vocabulary of the
    statements, the second part the properties.  The wrapper classes
    [CIFWrapper] and [CIFWrapperTable], the [__repr__] methods and
    [getFormattedValue] are not needed by any property and are left out. *)

From Stdlib Require Import Ascii String ZArith Lia.
From stdpp Require Import base option list strings gmap fin_maps.

Local Open Scope string_scope.

(** ** Python strings *)

Module PyStr.

(** The line break character (code 10). *)
Definition nl_char : ascii := "010"%char.
Definition NL : string := String nl_char EmptyString.

(** The two quote characters. *)
Definition squote_char : ascii := "039"%char.
Definition dquote_char : ascii := "034"%char.
Definition SQ : string := String squote_char EmptyString.
Definition DQ : string := String dquote_char EmptyString.

(** [c in val] for a needle of one character. *)
Fixpoint char_in (c : ascii) (val : string) : bool :=
  match val with
  | EmptyString => false
  | String a rest => if Ascii.eqb c a then true else char_in c rest
  end.

(** [val.startswith(p)] *)
Definition startswith (p val : string) : bool := String.prefix p val.

(** [val[:-1]]: everything but the last character. *)
Fixpoint drop_last (val : string) : string :=
  match val with
  | EmptyString => EmptyString
  | String a EmptyString => EmptyString
  | String a rest => String a (drop_last rest)
  end.

(** [val[1:-1]] *)
Definition slice_1_m1 (val : string) : string :=
  match val with
  | EmptyString => EmptyString
  | String _ rest => drop_last rest
  end.

(** [val.lstrip(chars)] for a one-character [chars]. *)
Fixpoint lstrip (c : ascii) (val : string) : string :=
  match val with
  | EmptyString => EmptyString
  | String a rest => if Ascii.eqb a c then lstrip c rest else val
  end.

(** [sep.join(parts)] *)
Fixpoint join (sep : string) (parts : list string) : string :=
  match parts with
  | [] => EmptyString
  | [p] => p
  | p :: rest => p +:+ sep +:+ join sep rest
  end.

End PyStr.

Import PyStr.

(** ** Exceptions *)

Inductive exn : Type :=
| AttributeError
| TypeError
| IndexError.

#[global] Instance exn_eq_dec : EqDecision exn.
Proof. solve_decision. Defined.

(** Result of a computation that touches no object. *)
Inductive res (A : Type) : Type :=
| Ok (a : A)
| Err (e : exn).
Arguments Ok {A} a.
Arguments Err {A} e.

(** ** The value formatter *)

(** The two wrappings: the text between double quotes, and the text between
    single quotes. *)
Definition dquoted (val : string) : string := DQ +:+ val +:+ DQ.
Definition squoted (val : string) : string := SQ +:+ val +:+ SQ.

(** The test the source writes out six times: the text starts with an
    underscore or an opening bracket, or holds a space and no line break. *)
Definition reserved_or_spaced (val : string) : bool :=
  startswith "_" val || startswith "[" val
  || (char_in " "%char val && negb (char_in nl_char val)).

(** Is [val[0]] one of the two quote characters?  [val[0]] raises
    [IndexError] on the empty string. *)
Definition first_is_quote (val : string) : res bool :=
  match val with
  | EmptyString => Err IndexError
  | String a _ => Ok (Ascii.eqb a squote_char || Ascii.eqb a dquote_char)
  end.

(** First half of [_formatVal]: the choice of the wrapping quotes.  The
    argument is the text [str(val)]. *)
Definition wrap_quotes (val : string) : string :=
  if char_in squote_char val then
    if reserved_or_spaced val
    then (if reserved_or_spaced val then dquoted val else val)
    else dquoted val
  else if char_in dquote_char val then
    if reserved_or_spaced val
    then (if reserved_or_spaced val then squoted val else val)
    else squoted val
  else
    (if reserved_or_spaced val then dquoted val else val).

(** Second half of [_formatVal]: the semicolon block. *)
Definition block (val : string) : string := NL +:+ ";" +:+ val +:+ NL +:+ ";" +:+ NL.

Definition _formatVal (text : string) : res string :=
  let val := wrap_quotes text in
  if char_in nl_char val then
    match first_is_quote val with
    | Err e => Err e
    | Ok q =>
        let val := if q then slice_1_m1 val else val in
        Ok (block val)
    end
  else
    (* the elif: no line break, a leading quote, and both quote characters
       inside [val[1:-1]] *)
    if negb (char_in nl_char val) then
      match first_is_quote val with
      | Err e => Err e
      | Ok q =>
          if q && (char_in squote_char (slice_1_m1 val)
                   && char_in dquote_char (slice_1_m1 val))
          then Ok (block (slice_1_m1 val))
          else Ok val
      end
    else Ok val.

(** ** Python values *)

(** References to objects of the store: positions in the list of objects. *)
Abbreviation loc := nat (only parsing).

(** The values that travel through the interface: the nested mapping handed
    to the import, the values stored in an Item, the arguments of the
    construct-or-fetch and removal methods.  A dictionary is the list of its
    entries in iteration order.  A list is held by value: no claim observes
    the list object of a caller after it was handed over. *)
#[warnings="-register-all"]
Inductive pyval : Type :=
| VNone
| VBool (b : bool)
| VInt (z : Z)
| VStr (s : string)
| VList (l : list pyval)
| VDict (d : list (pyval * pyval))
| VStrClass
| VRef (l : loc).

(** [isinstance(v, list)] *)
Definition is_list (v : pyval) : bool :=
  match v with VList _ => true | _ => false end.

(** [v is None] *)
Definition is_None (v : pyval) : bool :=
  match v with VNone => true | _ => false end.

(** ** Objects *)

Record Item_ : Type := mkItem {
  it_value : pyval;
  it_type : pyval;
  it_mandatory : bool;
  it_isColumn : bool;
  it_id : string;
  it_name : string;
  it_lineno : pyval;
  it_parent : loc }.

Record Category_ : Type := mkCategory {
  cat_items : gmap string loc;
  cat_recycleBin : gmap string loc;
  cat_isTable : bool;
  cat_id : string;
  cat_maxTagLength : nat;
  cat_parent : loc }.

Record SaveFrame_ : Type := mkSaveFrame {
  sf_id : string;
  sf_categories : gmap string loc;
  sf_recycleBin : gmap string loc;
  sf_parent : loc }.

Record DataBlock_ : Type := mkDataBlock {
  db_id : string;
  db_categories : gmap string loc;
  db_saveFrames : gmap string loc;
  db_recycleBin : gmap string loc;
  db_parent : loc }.

Record CifFile_ : Type := mkCifFile {
  cf_data_blocks : gmap string loc;
  cf_recycleBin : gmap string loc;
  cf_file_path : option string }.

Inductive obj : Type :=
| OItem (i : Item_)
| OCategory (c : Category_)
| OSaveFrame (f : SaveFrame_)
| ODataBlock (b : DataBlock_)
| OCifFile (f : CifFile_).

(** What [print] writes. *)
Inductive out_line : Type :=
| PrintStr (s : string)
| PrintExn (e : exn)
| PrintVal (v : pyval).

(** The store: object number [l] is [heap !! l]; objects are never freed. *)
Record state : Type := mkState {
  heap : list obj;
  stdout : list out_line }.

(** ** The monad of methods *)

(** A call returns, raises, or is stuck on a reference to no object
    ([Fault], which no Python program reaches). The store at the raise is kept:
    what a method wrote before it raised stays written. *)
Inductive outcome (A : Type) : Type :=
| Return (a : A) (s : state)
| Raise (e : exn) (s : state)
| Fault.
Arguments Return {A} a s.
Arguments Raise {A} e s.
Arguments Fault {A}.

Definition M (A : Type) : Type := state → outcome A.

#[global] Instance M_ret : MRet M := λ A a s, Return a s.
#[global] Instance M_bind : MBind M := λ A B f m s,
  match m s with
  | Return a s' => f a s'
  | Raise e s' => Raise e s'
  | Fault => Fault
  end.

Definition raise {A} (e : exn) : M A := λ s, Raise e s.
Definition fault {A} : M A := λ _, Fault.

(** [try: body except AttributeError: handler] *)
Definition try_except {A} (body handler : M A) : M A := λ s,
  match body s with
  | Raise AttributeError s' => handler s'
  | o => o
  end.

Definition get_obj (l : loc) : M obj := λ s,
  match heap s !! l with
  | Some o => Return o s
  | None => Fault
  end.

(** The three ways a method changes the state: overwrite an object, add a
    new one, write a line. *)
Definition upd (s : state) (l : loc) (o : obj) : state :=
  {| heap := <[l := o]> (heap s); stdout := stdout s |}.
Definition push (s : state) (o : obj) : state :=
  {| heap := heap s ++ [o]; stdout := stdout s |}.
Definition emit (s : state) (line : out_line) : state :=
  {| heap := heap s; stdout := stdout s ++ [line] |}.

Definition put_obj (l : loc) (o : obj) : M unit := λ s, Return tt (upd s l o).

Definition alloc (o : obj) : M loc := λ s,
  Return (length (heap s)) (push s o).

Definition print (line : out_line) : M unit := λ s, Return tt (emit s line).

(** [self] inside a method of the class. *)
Definition get_item (l : loc) : M Item_ :=
  o ← get_obj l; match o with OItem i => mret i | _ => fault end.
Definition get_category (l : loc) : M Category_ :=
  o ← get_obj l; match o with OCategory c => mret c | _ => fault end.
Definition get_saveframe (l : loc) : M SaveFrame_ :=
  o ← get_obj l; match o with OSaveFrame f => mret f | _ => fault end.
Definition get_datablock (l : loc) : M DataBlock_ :=
  o ← get_obj l; match o with ODataBlock b => mret b | _ => fault end.
Definition get_ciffile (l : loc) : M CifFile_ :=
  o ← get_obj l; match o with OCifFile f => mret f | _ => fault end.

(** [for x in xs: body x] *)
Fixpoint for_each {A} (xs : list A) (body : A → M unit) : M unit :=
  match xs with
  | [] => mret tt
  | x :: rest => _ ← body x; for_each rest body
  end.

(** *** Attribute access on an arbitrary value *)

(** [v.isalnum()]: a string has the method; so has the class [str], but
    called on the class it lacks its argument and raises [TypeError]; no
    other value has it. *)
Definition py_isalnum (v : pyval) : M unit :=
  match v with
  | VStr _ => mret tt
  | VStrClass => raise TypeError
  | _ => raise AttributeError
  end.

(** [v.id]: Item, Category, SaveFrame and DataBlock objects carry an [id]. *)
Definition obj_id (v : pyval) : M string :=
  match v with
  | VRef l =>
      o ← get_obj l;
      match o with
      | OItem i => mret (it_id i)
      | OCategory c => mret (cat_id c)
      | OSaveFrame f => mret (sf_id f)
      | ODataBlock b => mret (db_id b)
      | OCifFile _ => raise AttributeError
      end
  | _ => raise AttributeError
  end.

(** [v.value]: only an Item has it. *)
Definition obj_value (v : pyval) : M pyval :=
  match v with
  | VRef l =>
      o ← get_obj l;
      match o with
      | OItem i => mret (it_value i)
      | _ => raise AttributeError
      end
  | _ => raise AttributeError
  end.

(** [v.items()]: a dictionary has the method.  A Category has an
    attribute [items], which is a dictionary and cannot be called:
    [TypeError].  No other value has [items]. *)
Definition py_items (v : pyval) : M (list (pyval * pyval)) :=
  match v with
  | VDict d => mret d
  | VRef l =>
      o ← get_obj l;
      match o with
      | OCategory _ => raise TypeError
      | _ => raise AttributeError
      end
  | _ => raise AttributeError
  end.

(** [v in d] for a dictionary [d] with string keys: a list or a dictionary is
    unhashable, any other value that is not a string is no key of [d]. *)
Definition py_key (v : pyval) : M (option string) :=
  match v with
  | VStr k => mret (Some k)
  | VList _ | VDict _ => raise TypeError
  | _ => mret None
  end.

(** [d.setdefault(k, v)] on one of the live maps. *)
Definition setdefault (d : gmap string loc) (k : string) (v : loc)
  : gmap string loc * loc :=
  match d !! k with
  | Some old => (d, old)
  | None => (<[k := v]> d, v)
  end.

(** ** class Item *)

Module Item.

(** [Item(item_name, parent)]: the new object registers itself in
    [parent.items], replacing whatever was there under its name. *)
Definition __init__ (item_name : string) (parent : loc) : M loc :=
  self ← alloc (OItem {| it_value := VNone;
                         it_type := VStrClass;
                         it_mandatory := false;
                         it_isColumn := false;
                         it_id := item_name;
                         it_name := item_name;
                         it_lineno := VInt (-1);
                         it_parent := parent |});
  p ← get_obj parent;
  match p with
  | OCategory c =>
      _ ← put_obj parent
            (OCategory {| cat_items := <[item_name := self]> (cat_items c);
                          cat_recycleBin := cat_recycleBin c;
                          cat_isTable := cat_isTable c;
                          cat_id := cat_id c;
                          cat_maxTagLength := cat_maxTagLength c;
                          cat_parent := cat_parent c |});
      mret self
  | _ => raise AttributeError
  end.

Definition getItemName (self : loc) : M string :=
  i ← get_item self; mret (it_id i).

(** [self.parent.isTable = True] *)
Definition mark_parent_table (self : loc) : M unit :=
  i ← get_item self;
  c ← get_category (it_parent i);
  put_obj (it_parent i)
    (OCategory {| cat_items := cat_items c;
                  cat_recycleBin := cat_recycleBin c;
                  cat_isTable := true;
                  cat_id := cat_id c;
                  cat_maxTagLength := cat_maxTagLength c;
                  cat_parent := cat_parent c |}).

(** [field.append(x)]: a list grows, any other value has no [append]. *)
Definition py_append (field x : pyval) : M pyval :=
  match field with
  | VList l => mret (VList (l ++ [x]))
  | _ => raise AttributeError
  end.

Definition with_value (i : Item_) (v : pyval) : Item_ :=
  {| it_value := v; it_type := it_type i;
     it_mandatory := it_mandatory i; it_isColumn := it_isColumn i;
     it_id := it_id i; it_name := it_name i;
     it_lineno := it_lineno i; it_parent := it_parent i |}.
Definition with_type (i : Item_) (v : pyval) : Item_ :=
  {| it_value := it_value i; it_type := v;
     it_mandatory := it_mandatory i; it_isColumn := it_isColumn i;
     it_id := it_id i; it_name := it_name i;
     it_lineno := it_lineno i; it_parent := it_parent i |}.
Definition with_lineno (i : Item_) (v : pyval) : Item_ :=
  {| it_value := it_value i; it_type := it_type i;
     it_mandatory := it_mandatory i; it_isColumn := it_isColumn i;
     it_id := it_id i; it_name := it_name i;
     it_lineno := v; it_parent := it_parent i |}.
Definition with_isColumn (i : Item_) (b : bool) : Item_ :=
  {| it_value := it_value i; it_type := it_type i;
     it_mandatory := it_mandatory i; it_isColumn := b;
     it_id := it_id i; it_name := it_name i;
     it_lineno := it_lineno i; it_parent := it_parent i |}.

(** [setValue(item_value, item_type='DEFAULTSTRING', lineno=-1)] *)
Definition setValue (self : loc) (item_value item_type lineno : pyval)
  : M unit :=
  i ← get_item self;
  if is_None (it_value i) && negb (it_isColumn i) then
    match item_value with
    | VList [x] =>
        put_obj self (OItem (with_value i x))
    | VList (_ :: _ :: _) =>
        _ ← put_obj self (OItem (with_isColumn (with_value i item_value) true));
        mark_parent_table self
    | _ =>
        put_obj self
          (OItem (with_lineno (with_type (with_value i item_value) item_type)
                    lineno))
    end
  else if negb (is_None (it_value i)) && negb (it_isColumn i)
  then
    _ ← put_obj self
          (OItem (with_isColumn
                    (with_lineno
                       (with_type
                          (with_value i
                             (VList [it_value i; item_value]))
                          (VList [it_type i; item_type]))
                       (VList [it_lineno i; lineno]))
                    true));
    mark_parent_table self
  else
    v ← py_append (it_value i) item_value;
    _ ← put_obj self (OItem (with_value i v));
    i ← get_item self;
    t ← py_append (it_type i) item_type;
    _ ← put_obj self (OItem (with_type i t));
    i ← get_item self;
    n ← py_append (it_lineno i) lineno;
    put_obj self (OItem (with_lineno i n)).

Definition default_type : pyval := VStr "DEFAULTSTRING".
Definition default_lineno : pyval := VInt (-1).

(** [getRawValue()] *)
Definition getRawValue (self : loc) : M pyval :=
  i ← get_item self; mret (it_value i).

(** [reset()] *)
Definition reset (self : loc) : M unit :=
  i ← get_item self;
  let i :=
    match it_value i with
    | VNone => i
    | VList l => with_value i (VList (map (λ _, VNone) l))
    | _ => with_value i VNone
    end in
  put_obj self (OItem (with_type i VNone)).

End Item.

(** ** class Category *)

Module Category.

Definition with_items (c : Category_) (m : gmap string loc) : Category_ :=
  {| cat_items := m; cat_recycleBin := cat_recycleBin c;
     cat_isTable := cat_isTable c; cat_id := cat_id c;
     cat_maxTagLength := cat_maxTagLength c; cat_parent := cat_parent c |}.
Definition with_recycleBin (c : Category_) (m : gmap string loc)
  : Category_ :=
  {| cat_items := cat_items c; cat_recycleBin := m;
     cat_isTable := cat_isTable c; cat_id := cat_id c;
     cat_maxTagLength := cat_maxTagLength c; cat_parent := cat_parent c |}.
Definition with_isTable (c : Category_) (b : bool) : Category_ :=
  {| cat_items := cat_items c; cat_recycleBin := cat_recycleBin c;
     cat_isTable := b; cat_id := cat_id c;
     cat_maxTagLength := cat_maxTagLength c; cat_parent := cat_parent c |}.
Definition with_maxTagLength (c : Category_) (n : nat) : Category_ :=
  {| cat_items := cat_items c; cat_recycleBin := cat_recycleBin c;
     cat_isTable := cat_isTable c; cat_id := cat_id c;
     cat_maxTagLength := n; cat_parent := cat_parent c |}.

(** [parent.categories[id] = self] for a parent that is a DataBlock or a
    SaveFrame; no other object has [categories]. *)
Definition register (parent : loc) (id : string) (self : loc) : M unit :=
  p ← get_obj parent;
  match p with
  | ODataBlock b =>
      put_obj parent
        (ODataBlock {| db_id := db_id b;
                       db_categories := <[id := self]> (db_categories b);
                       db_saveFrames := db_saveFrames b;
                       db_recycleBin := db_recycleBin b;
                       db_parent := db_parent b |})
  | OSaveFrame f =>
      put_obj parent
        (OSaveFrame {| sf_id := sf_id f;
                       sf_categories := <[id := self]> (sf_categories f);
                       sf_recycleBin := sf_recycleBin f;
                       sf_parent := sf_parent f |})
  | _ => raise AttributeError
  end.

(** [Category(category_id, parent)] *)
Definition __init__ (category_id : string) (parent : loc) : M loc :=
  let id := lstrip "_"%char category_id in
  self ← alloc (OCategory {| cat_items := ∅;
                             cat_recycleBin := ∅;
                             cat_isTable := false;
                             cat_id := id;
                             cat_maxTagLength := 0;
                             cat_parent := parent |});
  _ ← register parent id self;
  mret self.

Definition getId (self : loc) : M string :=
  c ← get_category self; mret (cat_id c).

(** [setItem(item)] *)
Definition setItem (self : loc) (item : pyval) : M pyval :=
  item ← try_except (A := pyval)
    (_ ← py_isalnum item;
     match item with
     | VStr name =>
         c ← get_category self;
         match cat_items c !! name with
         | None => l ← Item.__init__ name self; mret (VRef l)
         | Some l => mret (VRef l)
         end
     | _ => mret item
     end)
    (mret item);
  measured ← try_except (A := bool)
    (iid ← obj_id item;
     c ← get_category self;
     let n := String.length ("_" +:+ cat_id c +:+ iid) in
     _ ← put_obj self
           (OCategory (with_maxTagLength c
                         (if Nat.ltb (cat_maxTagLength c) n then n
                          else cat_maxTagLength c)));
     mret true)
    (mret false);
  if (measured : bool) then
    v ← obj_value item;
    c ← get_category self;
    _ ← (if negb (is_None v) && is_list v && negb (cat_isTable c)
         then put_obj self (OCategory (with_isTable c true))
         else mret tt);
    iid ← obj_id item;
    match item with
    | VRef l =>
        c ← get_category self;
        let '(m, r) := setdefault (cat_items c) iid l in
        _ ← put_obj self (OCategory (with_items c m));
        mret (VRef r)
    | _ => raise AttributeError
    end
  else mret VNone.

(** [getItem(item_name)] *)
Definition getItem (self : loc) (item_name : string) : M pyval :=
  c ← get_category self;
  mret (from_option VRef VNone (cat_items c !! item_name)).

(** [getItemNames()]: the keys of the live map. *)
Definition getItemNames (self : loc) : M (gset string) :=
  c ← get_category self; mret (dom (cat_items c)).

(** [self.recycleBin[k] = self.items.pop(k)] when [k in self.items];
    the result tells whether the key was there. *)
Definition pop_to_bin (self : loc) (k : string) : M bool :=
  c ← get_category self;
  match cat_items c !! k with
  | Some l =>
      _ ← put_obj self
            (OCategory (with_recycleBin
                          (with_items c (delete k (cat_items c)))
                          (<[k := l]> (cat_recycleBin c))));
      mret true
  | None => mret false
  end.

(** [removeChild(child)] *)
Definition removeChild (self : loc) (child : pyval) : M pyval :=
  r ← try_except (A := bool)
    (cid ← obj_id child; pop_to_bin self cid)
    (k ← py_key child;
     match k with
     | Some k => pop_to_bin self k
     | None => mret false
     end);
  mret (VBool r).

End Category.

(** ** class SaveFrame *)

Module SaveFrame.

Definition with_categories (f : SaveFrame_) (m : gmap string loc)
  : SaveFrame_ :=
  {| sf_id := sf_id f; sf_categories := m;
     sf_recycleBin := sf_recycleBin f; sf_parent := sf_parent f |}.
Definition with_recycleBin (f : SaveFrame_) (m : gmap string loc)
  : SaveFrame_ :=
  {| sf_id := sf_id f; sf_categories := sf_categories f;
     sf_recycleBin := m; sf_parent := sf_parent f |}.
Definition with_id (f : SaveFrame_) (id : string) : SaveFrame_ :=
  {| sf_id := id; sf_categories := sf_categories f;
     sf_recycleBin := sf_recycleBin f; sf_parent := sf_parent f |}.

(** [SaveFrame(saveFrame_id, parent)]: only a DataBlock has
    [saveFrames]. *)
Definition __init__ (saveFrame_id : string) (parent : loc) : M loc :=
  self ← alloc (OSaveFrame {| sf_id := saveFrame_id;
                              sf_categories := ∅;
                              sf_recycleBin := ∅;
                              sf_parent := parent |});
  p ← get_obj parent;
  match p with
  | ODataBlock b =>
      _ ← put_obj parent
            (ODataBlock {| db_id := db_id b;
                           db_categories := db_categories b;
                           db_saveFrames :=
                             <[saveFrame_id := self]> (db_saveFrames b);
                           db_recycleBin := db_recycleBin b;
                           db_parent := db_parent b |});
      mret self
  | _ => raise AttributeError
  end.

Definition updateId (self : loc) (saveFrame_id : string) : M unit :=
  f ← get_saveframe self; put_obj self (OSaveFrame (with_id f saveFrame_id)).

Definition getId (self : loc) : M string :=
  f ← get_saveframe self; mret (sf_id f).

(** [setCategory(category)] *)
Definition setCategory (self : loc) (category : pyval) : M pyval :=
  category ← try_except (A := pyval)
    (_ ← py_isalnum category;
     match category with
     | VStr name =>
         f ← get_saveframe self;
         match sf_categories f !! lstrip "_"%char name with
         | None =>
             l ← Category.__init__ (lstrip "_"%char name) self; mret (VRef l)
         | Some l => mret (VRef l)
         end
     | _ => mret category
     end)
    (mret category);
  cid ← obj_id category;
  match category with
  | VRef l =>
      f ← get_saveframe self;
      let '(m, r) := setdefault (sf_categories f) cid l in
      _ ← put_obj self (OSaveFrame (with_categories f m));
      mret (VRef r)
  | _ => raise AttributeError
  end.

(** [getCategory(category)] *)
Definition getCategory (self : loc) (category : string) : M pyval :=
  f ← get_saveframe self;
  mret (from_option VRef VNone (sf_categories f !! lstrip "_"%char category)).

(** [getCategoryIds()] *)
Definition getCategoryIds (self : loc) : M (gset string) :=
  f ← get_saveframe self; mret (dom (sf_categories f)).

Definition pop_to_bin (self : loc) (k : string) : M bool :=
  f ← get_saveframe self;
  match sf_categories f !! k with
  | Some l =>
      _ ← put_obj self
            (OSaveFrame (with_recycleBin
                           (with_categories f (delete k (sf_categories f)))
                           (<[k := l]> (sf_recycleBin f))));
      mret true
  | None => mret false
  end.

(** [removeChild(child)] *)
Definition removeChild (self : loc) (child : pyval) : M pyval :=
  r ← try_except (A := bool)
    (cid ← obj_id child; pop_to_bin self cid)
    (k ← py_key child;
     match k with
     | Some k => pop_to_bin self k
     | None => mret false
     end);
  mret (VBool r).

End SaveFrame.

(** ** class DataBlock *)

Module DataBlock.

Definition with_categories (b : DataBlock_) (m : gmap string loc)
  : DataBlock_ :=
  {| db_id := db_id b; db_categories := m;
     db_saveFrames := db_saveFrames b; db_recycleBin := db_recycleBin b;
     db_parent := db_parent b |}.
Definition with_saveFrames (b : DataBlock_) (m : gmap string loc)
  : DataBlock_ :=
  {| db_id := db_id b; db_categories := db_categories b;
     db_saveFrames := m; db_recycleBin := db_recycleBin b;
     db_parent := db_parent b |}.
Definition with_recycleBin (b : DataBlock_) (m : gmap string loc)
  : DataBlock_ :=
  {| db_id := db_id b; db_categories := db_categories b;
     db_saveFrames := db_saveFrames b; db_recycleBin := m;
     db_parent := db_parent b |}.
Definition with_id (b : DataBlock_) (id : string) : DataBlock_ :=
  {| db_id := id; db_categories := db_categories b;
     db_saveFrames := db_saveFrames b; db_recycleBin := db_recycleBin b;
     db_parent := db_parent b |}.

(** [DataBlock(block_id, parent)]: only a CifFile has [data_blocks]. *)
Definition __init__ (block_id : string) (parent : loc) : M loc :=
  self ← alloc (ODataBlock {| db_id := block_id;
                              db_categories := ∅;
                              db_saveFrames := ∅;
                              db_recycleBin := ∅;
                              db_parent := parent |});
  p ← get_obj parent;
  match p with
  | OCifFile f =>
      _ ← put_obj parent
            (OCifFile {| cf_data_blocks :=
                           <[block_id := self]> (cf_data_blocks f);
                         cf_recycleBin := cf_recycleBin f;
                         cf_file_path := cf_file_path f |});
      mret self
  | _ => raise AttributeError
  end.

Definition updateId (self : loc) (block_id : string) : M unit :=
  b ← get_datablock self; put_obj self (ODataBlock (with_id b block_id)).

Definition getId (self : loc) : M string :=
  b ← get_datablock self; mret (db_id b).

(** [setCategory(category)] *)
Definition setCategory (self : loc) (category : pyval) : M pyval :=
  category ← try_except (A := pyval)
    (_ ← py_isalnum category;
     match category with
     | VStr name =>
         b ← get_datablock self;
         match db_categories b !! lstrip "_"%char name with
         | None =>
             l ← Category.__init__ (lstrip "_"%char name) self; mret (VRef l)
         | Some l => mret (VRef l)
         end
     | _ => mret category
     end)
    (mret category);
  cid ← obj_id category;
  match category with
  | VRef l =>
      b ← get_datablock self;
      let '(m, r) := setdefault (db_categories b) cid l in
      _ ← put_obj self (ODataBlock (with_categories b m));
      mret (VRef r)
  | _ => raise AttributeError
  end.

(** [getCategory(category)] *)
Definition getCategory (self : loc) (category : string) : M pyval :=
  b ← get_datablock self;
  mret (from_option VRef VNone (db_categories b !! lstrip "_"%char category)).

(** [getCategoryIds()] *)
Definition getCategoryIds (self : loc) : M (gset string) :=
  b ← get_datablock self; mret (dom (db_categories b)).

(** [setSaveFrame(saveFrame)] *)
Definition setSaveFrame (self : loc) (saveFrame : pyval) : M pyval :=
  saveFrame ← try_except (A := pyval)
    (_ ← py_isalnum saveFrame;
     match saveFrame with
     | VStr name =>
         b ← get_datablock self;
         match db_saveFrames b !! name with
         | None => l ← SaveFrame.__init__ name self; mret (VRef l)
         | Some l => mret (VRef l)
         end
     | _ => mret saveFrame
     end)
    (mret saveFrame);
  fid ← obj_id saveFrame;
  match saveFrame with
  | VRef l =>
      b ← get_datablock self;
      let '(m, r) := setdefault (db_saveFrames b) fid l in
      _ ← put_obj self (ODataBlock (with_saveFrames b m));
      mret (VRef r)
  | _ => raise AttributeError
  end.

(** [getSaveFrame(saveFrameId)] *)
Definition getSaveFrame (self : loc) (saveFrameId : string) : M pyval :=
  b ← get_datablock self;
  mret (from_option VRef VNone (db_saveFrames b !! saveFrameId)).

(** [getSaveFrameIds()] *)
Definition getSaveFrameIds (self : loc) : M (gset string) :=
  b ← get_datablock self; mret (dom (db_saveFrames b)).

(** [isinstance(child, Category)] and [isinstance(child, SaveFrame)] *)
Definition isinstance_Category (child : pyval) : M bool :=
  match child with
  | VRef l =>
      o ← get_obj l;
      mret (match o with OCategory _ => true | _ => false end)
  | _ => mret false
  end.
Definition isinstance_SaveFrame (child : pyval) : M bool :=
  match child with
  | VRef l =>
      o ← get_obj l;
      mret (match o with OSaveFrame _ => true | _ => false end)
  | _ => mret false
  end.

(** [self.recycleBin[k] = self.categories.pop(k)] *)
Definition pop_category (self : loc) (k : string) (l : loc) : M unit :=
  b ← get_datablock self;
  put_obj self
    (ODataBlock (with_recycleBin
                   (with_categories b (delete k (db_categories b)))
                   (<[k := l]> (db_recycleBin b)))).

(** [self.recycleBin[k] = self.saveFrames.pop(k)] *)
Definition pop_saveFrame (self : loc) (k : string) (l : loc) : M unit :=
  b ← get_datablock self;
  put_obj self
    (ODataBlock (with_recycleBin
                   (with_saveFrames b (delete k (db_saveFrames b)))
                   (<[k := l]> (db_recycleBin b)))).

Definition warning (child : string) (removed : list string) : out_line :=
  PrintStr ("Warning: '" +:+ child +:+ "' removed from "
            +:+ join " and " removed).

(** The branch of [removeChild] for a child that is a string. *)
Definition removeChild_str (self : loc) (child : string) : M pyval :=
  b ← get_datablock self;
  if bool_decide (is_Some (db_categories b !! lstrip "_"%char child))
     || bool_decide (is_Some (db_saveFrames b !! child))
  then
    let child_as_cat := lstrip "_"%char child in
    removed ←
      match db_categories b !! child_as_cat with
      | Some l => _ ← pop_category self child_as_cat l; mret ["categories"]
      | None =>
          match db_saveFrames b !! child with
          | Some l => _ ← pop_saveFrame self child l; mret ["saveFrames"]
          | None => mret []
          end
      end;
    if Nat.ltb 0 (length (removed : list string)) then
      _ ← print (warning child removed);
      mret (VBool true)
    else mret (VBool false)
  else mret (VBool false).

(** [isinstance(child, Category) and child.id in self.categories]: the
    key and the child found under it when the test holds. *)
Definition live_category (self : loc) (child : pyval)
  : M (option (string * loc)) :=
  is_cat ← isinstance_Category child;
  if (is_cat : bool) then
    k ← obj_id child;
    b ← get_datablock self;
    mret (match db_categories b !! k with
          | Some l => Some (k, l)
          | None => None
          end)
  else mret None.

(** [isinstance(child, SaveFrame) and child.id in self.saveFrames] *)
Definition live_saveFrame (self : loc) (child : pyval)
  : M (option (string * loc)) :=
  is_sf ← isinstance_SaveFrame child;
  if (is_sf : bool) then
    k ← obj_id child;
    b ← get_datablock self;
    mret (match db_saveFrames b !! k with
          | Some l => Some (k, l)
          | None => None
          end)
  else mret None.

(** [removeChild(child)] *)
Definition removeChild (self : loc) (child : pyval) : M pyval :=
  c ← live_category self child;
  match c with
  | Some (k, l) => _ ← pop_category self k l; mret (VBool true)
  | None =>
      f ← live_saveFrame self child;
      match f with
      | Some (k, l) => _ ← pop_saveFrame self k l; mret (VBool true)
      | None =>
          match child with
          | VStr name => removeChild_str self name
          | _ => mret (VBool false)
          end
      end
  end.

End DataBlock.

(** ** Method calls on a value

    [x.setCategory(..)], [x.setItem(..)] and [x.setValue(..)] on the result of
    an earlier call: the class of the object decides, and a value without the
    method raises [AttributeError]. *)

Definition call_setCategory (target category : pyval) : M pyval :=
  match target with
  | VRef l =>
      o ← get_obj l;
      match o with
      | ODataBlock _ => DataBlock.setCategory l category
      | OSaveFrame _ => SaveFrame.setCategory l category
      | _ => raise AttributeError
      end
  | _ => raise AttributeError
  end.

Definition call_setItem (target item : pyval) : M pyval :=
  match target with
  | VRef l =>
      o ← get_obj l;
      match o with
      | OCategory _ => Category.setItem l item
      | _ => raise AttributeError
      end
  | _ => raise AttributeError
  end.

Definition call_setValue (target value : pyval) : M unit :=
  match target with
  | VRef l =>
      o ← get_obj l;
      match o with
      | OItem _ =>
          Item.setValue l value Item.default_type Item.default_lineno
      | _ => raise AttributeError
      end
  | _ => raise AttributeError
  end.

(** ** class CifFile *)

Module CifFile.

Definition with_data_blocks (f : CifFile_) (m : gmap string loc)
  : CifFile_ :=
  {| cf_data_blocks := m; cf_recycleBin := cf_recycleBin f;
     cf_file_path := cf_file_path f |}.
Definition with_recycleBin (f : CifFile_) (m : gmap string loc)
  : CifFile_ :=
  {| cf_data_blocks := cf_data_blocks f; cf_recycleBin := m;
     cf_file_path := cf_file_path f |}.

(** [setDataBlock(datablock)] *)
Definition setDataBlock (self : loc) (datablock : pyval) : M pyval :=
  datablock ← try_except (A := pyval)
    (_ ← py_isalnum datablock;
     match datablock with
     | VStr name =>
         f ← get_ciffile self;
         match cf_data_blocks f !! name with
         | None => l ← DataBlock.__init__ name self; mret (VRef l)
         | Some l => mret (VRef l)
         end
     | _ => mret datablock
     end)
    (mret datablock);
  bid ← obj_id datablock;
  match datablock with
  | VRef l =>
      f ← get_ciffile self;
      let '(m, r) := setdefault (cf_data_blocks f) bid l in
      _ ← put_obj self (OCifFile (with_data_blocks f m));
      mret (VRef r)
  | _ => raise AttributeError
  end.

(** [getDataBlock(dataBlockId)] *)
Definition getDataBlock (self : loc) (dataBlockId : string) : M pyval :=
  f ← get_ciffile self;
  mret (from_option VRef VNone (cf_data_blocks f !! dataBlockId)).

(** [getDataBlockIds()] *)
Definition getDataBlockIds (self : loc) : M (gset string) :=
  f ← get_ciffile self; mret (dom (cf_data_blocks f)).

(** The body of the innermost loop of the import. *)
Definition import_item (category_obj : pyval) (entry : pyval * pyval)
  : M unit :=
  let '(item, value) := entry in
  it ← call_setItem category_obj item;
  call_setValue it value.

(** The body of the loop over the categories of one data block, with its
    [try] ... [except AttributeError]. *)
Definition import_category (data_block_obj : pyval) (entry : pyval * pyval)
  : M unit :=
  let '(category, items_and_values) := entry in
  category_obj ← call_setCategory data_block_obj category;
  try_except
    (items ← py_items items_and_values;
     for_each items (import_item category_obj))
    (_ ← print (PrintExn AttributeError);
     print (PrintVal items_and_values)).

(** The body of the loop over the data blocks. *)
Definition import_block (self : loc) (entry : pyval * pyval) : M unit :=
  let '(datablock_id, categories_items_and_values) := entry in
  data_block_obj ← setDataBlock self datablock_id;
  categories ← py_items categories_items_and_values;
  for_each categories (import_category data_block_obj).

(** [import_mmcif_data_map(mmcif_data_map)] *)
Definition import_mmcif_data_map (self : loc) (mmcif_data_map : pyval)
  : M unit :=
  match mmcif_data_map with
  | VDict (e :: rest) => for_each (e :: rest) (import_block self)
  | _ =>
      print (PrintStr "Data import was unsuccessful. No data was supplied")
  end.

(** [CifFile(file_path=None, mmcif_data_map=None)] *)
Definition __init__ (file_path : option string) (mmcif_data_map : pyval)
  : M loc :=
  self ← alloc (OCifFile {| cf_data_blocks := ∅;
                            cf_recycleBin := ∅;
                            cf_file_path := file_path |});
  _ ← (if is_None mmcif_data_map then mret tt
       else import_mmcif_data_map self mmcif_data_map);
  mret self.

Definition pop_to_bin (self : loc) (k : string) : M bool :=
  f ← get_ciffile self;
  match cf_data_blocks f !! k with
  | Some l =>
      _ ← put_obj self
            (OCifFile (with_recycleBin
                         (with_data_blocks f (delete k (cf_data_blocks f)))
                         (<[k := l]> (cf_recycleBin f))));
      mret true
  | None => mret false
  end.

(** [removeChild(child)] *)
Definition removeChild (self : loc) (child : pyval) : M pyval :=
  r ← try_except (A := bool)
    (cid ← obj_id child; pop_to_bin self cid)
    (k ← py_key child;
     match k with
     | Some k => pop_to_bin self k
     | None => mret false
     end);
  mret (VBool r).

End CifFile.

(** The empty store. *)
Definition empty_state : state := {| heap := []; stdout := [] |}.

(** ** Classes of objects and well-typed stores *)

Inductive kind : Type := KItem | KCategory | KSaveFrame | KDataBlock | KCifFile.

#[global] Instance kind_eq_dec : EqDecision kind.
Proof. solve_decision. Defined.

Definition kind_of (o : obj) : kind :=
  match o with
  | OItem _ => KItem
  | OCategory _ => KCategory
  | OSaveFrame _ => KSaveFrame
  | ODataBlock _ => KDataBlock
  | OCifFile _ => KCifFile
  end.

(** The [id] attribute of an object, when its class has one. *)
Definition id_of (o : obj) : option string :=
  match o with
  | OItem i => Some (it_id i)
  | OCategory c => Some (cat_id c)
  | OSaveFrame f => Some (sf_id f)
  | ODataBlock b => Some (db_id b)
  | OCifFile _ => None
  end.

Definition has_kind (s : state) (k : kind) (l : loc) : Prop :=
  kind_of <$> heap s !! l = Some k.

Definition all_kind (s : state) (k : kind) (m : gmap string loc) : Prop :=
  ∀ key l, m !! key = Some l → has_kind s k l.

(** Every reference a method follows leads to an object of the class the
    method expects: the parent of an Item is a Category, a live map of items
    holds Items, and so on.  The interface keeps this when it is used with
    names and with objects of the expected class. *)
Definition obj_typed (s : state) (o : obj) : Prop :=
  match o with
  | OItem i => has_kind s KCategory (it_parent i)
  | OCategory c => all_kind s KItem (cat_items c)
  | OSaveFrame f => all_kind s KCategory (sf_categories f)
  | ODataBlock b =>
      all_kind s KCategory (db_categories b)
      ∧ all_kind s KSaveFrame (db_saveFrames b)
  | OCifFile f => all_kind s KDataBlock (cf_data_blocks f)
  end.

Definition typed (s : state) : Prop :=
  ∀ l o, heap s !! l = Some o → obj_typed s o.

(** Well-typedness is decidable, so it can be checked on a given store. *)
#[global] Instance has_kind_dec s k l : Decision (has_kind s k l).
Proof. unfold has_kind. apply _. Defined.

#[global] Instance all_kind_dec s k m : Decision (all_kind s k m).
Proof. exact (map_Forall_dec (λ _ l, has_kind s k l) m). Defined.

#[global] Instance obj_typed_dec s o : Decision (obj_typed s o).
Proof. destruct o; cbn; apply _. Defined.

#[global] Instance typed_dec s : Decision (typed s).
Proof.
  refine (cast_if (decide (Forall (obj_typed s) (heap s))));
    unfold typed; by rewrite Forall_lookup in *.
Defined.

(** ** The five construct-or-fetch methods under one name *)

Inductive factory : Type :=
| SetDataBlock          (* CifFile.setDataBlock *)
| SetSaveFrame          (* DataBlock.setSaveFrame *)
| SetCategoryOfBlock    (* DataBlock.setCategory *)
| SetCategoryOfFrame    (* SaveFrame.setCategory *)
| SetItem.              (* Category.setItem *)

Definition construct_or_fetch (k : factory) (self : loc) (arg : pyval)
  : M pyval :=
  match k with
  | SetDataBlock => CifFile.setDataBlock self arg
  | SetSaveFrame => DataBlock.setSaveFrame self arg
  | SetCategoryOfBlock => DataBlock.setCategory self arg
  | SetCategoryOfFrame => SaveFrame.setCategory self arg
  | SetItem => Category.setItem self arg
  end.

(** The constructor of the child class. *)
Definition construct (k : factory) (name : string) (parent : loc) : M loc :=
  match k with
  | SetDataBlock => DataBlock.__init__ name parent
  | SetSaveFrame => SaveFrame.__init__ name parent
  | SetCategoryOfBlock | SetCategoryOfFrame => Category.__init__ name parent
  | SetItem => Item.__init__ name parent
  end.

(** The key a name is looked up under: categories drop leading
    underscores. *)
Definition key_of (k : factory) (name : string) : string :=
  match k with
  | SetCategoryOfBlock | SetCategoryOfFrame => lstrip "_"%char name
  | _ => name
  end.

(** The class of the container and of the child. *)
Definition container_kind (k : factory) : kind :=
  match k with
  | SetDataBlock => KCifFile
  | SetSaveFrame | SetCategoryOfBlock => KDataBlock
  | SetCategoryOfFrame => KSaveFrame
  | SetItem => KCategory
  end.
Definition child_kind (k : factory) : kind :=
  match k with
  | SetDataBlock => KDataBlock
  | SetSaveFrame => KSaveFrame
  | SetCategoryOfBlock | SetCategoryOfFrame => KCategory
  | SetItem => KItem
  end.

(** The live map the method works on. *)
Definition live_map (k : factory) (o : obj) : option (gmap string loc) :=
  match k, o with
  | SetDataBlock, OCifFile f => Some (cf_data_blocks f)
  | SetSaveFrame, ODataBlock b => Some (db_saveFrames b)
  | SetCategoryOfBlock, ODataBlock b => Some (db_categories b)
  | SetCategoryOfFrame, OSaveFrame f => Some (sf_categories f)
  | SetItem, OCategory c => Some (cat_items c)
  | _, _ => None
  end.

Definition live (k : factory) (s : state) (self : loc)
  : option (gmap string loc) :=
  heap s !! self ≫= live_map k.

(** The arguments that are no name and no child: a value that has neither
    the method [isalnum] nor an [id] attribute.  A string has the method and
    so has the class [str]; of the objects, only a CifFile has no [id]. *)
Definition no_name_no_id (s : state) (v : pyval) : Prop :=
  match v with
  | VStr _ | VStrClass => False
  | VRef l => ∃ f, heap s !! l = Some (OCifFile f)
  | _ => True
  end.

(** What [setItem] leaves of the category once the item is known: the tag
    length, the table flag, the live map, and the item it returns. *)
Definition setItem_effect (c : Category_) (i : Item_) (l : loc)
  : Category_ * loc :=
  let n := String.length ("_" +:+ cat_id c +:+ it_id i) in
  let c1 := Category.with_maxTagLength c
              (if Nat.ltb (cat_maxTagLength c) n then n
               else cat_maxTagLength c) in
  let c2 := if negb (is_None (it_value i)) && is_list (it_value i)
               && negb (cat_isTable c1)
            then Category.with_isTable c1 true else c1 in
  (Category.with_items c2 (setdefault (cat_items c2) (it_id i) l).1,
   (setdefault (cat_items c2) (it_id i) l).2).

(** The objects the constructors start from. *)
Definition new_item (name : string) (parent : loc) : obj :=
  OItem {| it_value := VNone; it_type := VStrClass; it_mandatory := false;
           it_isColumn := false; it_id := name; it_name := name;
           it_lineno := VInt (-1); it_parent := parent |}.
Definition new_category (id : string) (parent : loc) : obj :=
  OCategory {| cat_items := ∅; cat_recycleBin := ∅; cat_isTable := false;
               cat_id := id; cat_maxTagLength := 0; cat_parent := parent |}.
Definition new_saveframe (id : string) (parent : loc) : obj :=
  OSaveFrame {| sf_id := id; sf_categories := ∅; sf_recycleBin := ∅;
                sf_parent := parent |}.
Definition new_datablock (id : string) (parent : loc) : obj :=
  ODataBlock {| db_id := id; db_categories := ∅; db_saveFrames := ∅;
                db_recycleBin := ∅; db_parent := parent |}.

(** ** How the import changes the store *)

(** An object after some steps of the import: same class, same id and
    parent, and live maps that have only grown. *)
Definition obj_le (o o' : obj) : Prop :=
  match o, o' with
  | OItem i, OItem i' => it_parent i' = it_parent i
  | OCategory c, OCategory c' => cat_items c ⊆ cat_items c'
  | OSaveFrame f, OSaveFrame f' => sf_categories f ⊆ sf_categories f'
  | ODataBlock b, ODataBlock b' =>
      db_id b' = db_id b
      ∧ db_categories b ⊆ db_categories b'
      ∧ db_saveFrames b ⊆ db_saveFrames b'
  | OCifFile f, OCifFile f' => cf_data_blocks f ⊆ cf_data_blocks f'
  | _, _ => False
  end.

(** Every object is still there and has only grown; what was printed is
    still printed. *)
Definition extends (s s' : state) : Prop :=
  (∀ l o, heap s !! l = Some o → ∃ o', heap s' !! l = Some o' ∧ obj_le o o')
  ∧ stdout s `prefix_of` stdout s'.

(** No CifFile object was written to. *)
Definition keeps_files (s s' : state) : Prop :=
  ∀ l f, heap s !! l = Some (OCifFile f) → heap s' !! l = Some (OCifFile f).

Definition grows (s s' : state) : Prop :=
  (typed s → typed s') ∧ extends s s'.

Definition step (s s' : state) : Prop :=
  grows s s' ∧ keeps_files s s'.

(** The data blocks of the file [self] are registered under their own
    ids. ([updateId] can break this; nothing else does.) *)
Definition coherent (s : state) (self : loc) : Prop :=
  ∃ f,
    heap s !! self = Some (OCifFile f)
    ∧ ∀ k l, cf_data_blocks f !! k = Some l →
             ∃ b, heap s !! l = Some (ODataBlock b) ∧ db_id b = k.

(** A call that comes back, normally or with an [AttributeError]. *)
Definition ends {A} (o : outcome A) (Q : A → state → Prop)
    (E : state → Prop) : Prop :=
  match o with
  | Return a s' => Q a s'
  | Raise AttributeError s' => E s'
  | _ => False
  end.

(** *** The shape of the nested mapping *)

Definition is_str (v : pyval) : Prop := ∃ name, v = VStr name.

Definition is_dict (v : pyval) : bool :=
  match v with VDict _ => true | _ => false end.

(** The entries of a dictionary, none for any other value. *)
Definition entries (v : pyval) : list (pyval * pyval) :=
  match v with VDict d => d | _ => [] end.

(** A key of a category entry the import copes with: any value but an
    object and the class [str]. *)
Definition plain_key (v : pyval) : bool :=
  match v with VRef _ | VStrClass => false | _ => true end.

(** A value whose [items] is not called in vain: any value but a Category
    object. *)
Definition no_category (s : state) (v : pyval) : Prop :=
  ∀ l, v = VRef l → ∃ k, has_kind s k l ∧ k ≠ KCategory.

(** A category entry the import copes with: the name is a string; the
    value is anything but a Category object, and when it is a mapping its
    keys are anything but objects and the class [str]. *)
Definition category_entry_ok (s : state) (e : pyval * pyval) : Prop :=
  is_str e.1 ∧ no_category s e.2
  ∧ Forall (λ ie, plain_key ie.1 = true) (entries e.2).

(** A block entry the import copes with: the name is a string and the value
    is a mapping of category entries. *)
Definition block_entry_ok (s : state) (e : pyval * pyval) : Prop :=
  is_str e.1 ∧ is_dict e.2 = true
  ∧ Forall (category_entry_ok s) (entries e.2).

(** The block [bname] of the file [self] is live and holds a category for
    every entry of [cats]. *)
Definition block_registered (s : state) (self : loc) (bname : string)
    (cats : list (pyval * pyval)) : Prop :=
  ∃ f lb blk,
    heap s !! self = Some (OCifFile f)
    ∧ cf_data_blocks f !! bname = Some lb
    ∧ heap s !! lb = Some (ODataBlock blk)
    ∧ ∀ c v, (c, v) ∈ cats →
             ∃ cname, c = VStr cname
                      ∧ is_Some (db_categories blk !! lstrip "_"%char cname).

(** ** Sequences of calls and small trees built through the interface *)

(** One [setValue] call: the value, the type and the line number passed. *)
Definition call : Type := pyval * pyval * pyval.
Definition call_value (c : call) : pyval := c.1.1.
Definition call_type (c : call) : pyval := c.1.2.
Definition call_lineno (c : call) : pyval := c.2.

(** The calls [self.setValue(..)] one after the other. *)
Definition setValues (self : loc) (calls : list call) : M unit :=
  for_each calls (λ c,
    Item.setValue self (call_value c) (call_type c) (call_lineno c)).

(** A file with the block [B], its category [c] and the fresh item [x]. *)
Definition build_item : M pyval :=
  f ← CifFile.__init__ None VNone;
  b ← CifFile.setDataBlock f (VStr "B");
  c ← call_setCategory b (VStr "c");
  call_setItem c (VStr "x").

(** The state a computation ends in. *)
Definition state_of {A} (o : outcome A) : state :=
  match o with
  | Return _ s | Raise _ s => s
  | Fault => empty_state
  end.

(** The state after [build_item]: the file is object 0, the block 1, the
    category 2 and the item 3. *)
Definition item_state : state := state_of (build_item empty_state).

(** [item_state] with a second category [d] in the block: object 4. *)
Definition two_category_state : state :=
  state_of ((_ ← build_item; DataBlock.setCategory 1 (VStr "d")) empty_state).

(** A block [B] (object 1) that holds a category [x] (object 2) and a save
    frame [x] (object 3). *)
Definition both_state : state :=
  state_of ((f ← CifFile.__init__ None VNone;
             _ ← CifFile.setDataBlock f (VStr "B");
             _ ← DataBlock.setCategory 1 (VStr "x");
             DataBlock.setSaveFrame 1 (VStr "x")) empty_state).

(** The key [removeChild] looks a child up under: the [id] of an object, or
    the string itself. *)
Definition child_key (s : state) (child : pyval) : option string :=
  match child with
  | VStr k => Some k
  | VRef l => heap s !! l ≫= id_of
  | _ => None
  end.

(** A file without blocks: object 0. *)
Definition file_state : state :=
  state_of (CifFile.__init__ None VNone empty_state).

(** A mapping with one well-formed category and one that is no mapping. *)
Definition sample_map : list (pyval * pyval) :=
  [ (VStr "DBLK",
     VDict [ (VStr "broken", VStr "oops");
             (VStr "atom_site",
              VDict [ (VStr "id", VList [VInt 1; VInt 2; VInt 3]);
                      (VStr "label", VStr "C") ]) ]) ].

(** The two live maps of a data block. *)
Inductive db_map : Type := Categories | SaveFrames.

Definition db_live (which : db_map) (b : DataBlock_) : gmap string loc :=
  match which with
  | Categories => db_categories b
  | SaveFrames => db_saveFrames b
  end.

(** The child [DataBlock.removeChild] finds for its argument: the map, the
    key and the object. A Category object is looked up among the categories
    and a SaveFrame object among the save frames, each under its id; a
    string is looked up among the categories first, without its leading
    underscores, and then among the save frames. *)
Definition db_target (s : state) (b : DataBlock_) (child : pyval)
  : option (db_map * string * loc) :=
  match child with
  | VRef r =>
      match heap s !! r with
      | Some (OCategory c) =>
          (λ l, (Categories, cat_id c, l)) <$> db_categories b !! cat_id c
      | Some (OSaveFrame f) =>
          (λ l, (SaveFrames, sf_id f, l)) <$> db_saveFrames b !! sf_id f
      | _ => None
      end
  | VStr name =>
      match db_categories b !! lstrip "_"%char name with
      | Some l => Some (Categories, lstrip "_"%char name, l)
      | None => (λ l, (SaveFrames, name, l)) <$> db_saveFrames b !! name
      end
  | _ => None
  end.

(** A string that names a category and a save frame of the block at once. *)
Definition shared_name (b : DataBlock_) (child : pyval) : Prop :=
  match child with
  | VStr name =>
      is_Some (db_categories b !! lstrip "_"%char name)
      ∧ is_Some (db_saveFrames b !! name)
  | _ => False
  end.

(** A call with the default type and line number. *)
Definition plain_call (v : pyval) : call :=
  (v, Item.default_type, Item.default_lineno).

(** The invariant of a column: value, type and line number are lists of one
    length. *)
Definition column_inv (i : Item_) : Prop :=
  it_isColumn i = true →
  ∃ vs ts ns,
    it_value i = VList vs ∧ it_type i = VList ts ∧ it_lineno i = VList ns
    ∧ length vs = length ts ∧ length ts = length ns.

(** ** The rest of the interface *)

(** The first character of a text. *)
Definition head_char (val : string) : option ascii :=
  match val with
  | EmptyString => None
  | String a _ => Some a
  end.

(** The token [_formatVal] returns for a text that is not empty: a
    semicolon block for a text with a line break or with both quote
    characters, otherwise the text between the quotes it does not hold, or
    between double quotes when it starts like a tag or holds a space, or the
    text itself. *)
Definition token_of (text : string) : string :=
  if char_in nl_char text
     || (char_in squote_char text && char_in dquote_char text)
  then block text
  else if char_in squote_char text then dquoted text
  else if char_in dquote_char text then squoted text
  else if reserved_or_spaced text then dquoted text
  else text.

(** *** Item.getFormattedValue *)

(** [[f(v) for v in xs]]: the elements in order, stopping at the first
    raise. *)
Fixpoint map_each {A B} (f : A → M B) (xs : list A) : M (list B) :=
  match xs with
  | [] => mret []
  | x :: rest => y ← f x; ys ← map_each f rest; mret (y :: ys)
  end.

(** [_formatVal(v) if v is not None else "."].  The builtin [str], which
    [_formatVal] applies to its argument first, is the parameter [py_str];
    the properties use of it only that the text of a string is the string. *)
Definition format_entry (py_str : pyval → string) (v : pyval) : M pyval :=
  if is_None v then mret (VStr ".")
  else
    match _formatVal (py_str v) with
    | Ok tok => mret (VStr tok)
    | Err e => raise e
    end.

(** [Item.getFormattedValue()] *)
Definition Item_getFormattedValue (py_str : pyval → string) (self : loc)
  : M pyval :=
  i ← get_item self;
  match it_value i with
  | VList l => toks ← map_each (format_entry py_str) l; mret (VList toks)
  | v => format_entry py_str v
  end.

(** [str] on strings; the other values have the empty text here, which no
    property relies on. *)
Definition str_of_text (v : pyval) : string :=
  match v with VStr s => s | _ => EmptyString end.

(** A value [getFormattedValue] formats without [str] mattering: [None] or
    a string. *)
Definition none_or_text (v : pyval) : Prop :=
  v = VNone ∨ ∃ t, v = VStr t.

(** Every column has a table above it: an item that is a column has a
    Category for parent, and that category is a table. *)
Definition table_inv (s : state) : Prop :=
  ∀ l i, heap s !! l = Some (OItem i) → it_isColumn i = true →
         ∃ c, heap s !! it_parent i = Some (OCategory c)
              ∧ cat_isTable c = true.

(** A value and its formatted entry: a dot for [None], the token for a
    string. *)
Definition formatted_as (v tok : pyval) : Prop :=
  (v = VNone ∧ tok = VStr ".")
  ∨ ∃ t out, v = VStr t ∧ _formatVal t = Ok out ∧ tok = VStr out.

(** *** Getters, [removeChild] and [remove], for the five containers at once *)

(** The getter that goes with each construct-or-fetch method: [getDataBlock],
    [getSaveFrame], the two [getCategory], [getItem]. *)
Definition fetch (k : factory) (self : loc) (name : string) : M pyval :=
  match k with
  | SetDataBlock => CifFile.getDataBlock self name
  | SetSaveFrame => DataBlock.getSaveFrame self name
  | SetCategoryOfBlock => DataBlock.getCategory self name
  | SetCategoryOfFrame => SaveFrame.getCategory self name
  | SetItem => Category.getItem self name
  end.

(** [removeChild] of the class of the container. *)
Definition discard (k : factory) (self : loc) (child : pyval) : M pyval :=
  match k with
  | SetDataBlock => CifFile.removeChild self child
  | SetSaveFrame | SetCategoryOfBlock => DataBlock.removeChild self child
  | SetCategoryOfFrame => SaveFrame.removeChild self child
  | SetItem => Category.removeChild self child
  end.

(** [target.removeChild(child)] on an object of any class: the class decides,
    and an Item has no [removeChild]. *)
Definition call_removeChild (target : loc) (child : pyval) : M pyval :=
  o ← get_obj target;
  match o with
  | OCategory _ => Category.removeChild target child
  | OSaveFrame _ => SaveFrame.removeChild target child
  | ODataBlock _ => DataBlock.removeChild target child
  | OCifFile _ => CifFile.removeChild target child
  | OItem _ => raise AttributeError
  end.

(** [Item.remove()]: [self.parent.removeChild(self)], the answer dropped. *)
Definition Item_remove (self : loc) : M unit :=
  i ← get_item self;
  _ ← call_removeChild (it_parent i) (VRef self);
  mret tt.

(** [Category.remove()] *)
Definition Category_remove (self : loc) : M unit :=
  c ← get_category self;
  _ ← call_removeChild (cat_parent c) (VRef self);
  mret tt.

(** [SaveFrame.remove()] *)
Definition SaveFrame_remove (self : loc) : M unit :=
  f ← get_saveframe self;
  _ ← call_removeChild (sf_parent f) (VRef self);
  mret tt.

(** [DataBlock.remove()] *)
Definition DataBlock_remove (self : loc) : M unit :=
  b ← get_datablock self;
  _ ← call_removeChild (db_parent b) (VRef self);
  mret tt.

(** [remove] of the class of the child. *)
Definition remove_of (k : factory) (self : loc) : M unit :=
  match k with
  | SetDataBlock => DataBlock_remove self
  | SetSaveFrame => SaveFrame_remove self
  | SetCategoryOfBlock | SetCategoryOfFrame => Category_remove self
  | SetItem => Item_remove self
  end.

(** [updateId] of the class of the child: data blocks and save frames have
    it, categories and items do not. *)
Definition updateId_of (k : factory) (self : loc) (id : string) : M unit :=
  match k with
  | SetDataBlock => DataBlock.updateId self id
  | SetSaveFrame => SaveFrame.updateId self id
  | _ => raise AttributeError
  end.

(** The [parent] attribute of an object. *)
Definition parent_of (o : obj) : option loc :=
  match o with
  | OItem i => Some (it_parent i)
  | OCategory c => Some (cat_parent c)
  | OSaveFrame f => Some (sf_parent f)
  | ODataBlock b => Some (db_parent b)
  | OCifFile _ => None
  end.

(** The recycle bin of a container. *)
Definition bin_of (o : obj) : option (gmap string loc) :=
  match o with
  | OItem _ => None
  | OCategory c => Some (cat_recycleBin c)
  | OSaveFrame f => Some (sf_recycleBin f)
  | ODataBlock b => Some (db_recycleBin b)
  | OCifFile f => Some (cf_recycleBin f)
  end.

Definition bin (s : state) (self : loc) : option (gmap string loc) :=
  heap s !! self ≫= bin_of.

(** A container with another live map, and with another recycle bin. *)
Definition with_live (k : factory) (o : obj) (m : gmap string loc) : obj :=
  match k, o with
  | SetDataBlock, OCifFile f => OCifFile (CifFile.with_data_blocks f m)
  | SetSaveFrame, ODataBlock b => ODataBlock (DataBlock.with_saveFrames b m)
  | SetCategoryOfBlock, ODataBlock b =>
      ODataBlock (DataBlock.with_categories b m)
  | SetCategoryOfFrame, OSaveFrame f =>
      OSaveFrame (SaveFrame.with_categories f m)
  | SetItem, OCategory c => OCategory (Category.with_items c m)
  | _, _ => o
  end.

Definition with_bin (o : obj) (m : gmap string loc) : obj :=
  match o with
  | OItem _ => o
  | OCategory c => OCategory (Category.with_recycleBin c m)
  | OSaveFrame f => OSaveFrame (SaveFrame.with_recycleBin f m)
  | ODataBlock b => ODataBlock (DataBlock.with_recycleBin b m)
  | OCifFile f => OCifFile (CifFile.with_recycleBin f m)
  end.

(** The container once the child under [key] has gone to the bin. *)
Definition moved (k : factory) (o : obj) (key : string) (l : loc) : obj :=
  match live_map k o, bin_of o with
  | Some m, Some b => with_bin (with_live k o (delete key m)) (<[key := l]> b)
  | _, _ => o
  end.

(** What the live map holds under the key is a child of the right class
    whose id is the key. *)
Definition own_key (k : factory) (s : state) (m : gmap string loc)
    (key : string) : Prop :=
  ∀ l, m !! key = Some l →
       ∃ o, heap s !! l = Some o ∧ kind_of o = child_kind k
            ∧ id_of o = Some key.

(** The object each constructor starts from. *)
Definition new_child (k : factory) (name : string) (parent : loc) : obj :=
  match k with
  | SetDataBlock => new_datablock name parent
  | SetSaveFrame => new_saveframe name parent
  | SetCategoryOfBlock | SetCategoryOfFrame =>
      new_category (lstrip "_"%char name) parent
  | SetItem => new_item name parent
  end.

(** *** Reading a leaf back *)

(** [x.getCategory(..)], [x.getItem(..)] and [x.getRawValue()] on the result
    of an earlier call. *)
Definition call_getCategory (target : pyval) (category : string) : M pyval :=
  match target with
  | VRef l =>
      o ← get_obj l;
      match o with
      | ODataBlock _ => DataBlock.getCategory l category
      | OSaveFrame _ => SaveFrame.getCategory l category
      | _ => raise AttributeError
      end
  | _ => raise AttributeError
  end.

Definition call_getItem (target : pyval) (item_name : string) : M pyval :=
  match target with
  | VRef l =>
      o ← get_obj l;
      match o with
      | OCategory _ => Category.getItem l item_name
      | _ => raise AttributeError
      end
  | _ => raise AttributeError
  end.

Definition call_getRawValue (target : pyval) : M pyval :=
  match target with
  | VRef l =>
      o ← get_obj l;
      match o with
      | OItem _ => Item.getRawValue l
      | _ => raise AttributeError
      end
  | _ => raise AttributeError
  end.

(** [f.getDataBlock(b).getCategory(c).getItem(i).getRawValue()] *)
Definition read_leaf (self : loc) (b c i : string) : M pyval :=
  blk ← CifFile.getDataBlock self b;
  cat ← call_getCategory blk c;
  it ← call_getItem cat i;
  call_getRawValue it.

(** *** The nested mapping as data *)

(** A mapping of names to values, of category names to such mappings, and of
    block names to those, each as the list of its entries. *)
Definition item_map : Type := list (string * pyval).
Definition category_map : Type := list (string * item_map).
Definition block_map : Type := list (string * category_map).

Definition enc_item (e : string * pyval) : pyval * pyval := (VStr e.1, e.2).
Definition encode_items (items : item_map) : pyval :=
  VDict (enc_item <$> items).
Definition enc_category (e : string * item_map) : pyval * pyval :=
  (VStr e.1, encode_items e.2).
Definition encode_categories (cats : category_map) : pyval :=
  VDict (enc_category <$> cats).
Definition enc_block (e : string * category_map) : pyval * pyval :=
  (VStr e.1, encode_categories e.2).
Definition encode_blocks (data : block_map) : pyval :=
  VDict (enc_block <$> data).

(** The keys of a dictionary are distinct; the category names of a block are
    also distinct once their leading underscores are dropped, so that no two
    entries name one category. *)
Definition well_keyed (data : block_map) : Prop :=
  NoDup data.*1
  ∧ Forall (λ b, NoDup (lstrip "_"%char <$> b.2.*1)
                 ∧ Forall (λ c, NoDup c.2.*1) b.2) data.

(** What a fresh item holds after [setValue(v)]: the element of a list of
    one, any other value as it is; and whether it is then a column: when
    [v] is a list of two or more. *)
Definition stored (v : pyval) : pyval :=
  match v with VList [x] => x | _ => v end.

Definition many (v : pyval) : bool :=
  match v with VList (_ :: _ :: _) => true | _ => false end.

(** From [s] to [s']: nothing printed, no object lost, and no object of [s]
    written but [x]. *)
Definition same_but (x : loc) (s s' : state) : Prop :=
  stdout s' = stdout s
  ∧ (length (heap s) ≤ length (heap s'))%nat
  ∧ ∀ l, (l < length (heap s))%nat → l ≠ x → heap s' !! l = heap s !! l.

(** A category that kept its id and its parent, and is still a table if it
    was one. *)
Definition cat_kept (c c' : Category_) : Prop :=
  cat_id c' = cat_id c ∧ cat_parent c' = cat_parent c
  ∧ (cat_isTable c = true → cat_isTable c' = true).

(** The imported tree, level by level.  The category [lc] holds under the
    name [n] an item of that id with [lc] for parent, which stores [v] and
    is a column when [v] is a list of two or more, and then the category is
    a table. *)
Definition item_at (s : state) (lc : loc) (n : string) (v : pyval) : Prop :=
  ∃ c li it,
    heap s !! lc = Some (OCategory c) ∧ cat_items c !! n = Some li
    ∧ heap s !! li = Some (OItem it)
    ∧ it_value it = stored v ∧ it_isColumn it = many v
    ∧ it_id it = n ∧ it_parent it = lc
    ∧ (many v = true → cat_isTable c = true).

(** [lc] is a category of the id of [cn], that is [cn] without its leading
    underscores, with [lb] for parent and with the items of [items]. *)
Definition category_ok (s : state) (lc lb : loc) (cn : string)
    (items : item_map) : Prop :=
  ∃ c,
    heap s !! lc = Some (OCategory c)
    ∧ cat_id c = lstrip "_"%char cn ∧ cat_parent c = lb
    ∧ ∀ n v, (n, v) ∈ items → item_at s lc n v.

(** The block [lb] holds such a category under the id of [cn]. *)
Definition category_at (s : state) (lb : loc) (cn : string)
    (items : item_map) : Prop :=
  ∃ blk lc,
    heap s !! lb = Some (ODataBlock blk)
    ∧ db_categories blk !! lstrip "_"%char cn = Some lc
    ∧ category_ok s lc lb cn items.

(** [lb] is a block of the id [bn] with [self] for parent and with the
    categories of [cats]. *)
Definition block_ok (s : state) (lb self : loc) (bn : string)
    (cats : category_map) : Prop :=
  ∃ blk,
    heap s !! lb = Some (ODataBlock blk)
    ∧ db_id blk = bn ∧ db_parent blk = self
    ∧ ∀ cn items, (cn, items) ∈ cats → category_at s lb cn items.

(** The file [self] holds such a block under [bn]. *)
Definition block_at (s : state) (self : loc) (bn : string)
    (cats : category_map) : Prop :=
  ∃ f lb,
    heap s !! self = Some (OCifFile f)
    ∧ cf_data_blocks f !! bn = Some lb
    ∧ block_ok s lb self bn cats.

(** *** The import of a mapping with malformed categories *)

(** The name a key of the mapping stands for: the string itself. *)
Definition key_name (v : pyval) : string :=
  match v with VStr n => n | _ => EmptyString end.

(** The id of the category a key of a block names: the name without its
    leading underscores. *)
Definition category_key (v : pyval) : string :=
  lstrip "_"%char (key_name v).

(** The names of the blocks are distinct, and so are the ids of the
    categories of each block. *)
Definition distinct_keys (data : list (pyval * pyval)) : Prop :=
  NoDup (key_name <$> data.*1)
  ∧ Forall (λ b, NoDup (category_key <$> (entries b.2).*1)) data.

(** No block of the mapping is live in the file [self] yet. *)
Definition new_to_file (s : state) (self : loc)
    (data : list (pyval * pyval)) : Prop :=
  ∃ f,
    heap s !! self = Some (OCifFile f)
    ∧ ∀ b, b ∈ data.*1 → cf_data_blocks f !! key_name b = None.

(** From [s] to [s']: no object lost, no object of [s] written but [x],
    which is still of its class.  (What is printed does not count.) *)
Definition kept_but (x : loc) (s s' : state) : Prop :=
  (length (heap s) ≤ length (heap s'))%nat
  ∧ (∀ l, (l < length (heap s))%nat → l ≠ x → heap s' !! l = heap s !! l)
  ∧ ∀ o, heap s !! x = Some o →
         ∃ o', heap s' !! x = Some o' ∧ kind_of o' = kind_of o.

(** The items of the category [lc] are its own: each is an Item with [lc]
    for parent, and none is older than [base]. *)
Definition own_items (base lc : loc) (s : state) : Prop :=
  ∃ c,
    heap s !! lc = Some (OCategory c)
    ∧ ∀ n li, cat_items c !! n = Some li →
        (base ≤ li)%nat
        ∧ ∃ it, heap s !! li = Some (OItem it) ∧ it_parent it = lc.

(** What [setValue] can have written, whether it returns or raises: the
    item, and the table flag of its category. *)
Definition item_written (s : state) (li : loc) (i : Item_) (c : Category_)
    (s' : state) : Prop :=
  ∃ i' c',
    s' = upd (upd s li (OItem i')) (it_parent i) (OCategory c')
    ∧ it_parent i' = it_parent i ∧ cat_items c' = cat_items c.

(** *** The longest tag of a category *)

(** [len("_" + self.id + item.id)] *)
Definition tag_length (c : Category_) (key : string) : nat :=
  String.length ("_" +:+ cat_id c +:+ key).

(** No tag of a live item is longer than [_maxTagLength]. *)
Definition tags_fit (c : Category_) : Prop :=
  ∀ key l, cat_items c !! key = Some l →
           (tag_length c key ≤ cat_maxTagLength c)%nat.

(** A category that has come from another by calls of [setItem]: the same
    id, tags that fit, a longest tag that is no shorter, and still a table
    if it was one. *)
Definition measured_from (c c' : Category_) : Prop :=
  cat_id c' = cat_id c
  ∧ tags_fit c'
  ∧ (cat_maxTagLength c ≤ cat_maxTagLength c')%nat
  ∧ (cat_isTable c = true → cat_isTable c' = true).

(** ** The dictionary wrappers

    [CIFWrapperTable] and [CIFWrapper] hold plain dictionaries and no object
    of the classes above, so their methods are functions on dictionaries.  A
    dictionary is the list of its entries in the order it iterates them;
    the keys of the entries are distinct, and nothing below relies on the
    order but [values()[0]] and [items()[0]], which take the first entry
    whatever it is.  Dictionaries and lists are taken by value: that
    [__setitem__] keeps the very list it is given for a new name, and a copy
    of it for a name it has, cannot be told apart here. *)

(** What a call on a wrapper can raise: the exceptions above and
    [KeyError]. *)
Inductive raised : Type :=
| Exn (e : exn)
| KeyError.

Inductive answer (A : Type) : Type :=
| Got (a : A)
| Fails (r : raised).
Arguments Got {A} a.
Arguments Fails {A} r.

#[global] Instance answer_ret : MRet answer := λ A a, Got a.
#[global] Instance answer_bind : MBind answer := λ A B f m,
  match m with
  | Got a => f a
  | Fails r => Fails r
  end.

(** What [==] and [hash] see of a key: [True] and [False] are the keys [1]
    and [0], objects are compared by identity, and lists and dictionaries
    are unhashable. *)
Inductive hkey : Type :=
| KNone
| KInt (z : Z)
| KStr (s : string)
| KStrClass
| KRef (l : loc).

#[global] Instance hkey_eq_dec : EqDecision hkey.
Proof. solve_decision. Defined.

Definition hash_key (k : pyval) : option hkey :=
  match k with
  | VNone => Some KNone
  | VBool b => Some (KInt (if b then 1 else 0))
  | VInt z => Some (KInt z)
  | VStr s => Some (KStr s)
  | VStrClass => Some KStrClass
  | VRef l => Some (KRef l)
  | VList _ | VDict _ => None
  end.

(** [k in d], [d.get(k)], [d[k] = v] and [del d[k]] on the entries of a
    dictionary, for a key [k] of code [c]. *)
Fixpoint dict_get {V} (d : list (pyval * V)) (c : hkey) : option V :=
  match d with
  | [] => None
  | (k, v) :: rest =>
      if decide (hash_key k = Some c) then Some v else dict_get rest c
  end.

Fixpoint dict_set {V} (d : list (pyval * V)) (k : pyval) (c : hkey) (v : V)
  : list (pyval * V) :=
  match d with
  | [] => [(k, v)]
  | (k', v') :: rest =>
      if decide (hash_key k' = Some c) then (k', v) :: rest
      else (k', v') :: dict_set rest k c v
  end.

Fixpoint dict_del {V} (d : list (pyval * V)) (c : hkey)
  : list (pyval * V) :=
  match d with
  | [] => []
  | (k, v) :: rest =>
      if decide (hash_key k = Some c) then dict_del rest c
      else (k, v) :: dict_del rest c
  end.

(** [hash(k)], which every access by key starts with. *)
Definition hashed (k : pyval) : answer hkey :=
  match hash_key k with
  | Some c => Got c
  | None => Fails (Exn TypeError)
  end.

(** [v.items()] and [v.values()]: only a dictionary has them. *)
Definition dict_items (v : pyval) : answer (list (pyval * pyval)) :=
  match v with VDict d => Got d | _ => Fails (Exn AttributeError) end.

Definition dict_values (v : pyval) : answer (list pyval) :=
  match v with VDict d => Got d.*2 | _ => Fails (Exn AttributeError) end.

(** [l[0]] *)
Definition first {A} (l : list A) : answer A :=
  match l with
  | x :: _ => Got x
  | [] => Fails (Exn IndexError)
  end.

(** [len(v)] and [v[idx]] for an index that is not negative. *)
Definition py_len (v : pyval) : answer nat :=
  match v with
  | VList l => Got (length l)
  | VStr s => Got (String.length s)
  | VDict d => Got (length d)
  | _ => Fails (Exn TypeError)
  end.

Definition py_index (v : pyval) (idx : nat) : answer pyval :=
  match v with
  | VList l =>
      match l !! idx with
      | Some x => Got x
      | None => Fails (Exn IndexError)
      end
  | VStr s =>
      match String.get idx s with
      | Some a => Got (VStr (String a EmptyString))
      | None => Fails (Exn IndexError)
      end
  | VDict d =>
      match dict_get d (KInt (Z.of_nat idx)) with
      | Some x => Got x
      | None => Fails KeyError
      end
  | _ => Fails (Exn TypeError)
  end.

(** [copy.deepcopy(v)]: a value is its own copy.  (The wrappers are for
    plain data; a deep copy of an object of the classes above would be a new
    object.) *)
Definition deepcopy {A} (v : A) : A := v.

(** [v if isinstance(v, list) else [v, ]] *)
Definition listify (v : pyval) : pyval :=
  if is_list v then v else VList [v].

(** *** class CIFWrapperTable

    The state of a table is its dictionary [_TABLE]. *)

Module CIFWrapperTable.

(** [CIFWrapperTable(d)] for a dictionary [d]: [self._TABLE = d] goes
    through [__setattr__] and stores a deep copy. *)
Definition __init__ (d : list (pyval * pyval)) : list (pyval * pyval) :=
  deepcopy d.

(** [self._TABLE.get(k)] *)
Definition get (_TABLE : list (pyval * pyval)) (k : pyval) : answer pyval :=
  c ← hashed k; Got (default VNone (dict_get _TABLE c)).

Definition __getattr__ (_TABLE : list (pyval * pyval)) (attr_in : string)
  : answer pyval :=
  get _TABLE (VStr attr_in).

Definition __getitem__ (_TABLE : list (pyval * pyval)) (itemNameIn : pyval)
  : answer pyval :=
  get _TABLE itemNameIn.

Definition __contains__ (_TABLE : list (pyval * pyval)) (itemNameIn : pyval)
  : answer bool :=
  c ← hashed itemNameIn; Got (bool_decide (is_Some (dict_get _TABLE c))).

(** [__setitem__]: the new dictionary. *)
Definition __setitem__ (_TABLE : list (pyval * pyval))
    (itemName itemValue : pyval) : answer (list (pyval * pyval)) :=
  let itemValue := if is_list itemValue then itemValue
                   else VList [itemValue] in
  c ← hashed itemName;
  if negb (bool_decide (is_Some (dict_get _TABLE c)))
  then Got (dict_set _TABLE itemName c itemValue)
  else Got (dict_set _TABLE itemName c (deepcopy itemValue)).

Definition __delitem__ (_TABLE : list (pyval * pyval)) (itemName : pyval)
  : answer (list (pyval * pyval)) :=
  c ← hashed itemName;
  if bool_decide (is_Some (dict_get _TABLE c))
  then Got (dict_del _TABLE c)
  else Got _TABLE.

(** [dict((k, v[idx]) for k, v in self._TABLE.items())] *)
Fixpoint row (_TABLE : list (pyval * pyval)) (idx : nat)
  : answer (list (pyval * pyval)) :=
  match _TABLE with
  | [] => Got []
  | (k, v) :: rest =>
      x ← py_index v idx; r ← row rest idx; Got ((k, x) :: r)
  end.

(** The loop of [__iter__] from [idx] on, [count] rows to go: the rows it
    yields, and the exception that ends it if one does. *)
Fixpoint rows_from (_TABLE : list (pyval * pyval)) (idx count : nat)
  : list (list (pyval * pyval)) * option raised :=
  match count with
  | 0 => ([], None)
  | S count =>
      match row _TABLE idx with
      | Got r =>
          let '(rs, e) := rows_from _TABLE (S idx) count in (r :: rs, e)
      | Fails e => ([], Some e)
      end
  end.

(** [__iter__]: the rows the iterator yields when it is run to its end. *)
Definition __iter__ (_TABLE : list (pyval * pyval))
  : list (list (pyval * pyval)) * option raised :=
  match first _TABLE.*2 with
  | Fails e => ([], Some e)
  | Got col =>
      match py_len col with
      | Fails e => ([], Some e)
      | Got numRows => rows_from _TABLE 0 numRows
      end
  end.

End CIFWrapperTable.

(** *** class CIFWrapper *)

(** A wrapper that was constructed: its [data_id], and its [_DATA], a
    dictionary of tables.  ([data_id] is [None] for a wrapper constructed
    without a dictionary, which has no such attribute: reading the attribute
    then goes through [__getattr__] and finds nothing.) *)
Record wrapper : Type := mkWrapper {
  data_id : pyval;
  _DATA : list (pyval * list (pyval * pyval)) }.

Module CIFWrapper.

(** The body of the loop of [__convertDictToCIFWrapperTable]: the table for
    one category. *)
Definition to_table (v : pyval) : answer (list (pyval * pyval)) :=
  items ← dict_items v;
  Got (CIFWrapperTable.__init__ ((λ e, (e.1, listify e.2)) <$> items)).

Fixpoint convert (d : list (pyval * pyval))
  : answer (list (pyval * list (pyval * pyval))) :=
  match d with
  | [] => Got []
  | (k, v) :: rest =>
      t ← to_table v; ts ← convert rest; Got ((k, t) :: ts)
  end.

(** [__convertDictToCIFWrapperTable()] on the value of [self._DATA] *)
Definition __convertDictToCIFWrapperTable (data : pyval)
  : answer (list (pyval * list (pyval * pyval))) :=
  d ← dict_items data; convert d.

(** The body of the [try] of the constructor: the first block of a
    dictionary that has three levels. *)
Definition first_block (dictionary : pyval) : answer (pyval * pyval) :=
  entries ← dict_items dictionary;
  e ← first entries;
  categories ← dict_values e.2;
  category ← first categories;
  items ← dict_values category;
  item ← first items;
  Got e.

(** [CIFWrapper(d, data_id=None)] *)
Definition __init__ (d data_id_in : pyval) : answer wrapper :=
  if is_None d then Got {| data_id := VNone; _DATA := [] |}
  else
    let dictionary := deepcopy d in
    let own_id := if is_None data_id_in then VStr EmptyString
                  else data_id_in in
    match first_block dictionary with
    | Got (datablock_id, datablock) =>
        tables ← __convertDictToCIFWrapperTable datablock;
        Got {| data_id := datablock_id; _DATA := tables |}
    | Fails (Exn AttributeError) =>
        tables ← __convertDictToCIFWrapperTable dictionary;
        Got {| data_id := own_id; _DATA := tables |}
    | Fails r => Fails r
    end.

(** [self._DATA.get(k)]: a table or [None]. *)
Definition get (self : wrapper) (k : pyval)
  : answer (option (list (pyval * pyval))) :=
  c ← hashed k; Got (dict_get (_DATA self) c).

Definition __getattr__ (self : wrapper) (attr_in : string)
  : answer (option (list (pyval * pyval))) :=
  get self (VStr attr_in).

Definition __getitem__ (self : wrapper) (tableNameIn : pyval)
  : answer (option (list (pyval * pyval))) :=
  get self tableNameIn.

Definition __contains__ (self : wrapper) (tableNameIn : pyval)
  : answer bool :=
  c ← hashed tableNameIn; Got (bool_decide (is_Some (dict_get (_DATA self) c))).

Definition __delitem__ (self : wrapper) (tableName : pyval)
  : answer wrapper :=
  c ← hashed tableName;
  if bool_decide (is_Some (dict_get (_DATA self) c))
  then Got {| data_id := data_id self; _DATA := dict_del (_DATA self) c |}
  else Got self.

(** [self.data_id != ''] *)
Definition not_empty_str (v : pyval) : bool :=
  match v with VStr EmptyString => false | _ => true end.

(** [unwrap()]; [self_id] is [str(id(self))]. *)
Definition unwrap (self : wrapper) (self_id : string) : answer pyval :=
  let cleaned_map := (λ e, (e.1, VDict e.2)) <$> _DATA self in
  let key := if negb (is_None (data_id self)) && not_empty_str (data_id self)
             then data_id self else VStr self_id in
  _ ← hashed key;
  Got (VDict [(key, VDict cleaned_map)]).

End CIFWrapper.

(** *** Mappings with every leaf in a list *)

Definition listify_items (items : item_map) : item_map :=
  (λ e, (e.1, listify e.2)) <$> items.

Definition listify_categories (cats : category_map) : category_map :=
  (λ e, (e.1, listify_items e.2)) <$> cats.

(** [v[k1][k2]...] by keys that are names. *)
Fixpoint dict_path (v : pyval) (names : list string) : option pyval :=
  match names with
  | [] => Some v
  | n :: rest =>
      match v with
      | VDict d => dict_get d (KStr n) ≫= λ x, dict_path x rest
      | _ => None
      end
  end.

(** Every column of a table is a list of [n] entries. *)
Definition rectangular (n : nat) (t : list (pyval * pyval)) : Prop :=
  Forall (λ e, ∃ l, e.2 = VList l ∧ length l = n) t.

(** Every column of a table is a list. *)
Definition columns_are_lists (t : list (pyval * pyval)) : Prop :=
  Forall (λ e, is_list e.2 = true) t.

(** * Properties *)

(** ** Strings *)

Section PyStrFacts.

Lemma char_in_app c (a b : string) :
  char_in c (a +:+ b) = char_in c a || char_in c b.
Proof.
  induction a as [|x a IH]; [reflexivity|].
  change (String x a +:+ b) with (String x (a +:+ b)).
  cbn [char_in]. rewrite IH. by destruct (Ascii.eqb c x).
Qed.

Lemma char_in_one c x : char_in c (String x EmptyString) = Ascii.eqb c x.
Proof. cbn. by destruct (Ascii.eqb c x). Qed.

Lemma drop_last_snoc (v : string) c :
  drop_last (v +:+ String c EmptyString) = v.
Proof.
  induction v as [|x v IH]; [reflexivity|].
  change (String x v +:+ String c EmptyString)
    with (String x (v +:+ String c EmptyString)).
  cbn [drop_last]. rewrite IH.
  destruct v; reflexivity.
Qed.

Lemma slice_dquoted v : slice_1_m1 (dquoted v) = v.
Proof. apply (drop_last_snoc v dquote_char). Qed.

Lemma slice_squoted v : slice_1_m1 (squoted v) = v.
Proof. apply (drop_last_snoc v squote_char). Qed.

Lemma char_in_dquoted c v :
  char_in c (dquoted v) = Ascii.eqb c dquote_char || char_in c v.
Proof.
  unfold dquoted, DQ. rewrite !char_in_app, !char_in_one.
  destruct (Ascii.eqb c dquote_char), (char_in c v); reflexivity.
Qed.

Lemma char_in_squoted c v :
  char_in c (squoted v) = Ascii.eqb c squote_char || char_in c v.
Proof.
  unfold squoted, SQ. rewrite !char_in_app, !char_in_one.
  destruct (Ascii.eqb c squote_char), (char_in c v); reflexivity.
Qed.

Lemma first_is_quote_dquoted v : first_is_quote (dquoted v) = Ok true.
Proof. reflexivity. Qed.

Lemma first_is_quote_squoted v : first_is_quote (squoted v) = Ok true.
Proof. reflexivity. Qed.

(** A text without quote characters that is not empty starts with a
    character that is no quote. *)
Lemma first_is_quote_plain v :
  v ≠ EmptyString →
  char_in squote_char v = false → char_in dquote_char v = false →
  first_is_quote v = Ok false.
Proof.
  destruct v as [|a v]; [done|]. intros _. cbn [char_in first_is_quote].
  rewrite (Ascii.eqb_sym a squote_char), (Ascii.eqb_sym a dquote_char).
  destruct (Ascii.eqb squote_char a); [done|].
  destruct (Ascii.eqb dquote_char a); done.
Qed.

Lemma char_in_nonempty c v : char_in c v = true → v ≠ EmptyString.
Proof. by destruct v. Qed.

Lemma lstrip_idemp c v : lstrip c (lstrip c v) = lstrip c v.
Proof.
  induction v as [|a v IH]; [reflexivity|].
  cbn [lstrip]. destruct (Ascii.eqb a c) eqn:E; [done|].
  cbn [lstrip]. by rewrite E.
Qed.

End PyStrFacts.

(** ** The formatter *)

(** What [wrap_quotes] does, without the repeated tests of the source. *)
Lemma wrap_quotes_cases text :
  wrap_quotes text =
    if char_in squote_char text then dquoted text
    else if char_in dquote_char text then squoted text
    else if reserved_or_spaced text then dquoted text else text.
Proof.
  unfold wrap_quotes.
  destruct (char_in squote_char text), (char_in dquote_char text),
    (reserved_or_spaced text); reflexivity.
Qed.

(** Without a line break in the text, the space test alone is left of the
    third disjunct. *)
Lemma reserved_or_spaced_no_nl text :
  char_in nl_char text = false →
  reserved_or_spaced text =
    startswith "_" text || startswith "[" text || char_in " "%char text.
Proof.
  intros H. unfold reserved_or_spaced. rewrite H.
  by rewrite andb_true_r.
Qed.

(** A text holding both quote characters and no line break comes out as a
    semicolon block. *)
Lemma formatVal_mixed_quotes text :
  char_in nl_char text = false →
  char_in squote_char text = true → char_in dquote_char text = true →
  _formatVal text = Ok (block text).
Proof.
  intros Hnl Hs Hd. unfold _formatVal.
  rewrite wrap_quotes_cases, Hs, char_in_dquoted, Hnl.
  cbn [Ascii.eqb nl_char dquote_char orb negb].
  rewrite first_is_quote_dquoted, slice_dquoted, Hs, Hd. reflexivity.
Qed.

(** C8, as the code has it: for every text that is not empty and holds no
    line break, a text with a single quote and no double quote is put between
    double quotes; a text with a double quote and no single quote is put
    between single quotes; a text with both is rendered as a semicolon block;
    and a text with neither is put between double quotes exactly when it
    starts with an underscore or an opening bracket or holds a space
    character, and is returned bare otherwise.  The four examples of the
    specification follow. *)
Theorem formatVal_single_line (text : string) :
  text ≠ EmptyString →
  char_in nl_char text = false →
  (char_in squote_char text = true → char_in dquote_char text = false →
   _formatVal text = Ok (dquoted text))
  ∧ (char_in dquote_char text = true → char_in squote_char text = false →
     _formatVal text = Ok (squoted text))
  ∧ (char_in squote_char text = true → char_in dquote_char text = true →
     _formatVal text = Ok (block text))
  ∧ (char_in squote_char text = false → char_in dquote_char text = false →
     _formatVal text =
       Ok (if startswith "_" text || startswith "[" text
              || char_in " "%char text
           then dquoted text else text))
  ∧ _formatVal "simple" = Ok "simple"
  ∧ _formatVal "has space" = Ok (dquoted "has space")
  ∧ _formatVal "it's" = Ok (dquoted "it's")
  ∧ _formatVal ("she said " +:+ DQ +:+ "hi" +:+ DQ)
    = Ok (squoted ("she said " +:+ DQ +:+ "hi" +:+ DQ)).
Proof.
  intros Hne Hnl. repeat split; try reflexivity.
  - intros Hs Hd. unfold _formatVal.
    rewrite wrap_quotes_cases, Hs, char_in_dquoted, Hnl.
    cbn [Ascii.eqb nl_char dquote_char orb negb].
    rewrite first_is_quote_dquoted, slice_dquoted, Hs, Hd. reflexivity.
  - intros Hd Hs. unfold _formatVal.
    rewrite wrap_quotes_cases, Hs, Hd, char_in_squoted, Hnl.
    cbn [Ascii.eqb nl_char squote_char orb negb].
    rewrite first_is_quote_squoted, slice_squoted, Hs. reflexivity.
  - by apply formatVal_mixed_quotes.
  - intros Hs Hd. unfold _formatVal.
    rewrite wrap_quotes_cases, Hs, Hd, (reserved_or_spaced_no_nl _ Hnl).
    destruct (startswith "_" text || startswith "[" text
              || char_in " "%char text).
    + rewrite char_in_dquoted, Hnl.
      cbn [Ascii.eqb nl_char dquote_char orb negb].
      rewrite first_is_quote_dquoted, slice_dquoted, Hs. reflexivity.
    + rewrite Hnl. cbn [negb].
      by rewrite (first_is_quote_plain _ Hne Hs Hd).
Qed.

Lemma formatVal_single_line_witness :
  "it's" ≠ EmptyString
  ∧ char_in nl_char "it's" = false
  ∧ _formatVal "it's" = Ok (dquoted "it's").
Proof.
  split; [done|]. split; [reflexivity|].
  destruct (formatVal_single_line "it's" ltac:(done) eq_refl) as (H & _).
  exact (H eq_refl eq_refl).
Defined.

(** The claim C8 as written fails on a text with both quote characters: it
    holds a single quote and no line break, and is not returned between
    double quotes. *)
Lemma formatVal_mixed_not_dquoted :
  char_in nl_char ("a'b" +:+ DQ +:+ "c") = false
  ∧ char_in squote_char ("a'b" +:+ DQ +:+ "c") = true
  ∧ _formatVal ("a'b" +:+ DQ +:+ "c") = Ok (block ("a'b" +:+ DQ +:+ "c"))
  ∧ _formatVal ("a'b" +:+ DQ +:+ "c") ≠ Ok (dquoted ("a'b" +:+ DQ +:+ "c")).
Proof. repeat split; try reflexivity. intros H; discriminate H. Qed.

(** The empty text is left out of C8: [val[0]] raises on it. *)
Lemma formatVal_empty : _formatVal EmptyString = Err IndexError.
Proof. reflexivity. Qed.

(** C9, as the code has it: for every text that holds a line break, the
    formatter returns the semicolon block around the text itself, verbatim:
    a line break, a semicolon, the text, a line break, a semicolon, a line
    break.  Quote characters that belong to the text are kept; only the
    quotes the first half of the function added are taken off again.  The
    example of the specification is the last conjunct. *)
Theorem formatVal_multi_line (text : string) :
  char_in nl_char text = true →
  _formatVal text = Ok (NL +:+ ";" +:+ text +:+ NL +:+ ";" +:+ NL)
  ∧ _formatVal ("a" +:+ NL +:+ "b")
    = Ok (NL +:+ ";a" +:+ NL +:+ "b" +:+ NL +:+ ";" +:+ NL).
Proof.
  intros Hnl. split; [|reflexivity].
  change (NL +:+ ";" +:+ text +:+ NL +:+ ";" +:+ NL) with (block text).
  unfold _formatVal. rewrite wrap_quotes_cases.
  destruct (char_in squote_char text) eqn:Hs;
    [|destruct (char_in dquote_char text) eqn:Hd;
      [|destruct (reserved_or_spaced text)]].
  - rewrite char_in_dquoted, Hnl, orb_true_r, first_is_quote_dquoted.
    by rewrite slice_dquoted.
  - rewrite char_in_squoted, Hnl, orb_true_r, first_is_quote_squoted.
    by rewrite slice_squoted.
  - rewrite char_in_dquoted, Hnl, orb_true_r, first_is_quote_dquoted.
    by rewrite slice_dquoted.
  - rewrite Hnl.
    by rewrite (first_is_quote_plain _ (char_in_nonempty _ _ Hnl) Hs Hd).
Qed.

Lemma formatVal_multi_line_witness :
  char_in nl_char ("x" +:+ NL +:+ "y z") = true
  ∧ _formatVal ("x" +:+ NL +:+ "y z")
    = Ok (NL +:+ ";" +:+ ("x" +:+ NL +:+ "y z") +:+ NL +:+ ";" +:+ NL).
Proof.
  split; [reflexivity|].
  exact (proj1 (formatVal_multi_line ("x" +:+ NL +:+ "y z") eq_refl)).
Defined.

(** The claim C9 as written fails on a text that arrives between single
    quotes: the quotes of the text are not stripped, the block holds them. *)
Lemma formatVal_keeps_text_quotes :
  char_in nl_char (SQ +:+ ("a" +:+ NL +:+ "b") +:+ SQ) = true
  ∧ _formatVal (SQ +:+ ("a" +:+ NL +:+ "b") +:+ SQ)
    = Ok (block (SQ +:+ ("a" +:+ NL +:+ "b") +:+ SQ))
  ∧ _formatVal (SQ +:+ ("a" +:+ NL +:+ "b") +:+ SQ)
    ≠ Ok (block ("a" +:+ NL +:+ "b")).
Proof. repeat split; try reflexivity. intros H; discriminate H. Qed.

(** ** The monad and the store *)

Lemma bind_unfold {A B} (m : M A) (f : A → M B) s :
  (m ≫= f) s =
    match m s with
    | Return a s' => f a s'
    | Raise e s' => Raise e s'
    | Fault => Fault
    end.
Proof. reflexivity. Qed.

Lemma get_obj_ok s l o : heap s !! l = Some o → get_obj l s = Return o s.
Proof. intros H. unfold get_obj. by rewrite H. Qed.

Lemma get_item_ok s l i :
  heap s !! l = Some (OItem i) → get_item l s = Return i s.
Proof. intros H. unfold get_item. by rewrite bind_unfold, (get_obj_ok _ _ _ H). Qed.

Lemma get_category_ok s l c :
  heap s !! l = Some (OCategory c) → get_category l s = Return c s.
Proof.
  intros H. unfold get_category. by rewrite bind_unfold, (get_obj_ok _ _ _ H).
Qed.

Lemma get_saveframe_ok s l f :
  heap s !! l = Some (OSaveFrame f) → get_saveframe l s = Return f s.
Proof.
  intros H. unfold get_saveframe. by rewrite bind_unfold, (get_obj_ok _ _ _ H).
Qed.

Lemma get_datablock_ok s l b :
  heap s !! l = Some (ODataBlock b) → get_datablock l s = Return b s.
Proof.
  intros H. unfold get_datablock. by rewrite bind_unfold, (get_obj_ok _ _ _ H).
Qed.

Lemma get_ciffile_ok s l f :
  heap s !! l = Some (OCifFile f) → get_ciffile l s = Return f s.
Proof.
  intros H. unfold get_ciffile. by rewrite bind_unfold, (get_obj_ok _ _ _ H).
Qed.

Lemma lookup_upd_eq s l o o' :
  heap s !! l = Some o' → heap (upd s l o) !! l = Some o.
Proof.
  intros H. apply list_lookup_insert_eq. by eapply lookup_lt_Some.
Qed.

Lemma lookup_upd_ne s l l' o :
  l ≠ l' → heap (upd s l o) !! l' = heap s !! l'.
Proof. intros H. by apply list_lookup_insert_ne. Qed.

Lemma upd_upd s l o o' : upd (upd s l o) l o' = upd s l o'.
Proof. unfold upd; cbn. by rewrite list_insert_insert_eq. Qed.

Lemma lookup_push_old s o l x :
  heap s !! l = Some x → heap (push s o) !! l = Some x.
Proof. intros H. cbn. by apply lookup_app_l_Some. Qed.

Lemma lookup_push_new s o : heap (push s o) !! length (heap s) = Some o.
Proof. cbn. by rewrite lookup_app_r, Nat.sub_diag. Qed.

(** ** Item: the three states of [setValue] *)

Section SetValue.

Variables (s : state) (l : loc) (i : Item_) (c : Category_).
Hypothesis Hitem : heap s !! l = Some (OItem i).
Hypothesis Hparent : heap s !! it_parent i = Some (OCategory c).

Lemma item_not_parent : l ≠ it_parent i.
Proof using Hitem Hparent. intros E. rewrite <- E in Hparent. congruence. Qed.

(** Empty to scalar: a first value that is no list is stored as it is. *)
Lemma setValue_first_scalar v t n :
  it_value i = VNone → it_isColumn i = false → is_list v = false →
  Item.setValue l v t n s =
    Return tt
      (upd s l (OItem (Item.with_lineno
                         (Item.with_type (Item.with_value i v) t) n))).
Proof using Hitem.
  intros Hv Hc Hs. unfold Item.setValue.
  rewrite bind_unfold, (get_item_ok _ _ _ Hitem), Hv, Hc. cbn.
  by destruct v.
Qed.

(** [self.parent.isTable = True] after the item was overwritten. *)
Lemma mark_parent_table_after_put i' :
  it_parent i' = it_parent i →
  Item.mark_parent_table l (upd s l (OItem i')) =
    Return tt
      (upd (upd s l (OItem i')) (it_parent i)
         (OCategory (Category.with_isTable c true))).
Proof using Hitem Hparent.
  intros Hp. unfold Item.mark_parent_table.
  rewrite bind_unfold, (get_item_ok _ _ i'); [|by eapply lookup_upd_eq].
  rewrite Hp, bind_unfold, (get_category_ok _ _ c); [done|].
  rewrite lookup_upd_ne; [done|apply item_not_parent].
Qed.

(** Empty to column: a first value that is a list of two or more elements
    becomes the column; type and line number are not touched. *)
Lemma setValue_first_list x y rest t n :
  it_value i = VNone → it_isColumn i = false →
  Item.setValue l (VList (x :: y :: rest)) t n s =
    Return tt
      (upd (upd s l (OItem (Item.with_isColumn
                              (Item.with_value i (VList (x :: y :: rest)))
                              true)))
         (it_parent i) (OCategory (Category.with_isTable c true))).
Proof using Hitem Hparent.
  intros Hv Hc. unfold Item.setValue.
  rewrite bind_unfold, (get_item_ok _ _ _ Hitem), Hv, Hc. cbn [is_None negb andb].
  rewrite bind_unfold. cbn [put_obj].
  by rewrite mark_parent_table_after_put.
Qed.

(** Scalar to column: the second value promotes the three fields. *)
Lemma setValue_promote v t n :
  is_None (it_value i) = false → it_isColumn i = false →
  Item.setValue l v t n s =
    Return tt
      (upd (upd s l
              (OItem (Item.with_isColumn
                        (Item.with_lineno
                           (Item.with_type
                              (Item.with_value i (VList [it_value i; v]))
                              (VList [it_type i; t]))
                           (VList [it_lineno i; n]))
                        true)))
         (it_parent i) (OCategory (Category.with_isTable c true))).
Proof using Hitem Hparent.
  intros Hv Hc. unfold Item.setValue.
  rewrite bind_unfold, (get_item_ok _ _ _ Hitem), Hv, Hc. cbn [negb andb].
  rewrite bind_unfold. cbn [put_obj].
  by rewrite mark_parent_table_after_put.
Qed.

(** Column to column: the three lists grow together. *)
Lemma setValue_append vs ts ns v t n :
  it_isColumn i = true →
  it_value i = VList vs → it_type i = VList ts → it_lineno i = VList ns →
  Item.setValue l v t n s =
    Return tt
      (upd s l
         (OItem (Item.with_lineno
                   (Item.with_type
                      (Item.with_value i (VList (vs ++ [v])))
                      (VList (ts ++ [t])))
                   (VList (ns ++ [n]))))).
Proof using Hitem.
  intros Hc Hv Ht Hn. unfold Item.setValue.
  rewrite bind_unfold, (get_item_ok _ _ _ Hitem), Hv, Hc. cbn [is_None negb andb].
  rewrite bind_unfold. cbn [Item.py_append mret M_ret].
  rewrite bind_unfold. cbn [put_obj].
  rewrite bind_unfold, (get_item_ok _ _ (Item.with_value i (VList (vs ++ [v]))));
    [|by eapply lookup_upd_eq].
  cbn [Item.with_value it_type]. rewrite Ht.
  rewrite bind_unfold. cbn [Item.py_append mret M_ret].
  rewrite bind_unfold. cbn [put_obj]. rewrite upd_upd.
  rewrite bind_unfold, (get_item_ok _ _ _ (lookup_upd_eq _ _ _ _ Hitem)).
  cbn [Item.with_type Item.with_value it_lineno]. rewrite Hn.
  rewrite bind_unfold. cbn [Item.py_append mret M_ret put_obj].
  unfold put_obj. by rewrite upd_upd.
Qed.

(** Column with a type that is no list: the value grows, then
    [self.type.append] raises. *)
Lemma setValue_append_raises vs v t n :
  it_isColumn i = true →
  it_value i = VList vs → is_list (it_type i) = false →
  Item.setValue l v t n s =
    Raise AttributeError
      (upd s l (OItem (Item.with_value i (VList (vs ++ [v]))))).
Proof using Hitem.
  intros Hc Hv Ht. unfold Item.setValue.
  rewrite bind_unfold, (get_item_ok _ _ _ Hitem), Hv, Hc. cbn [is_None negb andb].
  rewrite bind_unfold. cbn [Item.py_append mret M_ret].
  rewrite bind_unfold. cbn [put_obj].
  rewrite bind_unfold, (get_item_ok _ _ (Item.with_value i (VList (vs ++ [v]))));
    [|by eapply lookup_upd_eq].
  cbn [Item.with_value it_type]. rewrite bind_unfold.
  by destruct (it_type i).
Qed.

End SetValue.

Lemma for_each_cons {A} (x : A) xs (body : A → M unit) s :
  for_each (x :: xs) body s =
    match body x s with
    | Return _ s' => for_each xs body s'
    | Raise e s' => Raise e s'
    | Fault => Fault
    end.
Proof. reflexivity. Qed.

(** Calls on an item that is a column with three lists only append. *)
Lemma setValues_column l calls :
  ∀ s i vs ts ns,
    heap s !! l = Some (OItem i) →
    it_isColumn i = true →
    it_value i = VList vs → it_type i = VList ts → it_lineno i = VList ns →
    ∃ s' i',
      setValues l calls s = Return tt s'
      ∧ heap s' !! l = Some (OItem i')
      ∧ it_isColumn i' = true
      ∧ it_value i' = VList (vs ++ map call_value calls)
      ∧ it_type i' = VList (ts ++ map call_type calls)
      ∧ it_lineno i' = VList (ns ++ map call_lineno calls)
      ∧ (∀ l', l' ≠ l → heap s' !! l' = heap s !! l').
Proof.
  induction calls as [|c calls IH]; intros s i vs ts ns Hl Hc Hv Ht Hn.
  - exists s, i. cbn [map]. rewrite !app_nil_r. by repeat split.
  - unfold setValues. rewrite for_each_cons.
    rewrite (setValue_append s l i Hl vs ts ns _ _ _ Hc Hv Ht Hn).
    edestruct (IH (upd s l (OItem (Item.with_lineno
                     (Item.with_type
                        (Item.with_value i (VList (vs ++ [call_value c])))
                        (VList (ts ++ [call_type c])))
                     (VList (ns ++ [call_lineno c]))))))
      as (s' & i' & Hrun & Hl' & Hc' & Hv' & Ht' & Hn' & Hframe);
      [by eapply lookup_upd_eq|exact Hc|reflexivity..|].
    exists s', i'. split; [exact Hrun|]. split; [exact Hl'|].
    split; [exact Hc'|].
    cbn [map]. rewrite !(cons_middle _ _ (map _ calls)), !app_assoc.
    repeat split; try done.
    intros l' Hne. rewrite (Hframe l' Hne). by apply lookup_upd_ne.
Qed.

(** C1, as the code has it: on an item that is still empty, two or more
    [setValue] calls that each pass a value that is no list, the first of
    them not [None], leave the item a column whose raw value is the list of
    all the values passed, in call order; the types and the line numbers
    passed are collected the same way, and the owning category is a table. *)
Theorem setValue_scalars_make_column
    (s : state) (l : loc) (i : Item_) (c : Category_) (calls : list call) :
  heap s !! l = Some (OItem i) →
  heap s !! it_parent i = Some (OCategory c) →
  it_value i = VNone → it_isColumn i = false →
  (2 ≤ length calls)%nat →
  Forall (λ c, is_list (call_value c) = false) calls →
  head (map call_value calls) ≠ Some VNone →
  ∃ s' i' c',
    setValues l calls s = Return tt s'
    ∧ heap s' !! l = Some (OItem i')
    ∧ it_isColumn i' = true
    ∧ Item.getRawValue l s' = Return (VList (map call_value calls)) s'
    ∧ it_type i' = VList (map call_type calls)
    ∧ it_lineno i' = VList (map call_lineno calls)
    ∧ heap s' !! it_parent i = Some (OCategory c')
    ∧ cat_isTable c' = true.
Proof.
  intros Hl Hp Hv Hc Hlen Hscalar Hfirst.
  destruct calls as [|c1 [|c2 calls]]; [cbn in Hlen; lia..|].
  apply Forall_cons in Hscalar as [Hs1 _].
  assert (is_None (call_value c1) = false) as Hnn.
  { cbn in Hfirst. destruct (call_value c1); try done. }
  pose proof (item_not_parent s l i c Hl Hp) as Hne.
  unfold setValues. rewrite for_each_cons.
  rewrite (setValue_first_scalar s l i Hl _ _ _ Hv Hc Hs1).
  set (i1 := Item.with_lineno _ _).
  rewrite for_each_cons.
  rewrite (setValue_promote (upd s l (OItem i1)) l i1 c);
    [|by eapply lookup_upd_eq|by rewrite lookup_upd_ne|done|done].
  rewrite upd_upd.
  set (i2 := Item.with_isColumn _ _).
  set (s2 := upd (upd s l (OItem i2)) _ _).
  assert (heap s2 !! l = Some (OItem i2)) as Hl2.
  { unfold s2. rewrite lookup_upd_ne by done. by eapply lookup_upd_eq. }
  destruct (setValues_column l calls s2 i2 _ _ _ Hl2 eq_refl eq_refl eq_refl
              eq_refl) as (s' & i' & Hrun & Hl' & Hc' & Hv' & Ht' & Hn' & Hfr).
  exists s', i', (Category.with_isTable c true).
  split; [exact Hrun|]. split; [exact Hl'|]. split; [exact Hc'|].
  split; [|split; [exact Ht'|split; [exact Hn'|split; [|done]]]].
  - unfold Item.getRawValue.
    by rewrite bind_unfold, (get_item_ok _ _ _ Hl'), Hv'.
  - rewrite Hfr by done. unfold s2. eapply lookup_upd_eq.
    by rewrite lookup_upd_ne.
Qed.

Lemma setValue_scalars_make_column_witness :
  ∃ s' i' c',
    setValues 3 [plain_call (VStr "N"); plain_call VNone; plain_call (VInt 7)]
      item_state = Return tt s'
    ∧ heap s' !! 3 = Some (OItem i')
    ∧ it_isColumn i' = true
    ∧ Item.getRawValue 3 s' = Return (VList [VStr "N"; VNone; VInt 7]) s'
    ∧ it_type i' = VList (replicate 3 Item.default_type)
    ∧ it_lineno i' = VList (replicate 3 Item.default_lineno)
    ∧ heap s' !! 2 = Some (OCategory c')
    ∧ cat_isTable c' = true.
Proof.
  apply (setValue_scalars_make_column item_state 3
           {| it_value := VNone; it_type := VStrClass; it_mandatory := false;
              it_isColumn := false; it_id := "x"; it_name := "x";
              it_lineno := VInt (-1); it_parent := 2 |}
           {| cat_items := {["x" := 3]}; cat_recycleBin := ∅;
              cat_isTable := false; cat_id := "c"; cat_maxTagLength := 3;
              cat_parent := 1 |}
           [plain_call (VStr "N"); plain_call VNone; plain_call (VInt 7)]).
  - vm_compute. reflexivity.
  - vm_compute. reflexivity.
  - reflexivity.
  - reflexivity.
  - cbn. lia.
  - repeat constructor.
  - cbn. discriminate.
Defined.

(** The claim C1 as written fails when the first value passed is [None]:
    [None] is no list, yet after [setValue(None)] and [setValue(1)] the item
    is the scalar 1 and no column. *)
Lemma setValue_None_first_stays_scalar :
  Forall (λ c, is_list (call_value c) = false)
    [plain_call VNone; plain_call (VInt 1)]
  ∧ ∃ s' i',
      setValues 3 [plain_call VNone; plain_call (VInt 1)] item_state
      = Return tt s'
      ∧ heap s' !! 3 = Some (OItem i')
      ∧ it_isColumn i' = false
      ∧ Item.getRawValue 3 s' = Return (VInt 1) s'.
Proof.
  split; [repeat constructor|].
  eexists _, _. split; [vm_compute; reflexivity|].
  split; [vm_compute; reflexivity|]. split; reflexivity.
Qed.

(** ** Item: the column invariant *)

(** The promotion of a scalar establishes the invariant. *)
Lemma setValue_promote_column_inv s l i c v t n :
  heap s !! l = Some (OItem i) →
  heap s !! it_parent i = Some (OCategory c) →
  is_None (it_value i) = false → it_isColumn i = false →
  ∃ s' i',
    Item.setValue l v t n s = Return tt s'
    ∧ heap s' !! l = Some (OItem i')
    ∧ it_isColumn i' = true ∧ column_inv i'.
Proof.
  intros Hl Hp Hv Hc.
  rewrite (setValue_promote s l i c Hl Hp v t n Hv Hc).
  eexists _, _. split; [reflexivity|]. split.
  - rewrite lookup_upd_ne
      by (apply not_eq_sym; by eapply item_not_parent).
    by eapply lookup_upd_eq.
  - split; [reflexivity|]. intros _. by eexists _, _, _.
Qed.

(** A call on a column that satisfies the invariant returns and keeps it. *)
Lemma setValue_keeps_column_inv s l i v t n :
  heap s !! l = Some (OItem i) →
  it_isColumn i = true → column_inv i →
  ∃ s' i',
    Item.setValue l v t n s = Return tt s'
    ∧ heap s' !! l = Some (OItem i')
    ∧ it_isColumn i' = true ∧ column_inv i'.
Proof.
  intros Hl Hc Hinv.
  destruct (Hinv Hc) as (vs & ts & ns & Hv & Ht & Hn & Hvt & Htn).
  rewrite (setValue_append s l i Hl vs ts ns v t n Hc Hv Ht Hn).
  eexists _, _. split; [reflexivity|]. split; [by eapply lookup_upd_eq|].
  split; [exact Hc|]. intros _.
  exists (vs ++ [v])%list, (ts ++ [t])%list, (ns ++ [n])%list.
  rewrite !length_app. cbn. repeat split; lia.
Qed.

(** An empty item whose type is no list (the type of a fresh item is the
    class [str]) that is first given a list of two or more values: the call
    returns, and whatever the next call passes, it raises
    [AttributeError]. *)
Lemma setValue_list_first_then_raises s l i c x y rest t0 n0 v t n :
  heap s !! l = Some (OItem i) →
  heap s !! it_parent i = Some (OCategory c) →
  it_value i = VNone → it_isColumn i = false → is_list (it_type i) = false →
  ∃ s1 s2,
    Item.setValue l (VList (x :: y :: rest)) t0 n0 s = Return tt s1
    ∧ Item.setValue l v t n s1 = Raise AttributeError s2.
Proof.
  intros Hl Hp Hv Hc Ht.
  rewrite (setValue_first_list s l i c Hl Hp x y rest t0 n0 Hv Hc).
  set (i1 := Item.with_isColumn _ true). set (s1 := upd (upd s l _) _ _).
  assert (heap s1 !! l = Some (OItem i1)) as Hl1.
  { unfold s1. rewrite lookup_upd_ne
      by (apply not_eq_sym; by eapply item_not_parent).
    by eapply lookup_upd_eq. }
  eexists s1, _. split; [reflexivity|].
  exact (setValue_append_raises s1 l i1 Hl1 (x :: y :: rest) v t n
           eq_refl eq_refl Ht).
Qed.

(** C2 fails on the path the claim names: a first [setValue] with a list of
    two values makes the item a column whose type is still the class [str]
    and whose line number is still -1, no lists; the invariant is broken,
    and the next [setValue] appends to the value and then raises
    [AttributeError] at [self.type.append]. *)
Theorem setValue_list_first_breaks_column :
  ∃ s1 i1 s2 i2,
    Item.setValue 3 (VList [VInt 1; VInt 2]) Item.default_type
      Item.default_lineno item_state = Return tt s1
    ∧ heap s1 !! 3 = Some (OItem i1)
    ∧ it_isColumn i1 = true
    ∧ it_value i1 = VList [VInt 1; VInt 2]
    ∧ it_type i1 = VStrClass
    ∧ it_lineno i1 = VInt (-1)
    ∧ ¬ column_inv i1
    ∧ Item.setValue 3 (VInt 3) Item.default_type Item.default_lineno s1
      = Raise AttributeError s2
    ∧ heap s2 !! 3 = Some (OItem i2)
    ∧ it_value i2 = VList [VInt 1; VInt 2; VInt 3]
    ∧ it_type i2 = VStrClass.
Proof.
  eexists _, _, _, _. split; [vm_compute; reflexivity|].
  split; [vm_compute; reflexivity|].
  do 4 (split; [reflexivity|]).
  split.
  { intros H. destruct (H eq_refl) as (? & ? & ? & _ & Ht & _).
    discriminate Ht. }
  split; [vm_compute; reflexivity|].
  split; [vm_compute; reflexivity|]. split; reflexivity.
Qed.

(** ** Symbolic execution of methods *)

Lemma try_except_unfold {A} (body handler : M A) s :
  try_except body handler s =
    match body s with
    | Raise AttributeError s' => handler s'
    | o => o
    end.
Proof. reflexivity. Qed.

Lemma lookup_fresh_ne s l (o : obj) :
  heap s !! l = Some o → l ≠ length (heap s).
Proof. intros H%lookup_lt_Some. lia. Qed.

Lemma obj_id_ok s l o k :
  heap s !! l = Some o → id_of o = Some k → obj_id (VRef l) s = Return k s.
Proof.
  intros H Hk. unfold obj_id. rewrite bind_unfold, (get_obj_ok _ _ _ H).
  destruct o; cbn in Hk; by simplify_eq.
Qed.

Lemma obj_value_ok s l i :
  heap s !! l = Some (OItem i) → obj_value (VRef l) s = Return (it_value i) s.
Proof.
  intros H. unfold obj_value. by rewrite bind_unfold, (get_obj_ok _ _ _ H).
Qed.

(** Lookups in a state written as updates and allocations over [s]. *)
Ltac slook :=
  lazymatch goal with
  | |- heap (upd _ ?l _) !! ?l = Some _ => eapply lookup_upd_eq; slook
  | |- heap (upd _ _ _) !! _ = Some _ =>
      rewrite lookup_upd_ne
        by (first [assumption | apply not_eq_sym; assumption | congruence]);
      slook
  | |- heap (push ?s _) !! length (heap ?s) = Some _ => apply lookup_push_new
  | |- heap (push _ _) !! _ = Some _ => apply lookup_push_old; slook
  | |- heap (emit ?s ?x) !! ?l = Some ?o =>
      change (heap s !! l = Some o); slook
  | |- _ => eassumption
  end.

(** One step of a method. *)
Ltac mstep :=
  first
    [ rewrite bind_unfold
    | rewrite try_except_unfold
    | erewrite get_obj_ok by slook
    | erewrite get_ciffile_ok by slook
    | erewrite get_datablock_ok by slook
    | erewrite get_saveframe_ok by slook
    | erewrite get_category_ok by slook
    | erewrite get_item_ok by slook
    | erewrite obj_id_ok by (first [slook | reflexivity | eassumption])
    | erewrite obj_value_ok by slook
    | progress cbn [mret M_ret put_obj alloc print py_isalnum raise] ].

Ltac mrun := repeat mstep.

(** *** Constructors *)

Lemma DataBlock_init s parent f name :
  heap s !! parent = Some (OCifFile f) →
  DataBlock.__init__ name parent s =
    Return (length (heap s))
      (upd (push s (new_datablock name parent)) parent
         (OCifFile (CifFile.with_data_blocks f
                      (<[name := length (heap s)]> (cf_data_blocks f))))).
Proof. intros Hs. unfold DataBlock.__init__. mrun. reflexivity. Qed.

Lemma SaveFrame_init s parent b name :
  heap s !! parent = Some (ODataBlock b) →
  SaveFrame.__init__ name parent s =
    Return (length (heap s))
      (upd (push s (new_saveframe name parent)) parent
         (ODataBlock (DataBlock.with_saveFrames b
                        (<[name := length (heap s)]> (db_saveFrames b))))).
Proof. intros Hs. unfold SaveFrame.__init__. mrun. reflexivity. Qed.

Lemma Category_init_block s parent b name :
  heap s !! parent = Some (ODataBlock b) →
  Category.__init__ name parent s =
    Return (length (heap s))
      (upd (push s (new_category (lstrip "_"%char name) parent)) parent
         (ODataBlock (DataBlock.with_categories b
                        (<[lstrip "_"%char name := length (heap s)]>
                           (db_categories b))))).
Proof.
  intros Hs. unfold Category.__init__, Category.register. mrun. reflexivity.
Qed.

Lemma Category_init_frame s parent f name :
  heap s !! parent = Some (OSaveFrame f) →
  Category.__init__ name parent s =
    Return (length (heap s))
      (upd (push s (new_category (lstrip "_"%char name) parent)) parent
         (OSaveFrame (SaveFrame.with_categories f
                        (<[lstrip "_"%char name := length (heap s)]>
                           (sf_categories f))))).
Proof.
  intros Hs. unfold Category.__init__, Category.register. mrun. reflexivity.
Qed.

Lemma Item_init s parent c name :
  heap s !! parent = Some (OCategory c) →
  Item.__init__ name parent s =
    Return (length (heap s))
      (upd (push s (new_item name parent)) parent
         (OCategory (Category.with_items c
                       (<[name := length (heap s)]> (cat_items c))))).
Proof. intros Hs. unfold Item.__init__. mrun. reflexivity. Qed.

(** A constructor handed a parent of another class raises
    [AttributeError]: the parent has no map to register in. *)
Lemma Item_init_not_category s parent o name :
  heap s !! parent = Some o → kind_of o ≠ KCategory →
  Item.__init__ name parent s = Raise AttributeError (push s (new_item name parent)).
Proof.
  intros Hs Hk. unfold Item.__init__. mrun. by destruct o.
Qed.

(** *** [setdefault] *)

Lemma setdefault_lookup (m : gmap string loc) k l :
  (setdefault m k l).1 !! k = Some (setdefault m k l).2.
Proof.
  unfold setdefault. destruct (m !! k) eqn:E; cbn; [done|].
  by rewrite lookup_insert_eq.
Qed.

Lemma setdefault_keeps (m : gmap string loc) k l j x :
  m !! j = Some x → (setdefault m k l).1 !! j = Some x.
Proof.
  intros H. unfold setdefault. destruct (m !! k) eqn:E; cbn; [done|].
  rewrite lookup_insert_ne; [done|congruence].
Qed.

Lemma setdefault_present (m : gmap string loc) k l x :
  m !! k = Some x → setdefault m k l = (m, x).
Proof. intros H. unfold setdefault. by rewrite H. Qed.

Lemma setdefault_idemp (m : gmap string loc) k l :
  setdefault (setdefault m k l).1 k l = setdefault m k l.
Proof.
  rewrite (setdefault_present _ _ _ _ (setdefault_lookup m k l)).
  by destruct (setdefault m k l).
Qed.

Lemma setdefault_subseteq (m : gmap string loc) k l :
  m ⊆ (setdefault m k l).1.
Proof.
  unfold setdefault. destruct (m !! k) eqn:E; cbn; [done|].
  by apply insert_subseteq.
Qed.

(** *** The methods on an object, on a known name, on a new name *)

Lemma setDataBlock_ref s self f l o k :
  heap s !! self = Some (OCifFile f) →
  heap s !! l = Some o → id_of o = Some k →
  CifFile.setDataBlock self (VRef l) s =
    Return (VRef (setdefault (cf_data_blocks f) k l).2)
      (upd s self
         (OCifFile (CifFile.with_data_blocks f
                      (setdefault (cf_data_blocks f) k l).1))).
Proof.
  intros Hs Hl Hk. unfold CifFile.setDataBlock. mrun.
  destruct (setdefault _ _ _). mrun. reflexivity.
Qed.

Lemma setDataBlock_fetch s self f name l :
  heap s !! self = Some (OCifFile f) → cf_data_blocks f !! name = Some l →
  CifFile.setDataBlock self (VStr name) s
  = CifFile.setDataBlock self (VRef l) s.
Proof.
  intros Hs Hl. unfold CifFile.setDataBlock. mrun. rewrite Hl. mrun.
  reflexivity.
Qed.

Lemma setDataBlock_new s self f name :
  heap s !! self = Some (OCifFile f) → cf_data_blocks f !! name = None →
  CifFile.setDataBlock self (VStr name) s =
    Return (VRef (length (heap s)))
      (upd (push s (new_datablock name self)) self
         (OCifFile (CifFile.with_data_blocks f
                      (<[name := length (heap s)]> (cf_data_blocks f))))).
Proof.
  intros Hs Hl. unfold CifFile.setDataBlock at 1. mrun. rewrite Hl. mrun.
  rewrite (DataBlock_init _ _ f) by done.
  pose proof (lookup_fresh_ne _ _ _ Hs). mrun.
  cbn [CifFile.with_data_blocks cf_data_blocks].
  rewrite (setdefault_present _ _ _ (length (heap s)))
    by apply lookup_insert_eq.
  mrun. by rewrite upd_upd.
Qed.

Lemma setSaveFrame_ref s self b l o k :
  heap s !! self = Some (ODataBlock b) →
  heap s !! l = Some o → id_of o = Some k →
  DataBlock.setSaveFrame self (VRef l) s =
    Return (VRef (setdefault (db_saveFrames b) k l).2)
      (upd s self
         (ODataBlock (DataBlock.with_saveFrames b
                        (setdefault (db_saveFrames b) k l).1))).
Proof.
  intros Hs Hl Hk. unfold DataBlock.setSaveFrame. mrun.
  destruct (setdefault _ _ _). mrun. reflexivity.
Qed.

Lemma setSaveFrame_fetch s self b name l :
  heap s !! self = Some (ODataBlock b) → db_saveFrames b !! name = Some l →
  DataBlock.setSaveFrame self (VStr name) s
  = DataBlock.setSaveFrame self (VRef l) s.
Proof.
  intros Hs Hl. unfold DataBlock.setSaveFrame. mrun. rewrite Hl. mrun.
  reflexivity.
Qed.

Lemma setSaveFrame_new s self b name :
  heap s !! self = Some (ODataBlock b) → db_saveFrames b !! name = None →
  DataBlock.setSaveFrame self (VStr name) s =
    Return (VRef (length (heap s)))
      (upd (push s (new_saveframe name self)) self
         (ODataBlock (DataBlock.with_saveFrames b
                        (<[name := length (heap s)]> (db_saveFrames b))))).
Proof.
  intros Hs Hl. unfold DataBlock.setSaveFrame at 1. mrun. rewrite Hl. mrun.
  rewrite (SaveFrame_init _ _ b) by done.
  pose proof (lookup_fresh_ne _ _ _ Hs). mrun.
  cbn [DataBlock.with_saveFrames db_saveFrames].
  rewrite (setdefault_present _ _ _ (length (heap s)))
    by apply lookup_insert_eq.
  mrun. by rewrite upd_upd.
Qed.

Lemma setCategory_block_ref s self b l o k :
  heap s !! self = Some (ODataBlock b) →
  heap s !! l = Some o → id_of o = Some k →
  DataBlock.setCategory self (VRef l) s =
    Return (VRef (setdefault (db_categories b) k l).2)
      (upd s self
         (ODataBlock (DataBlock.with_categories b
                        (setdefault (db_categories b) k l).1))).
Proof.
  intros Hs Hl Hk. unfold DataBlock.setCategory. mrun.
  destruct (setdefault _ _ _). mrun. reflexivity.
Qed.

Lemma setCategory_block_fetch s self b name l :
  heap s !! self = Some (ODataBlock b) →
  db_categories b !! lstrip "_"%char name = Some l →
  DataBlock.setCategory self (VStr name) s
  = DataBlock.setCategory self (VRef l) s.
Proof.
  intros Hs Hl. unfold DataBlock.setCategory. mrun. rewrite Hl. mrun.
  reflexivity.
Qed.

Lemma setCategory_block_new s self b name :
  heap s !! self = Some (ODataBlock b) →
  db_categories b !! lstrip "_"%char name = None →
  DataBlock.setCategory self (VStr name) s =
    Return (VRef (length (heap s)))
      (upd (push s (new_category (lstrip "_"%char name) self)) self
         (ODataBlock (DataBlock.with_categories b
                        (<[lstrip "_"%char name := length (heap s)]>
                           (db_categories b))))).
Proof.
  intros Hs Hl. unfold DataBlock.setCategory at 1. mrun. rewrite Hl. mrun.
  rewrite (Category_init_block _ _ b) by done. rewrite lstrip_idemp.
  pose proof (lookup_fresh_ne _ _ _ Hs). mrun.
  cbn [DataBlock.with_categories db_categories].
  rewrite (setdefault_present _ _ _ (length (heap s)))
    by apply lookup_insert_eq.
  mrun. by rewrite upd_upd.
Qed.

Lemma setCategory_frame_ref s self f l o k :
  heap s !! self = Some (OSaveFrame f) →
  heap s !! l = Some o → id_of o = Some k →
  SaveFrame.setCategory self (VRef l) s =
    Return (VRef (setdefault (sf_categories f) k l).2)
      (upd s self
         (OSaveFrame (SaveFrame.with_categories f
                        (setdefault (sf_categories f) k l).1))).
Proof.
  intros Hs Hl Hk. unfold SaveFrame.setCategory. mrun.
  destruct (setdefault _ _ _). mrun. reflexivity.
Qed.

Lemma setCategory_frame_fetch s self f name l :
  heap s !! self = Some (OSaveFrame f) →
  sf_categories f !! lstrip "_"%char name = Some l →
  SaveFrame.setCategory self (VStr name) s
  = SaveFrame.setCategory self (VRef l) s.
Proof.
  intros Hs Hl. unfold SaveFrame.setCategory. mrun. rewrite Hl. mrun.
  reflexivity.
Qed.

Lemma setCategory_frame_new s self f name :
  heap s !! self = Some (OSaveFrame f) →
  sf_categories f !! lstrip "_"%char name = None →
  SaveFrame.setCategory self (VStr name) s =
    Return (VRef (length (heap s)))
      (upd (push s (new_category (lstrip "_"%char name) self)) self
         (OSaveFrame (SaveFrame.with_categories f
                        (<[lstrip "_"%char name := length (heap s)]>
                           (sf_categories f))))).
Proof.
  intros Hs Hl. unfold SaveFrame.setCategory at 1. mrun. rewrite Hl. mrun.
  rewrite (Category_init_frame _ _ f) by done. rewrite lstrip_idemp.
  pose proof (lookup_fresh_ne _ _ _ Hs). mrun.
  cbn [SaveFrame.with_categories sf_categories].
  rewrite (setdefault_present _ _ _ (length (heap s)))
    by apply lookup_insert_eq.
  mrun. by rewrite upd_upd.
Qed.

Lemma setItem_ref s self c l i :
  heap s !! self = Some (OCategory c) →
  heap s !! l = Some (OItem i) →
  Category.setItem self (VRef l) s =
    Return (VRef (setItem_effect c i l).2)
      (upd s self (OCategory (setItem_effect c i l).1)).
Proof.
  intros Hs Hl. assert (self ≠ l) as Hne by congruence.
  unfold Category.setItem. mrun.
  unfold setItem_effect. cbn [fst snd].
  set (c1 := Category.with_maxTagLength c _).
  destruct (negb (is_None (it_value i)) && is_list (it_value i)
            && negb (cat_isTable c1)) eqn:E.
  - mrun. destruct (setdefault _ _ _) eqn:E'. mrun.
    rewrite !upd_upd. reflexivity.
  - mrun. destruct (setdefault _ _ _) eqn:E'. mrun.
    rewrite !upd_upd. reflexivity.
Qed.

Lemma setItem_fetch s self c name l :
  heap s !! self = Some (OCategory c) → cat_items c !! name = Some l →
  Category.setItem self (VStr name) s = Category.setItem self (VRef l) s.
Proof.
  intros Hs Hl. unfold Category.setItem. mrun. rewrite Hl. mrun.
  reflexivity.
Qed.

Lemma setItem_construct s self c name :
  heap s !! self = Some (OCategory c) → cat_items c !! name = None →
  Category.setItem self (VStr name) s =
    Category.setItem self (VRef (length (heap s)))
      (upd (push s (new_item name self)) self
         (OCategory (Category.with_items c
                       (<[name := length (heap s)]> (cat_items c))))).
Proof.
  intros Hs Hl. unfold Category.setItem. mrun. rewrite Hl. mrun.
  rewrite (Item_init _ _ c) by done. mrun. reflexivity.
Qed.

(** The effect of [setItem] for an item already registered under its id. *)
Lemma setItem_effect_registered c i l :
  cat_items c !! it_id i = Some l →
  cat_items (setItem_effect c i l).1 = cat_items c
  ∧ (setItem_effect c i l).2 = l.
Proof.
  intros H. unfold setItem_effect. cbn [fst snd].
  match goal with
  | |- context [if ?b then Category.with_isTable _ true else _] => destruct b
  end; cbn; by rewrite (setdefault_present _ _ _ _ H).
Qed.

Lemma setItem_effect_items c i l :
  cat_items (setItem_effect c i l).1
  = (setdefault (cat_items c) (it_id i) l).1
  ∧ (setItem_effect c i l).2 = (setdefault (cat_items c) (it_id i) l).2
  ∧ cat_id (setItem_effect c i l).1 = cat_id c.
Proof.
  unfold setItem_effect. cbn [fst snd].
  match goal with
  | |- context [if ?b then Category.with_isTable _ true else _] => destruct b
  end; done.
Qed.

Lemma setItem_new s self c name :
  heap s !! self = Some (OCategory c) → cat_items c !! name = None →
  ∃ c',
    Category.setItem self (VStr name) s =
      Return (VRef (length (heap s)))
        (upd (push s (new_item name self)) self (OCategory c'))
    ∧ cat_items c' = <[name := length (heap s)]> (cat_items c)
    ∧ cat_id c' = cat_id c.
Proof.
  intros Hs Hl. rewrite (setItem_construct s self c name Hs Hl).
  pose proof (lookup_fresh_ne _ _ _ Hs) as Hne.
  erewrite setItem_ref; [|slook|unfold new_item; slook].
  rewrite upd_upd.
  set (c0 := Category.with_items c _).
  set (i0 := {| it_value := VNone |}).
  destruct (setItem_effect_registered c0 i0 (length (heap s))) as [Hm Hr];
    [apply lookup_insert_eq|].
  rewrite Hr. eexists. split; [reflexivity|]. split; [exact Hm|].
  apply (setItem_effect_items c0 i0).
Qed.

(** [setItem] on a value that is no string and has no [id]: the result is
    [None] and nothing is written. *)
Lemma setItem_no_id s self arg :
  py_isalnum arg s = Raise AttributeError s →
  obj_id arg s = Raise AttributeError s →
  Category.setItem self arg s = Return VNone s.
Proof.
  intros H1 H2. unfold Category.setItem.
  rewrite bind_unfold, try_except_unfold, bind_unfold, H1. cbn [mret M_ret].
  rewrite bind_unfold, try_except_unfold, bind_unfold, H2. reflexivity.
Qed.

(** ** Construct-or-fetch, for the five methods at once *)

Lemma live_inv k s self m :
  live k s self = Some m →
  ∃ o, heap s !! self = Some o ∧ live_map k o = Some m
       ∧ kind_of o = container_kind k.
Proof.
  unfold live. destruct (heap s !! self) as [o|]; [|done]. cbn.
  intros H. exists o. split; [done|]. split; [done|].
  by destruct k, o.
Qed.

Lemma live_upd k s self o m :
  is_Some (heap s !! self) → live_map k o = Some m →
  live k (upd s self o) self = Some m.
Proof.
  intros [o' Ho'] Hm. unfold live.
  by rewrite (lookup_upd_eq _ _ _ _ Ho').
Qed.

Lemma child_not_container k :
  child_kind k ≠ container_kind k.
Proof. by destruct k. Qed.

(** The method on an object of the child class: [setdefault] under the id of
    the object decides. *)
Lemma cof_ref k s self m l o cid :
  live k s self = Some m →
  heap s !! l = Some o → kind_of o = child_kind k → id_of o = Some cid →
  ∃ s',
    construct_or_fetch k self (VRef l) s
    = Return (VRef (setdefault m cid l).2) s'
    ∧ live k s' self = Some (setdefault m cid l).1
    ∧ (∀ l', l' ≠ self → heap s' !! l' = heap s !! l')
    ∧ stdout s' = stdout s.
Proof.
  intros (oc & Hs & Hm & _)%live_inv Hl Hk Hid.
  destruct k, oc; try discriminate Hm; cbn in Hm; simplify_eq;
    cbn [construct_or_fetch].
  - erewrite setDataBlock_ref by done. eexists. split; [done|].
    split; [by apply live_upd|]. split; [|done].
    intros. by apply lookup_upd_ne.
  - erewrite setSaveFrame_ref by done. eexists. split; [done|].
    split; [by apply live_upd|]. split; [|done].
    intros. by apply lookup_upd_ne.
  - erewrite setCategory_block_ref by done. eexists. split; [done|].
    split; [by apply live_upd|]. split; [|done].
    intros. by apply lookup_upd_ne.
  - erewrite setCategory_frame_ref by done. eexists. split; [done|].
    split; [by apply live_upd|]. split; [|done].
    intros. by apply lookup_upd_ne.
  - destruct o; try discriminate Hk. cbn in Hid. simplify_eq.
    erewrite setItem_ref by done.
    destruct (setItem_effect_items c i l) as (Hi & Hr & _).
    rewrite Hr. eexists. split; [done|].
    split; [apply live_upd; [done|cbn [live_map]; by rewrite Hi]|].
    split; [|done]. intros. by apply lookup_upd_ne.
Qed.

(** The method on a name that is a key of the live map is the method on the
    object found there. *)
Lemma cof_fetch k s self m name l :
  live k s self = Some m → m !! key_of k name = Some l →
  construct_or_fetch k self (VStr name) s
  = construct_or_fetch k self (VRef l) s.
Proof.
  intros (oc & Hs & Hm & _)%live_inv Hl.
  destruct k, oc; try discriminate Hm; cbn in Hm, Hl; simplify_eq;
    cbn [construct_or_fetch].
  - by eapply setDataBlock_fetch.
  - by eapply setSaveFrame_fetch.
  - by eapply setCategory_block_fetch.
  - by eapply setCategory_frame_fetch.
  - by eapply setItem_fetch.
Qed.

(** The method on a name that is no key constructs the child, registers it
    under the key and returns it. *)
Lemma cof_new k s self m name :
  live k s self = Some m → m !! key_of k name = None →
  ∃ s' o,
    construct_or_fetch k self (VStr name) s
    = Return (VRef (length (heap s))) s'
    ∧ live k s' self = Some (<[key_of k name := length (heap s)]> m)
    ∧ heap s' !! length (heap s) = Some o
    ∧ kind_of o = child_kind k ∧ id_of o = Some (key_of k name)
    ∧ (∀ l', l' ≠ self → l' ≠ length (heap s) →
             heap s' !! l' = heap s !! l')
    ∧ stdout s' = stdout s.
Proof.
  intros (oc & Hs & Hm & _)%live_inv Hl.
  pose proof (lookup_fresh_ne _ _ _ Hs) as Hne.
  assert (∀ o o' l', l' ≠ self → l' ≠ length (heap s) →
            heap (upd (push s o) self o') !! l' = heap s !! l') as Hframe.
  { intros o o' l' H1 H2. rewrite lookup_upd_ne by done. cbn.
    destruct (decide (l' < length (heap s))) as [Hlt|Hge].
    - by rewrite lookup_app_l.
    - rewrite !lookup_ge_None_2; [done|lia|rewrite length_app; cbn; lia]. }
  destruct k, oc; try discriminate Hm; cbn in Hm, Hl; simplify_eq;
    cbn [construct_or_fetch key_of].
  - erewrite setDataBlock_new by done. eexists _, _. split; [done|].
    split; [apply live_upd; [by eexists; slook|done]|].
    split; [slook|]. do 2 (split; [done|]). split; [apply Hframe|done].
  - erewrite setSaveFrame_new by done. eexists _, _. split; [done|].
    split; [apply live_upd; [by eexists; slook|done]|].
    split; [slook|]. do 2 (split; [done|]). split; [apply Hframe|done].
  - erewrite setCategory_block_new by done. eexists _, _. split; [done|].
    split; [apply live_upd; [by eexists; slook|done]|].
    split; [slook|]. do 2 (split; [done|]). split; [apply Hframe|done].
  - erewrite setCategory_frame_new by done. eexists _, _. split; [done|].
    split; [apply live_upd; [by eexists; slook|done]|].
    split; [slook|]. do 2 (split; [done|]). split; [apply Hframe|done].
  - destruct (setItem_new s self c name Hs Hl) as (c' & -> & Hm' & _).
    eexists _, _. split; [done|].
    split; [apply live_upd; [by eexists; slook|cbn [live_map]; by rewrite Hm']|].
    split; [slook|]. do 2 (split; [done|]). split; [apply Hframe|done].
Qed.

Lemma typed_child k s self m key l :
  typed s → live k s self = Some m → m !! key = Some l →
  ∃ o cid,
    heap s !! l = Some o ∧ kind_of o = child_kind k ∧ id_of o = Some cid
    ∧ l ≠ self.
Proof.
  intros Ht (oc & Hs & Hm & Hkc)%live_inv Hl.
  assert (has_kind s (child_kind k) l) as Hk.
  { pose proof (Ht _ _ Hs) as Hty.
    destruct k, oc; try discriminate Hm; cbn in Hm, Hty; simplify_eq;
      try (by eapply Hty); destruct Hty as [H1 H2]; by eauto. }
  unfold has_kind in Hk.
  destruct (heap s !! l) as [o|] eqn:Ho; [|done]. cbn in Hk.
  assert (kind_of o = child_kind k) as Hko by congruence.
  assert (l ≠ self) as Hne.
  { intros ->. pose proof (child_not_container k). congruence. }
  destruct k, o; try discriminate Hko; by eexists _, _.
Qed.

(** C3: construct-or-fetch is idempotent.  For each of the five methods
    ([setDataBlock], [setSaveFrame], [setCategory] of a block and of a save
    frame, [setItem]), every container in a well-typed store and every name,
    two calls with the name in a row both return, and return the same object:
    an object of the child class, which is not the container, which the
    second call leaves as the first left it, and which the live map of the
    container holds.  The live map of the container after the second call
    is the one after the first, so its size is unchanged.  When the name is
    new to the live map, the object is the one the first call has
    constructed and registered under the name; when the live map holds a
    child of that id under the name, the object is that child and the live
    map is what it was before the first call.  Either way the live map then
    holds the object under the name. *)
Theorem construct_or_fetch_idempotent
    (k : factory) (s : state) (self : loc) (m : gmap string loc)
    (name : string) :
  typed s →
  live k s self = Some m →
  ∃ r s1 s2 m1 m2 o,
    construct_or_fetch k self (VStr name) s = Return (VRef r) s1
    ∧ construct_or_fetch k self (VStr name) s1 = Return (VRef r) s2
    ∧ live k s1 self = Some m1
    ∧ live k s2 self = Some m2
    ∧ m2 = m1
    ∧ size m2 = size m1
    ∧ r ≠ self
    ∧ heap s1 !! r = Some o
    ∧ heap s2 !! r = Some o
    ∧ kind_of o = child_kind k
    ∧ (∃ key, m1 !! key = Some r)
    ∧ (m !! key_of k name = None →
       r = length (heap s) ∧ m1 = <[key_of k name := r]> m)
    ∧ (∀ l, m !! key_of k name = Some l → own_key k s m (key_of k name) →
            r = l ∧ m1 = m)
    ∧ (own_key k s m (key_of k name) →
       m1 !! key_of k name = Some r ∧ id_of o = Some (key_of k name)).
Proof.
  intros Ht Hlive.
  destruct (m !! key_of k name) as [l|] eqn:Hkey.
  - destruct (typed_child _ _ _ _ _ _ Ht Hlive Hkey)
      as (o & cid & Ho & Hko & Hid & Hne).
    destruct (cof_ref k s self m l o cid Hlive Ho Hko Hid)
      as (s1 & Hrun1 & Hlive1 & Hfr1 & _).
    assert (heap s1 !! l = Some o) as Ho1 by (by rewrite Hfr1).
    destruct (cof_ref k s1 self _ l o cid Hlive1 Ho1 Hko Hid)
      as (s2 & Hrun2 & Hlive2 & Hfr2 & _).
    rewrite setdefault_idemp in Hrun2, Hlive2.
    assert (∃ o', heap s !! (setdefault m cid l).2 = Some o'
                  ∧ kind_of o' = child_kind k
                  ∧ (setdefault m cid l).2 ≠ self
                  ∧ (cid = key_of k name → o' = o))
      as (o' & Ho' & Hko' & Hne' & Hsame).
    { unfold setdefault. destruct (m !! cid) as [l'|] eqn:Hcid; cbn [snd].
      - destruct (typed_child _ _ _ _ _ _ Ht Hlive Hcid)
          as (o' & cid' & Ho' & Hko' & _ & Hne').
        exists o'. do 3 (split; [done|]). intros ->. congruence.
      - by exists o. }
    exists (setdefault m cid l).2, s1, s2, (setdefault m cid l).1,
      (setdefault m cid l).1, o'.
    split; [by rewrite (cof_fetch k s self m name l)|].
    split.
    { rewrite (cof_fetch k s1 self _ name l Hlive1); [done|].
      by apply setdefault_keeps. }
    do 4 (split; [done|]). split; [done|].
    split; [by rewrite Hfr1|]. split; [by rewrite Hfr2, Hfr1|].
    split; [done|].
    split; [exists cid; apply setdefault_lookup|].
    split; [done|].
    assert (own_key k s m (key_of k name) →
            cid = key_of k name
            ∧ setdefault m cid l = (m, l)) as Hown.
    { intros Hown. destruct (Hown l Hkey) as (o2 & Ho2 & _ & Hid2).
      assert (cid = key_of k name) as -> by congruence.
      split; [done|]. by apply setdefault_present. }
    split.
    + intros l2 [= <-] [_ Heq]%Hown. by rewrite Heq.
    + intros [Hcid Heq]%Hown. rewrite Heq. cbn [fst snd].
      split; [done|]. rewrite (Hsame Hcid). congruence.
  - destruct (cof_new k s self m name Hlive Hkey)
      as (s1 & o & Hrun1 & Hlive1 & Ho & Hko & Hid & _).
    destruct (live_inv _ _ _ _ Hlive) as (oc & Hself & _).
    pose proof (lookup_fresh_ne _ _ _ Hself) as Hne.
    set (r := length (heap s)) in *.
    destruct (cof_ref k s1 self _ r o _ Hlive1 Ho Hko Hid)
      as (s2 & Hrun2 & Hlive2 & Hfr2 & _).
    rewrite (setdefault_present _ _ _ r) in Hrun2, Hlive2
      by apply lookup_insert_eq.
    exists r, s1, s2, (<[key_of k name := r]> m),
      (<[key_of k name := r]> m), o.
    split; [done|]. split.
    { rewrite (cof_fetch k s1 self _ name r Hlive1); [done|].
      apply lookup_insert_eq. }
    do 4 (split; [done|]). split; [done|]. split; [done|].
    split; [by rewrite Hfr2|]. split; [done|].
    split; [exists (key_of k name); apply lookup_insert_eq|].
    split; [done|]. split; [done|].
    intros _. split; [apply lookup_insert_eq|done].
Qed.

(** The tree of [build_item], object by object. *)
Lemma item_state_eq :
  item_state =
    {| heap :=
         [ OCifFile {| cf_data_blocks := {["B" := 1]}; cf_recycleBin := ∅;
                       cf_file_path := None |};
           ODataBlock {| db_id := "B"; db_categories := {["c" := 2]};
                         db_saveFrames := ∅; db_recycleBin := ∅;
                         db_parent := 0 |};
           OCategory {| cat_items := {["x" := 3]}; cat_recycleBin := ∅;
                        cat_isTable := false; cat_id := "c";
                        cat_maxTagLength := 3; cat_parent := 1 |};
           new_item "x" 2 ];
       stdout := [] |}.
Proof. vm_compute. reflexivity. Qed.

Lemma typed_item_state : typed item_state.
Proof. apply (bool_decide_unpack _). vm_compute. exact I. Qed.

Lemma construct_or_fetch_idempotent_witness :
  ∃ r s1 s2 m1 m2 o,
    construct_or_fetch SetItem 2 (VStr "y") item_state = Return (VRef r) s1
    ∧ construct_or_fetch SetItem 2 (VStr "y") s1 = Return (VRef r) s2
    ∧ live SetItem s1 2 = Some m1
    ∧ live SetItem s2 2 = Some m2
    ∧ m2 = m1
    ∧ size m2 = size m1
    ∧ r ≠ 2
    ∧ heap s1 !! r = Some o
    ∧ heap s2 !! r = Some o
    ∧ kind_of o = KItem
    ∧ (∃ key, m1 !! key = Some r)
    ∧ (({["x" := 3]} : gmap string loc) !! "y" = None →
       r = 4 ∧ m1 = <["y" := r]> {["x" := 3]})
    ∧ (∀ l, ({["x" := 3]} : gmap string loc) !! "y" = Some l →
            own_key SetItem item_state {["x" := 3]} "y" →
            r = l ∧ m1 = {["x" := 3]})
    ∧ (own_key SetItem item_state {["x" := 3]} "y" →
       m1 !! "y" = Some r ∧ id_of o = Some "y").
Proof.
  apply (construct_or_fetch_idempotent SetItem item_state 2 {["x" := 3]} "y").
  - exact typed_item_state.
  - vm_compute. reflexivity.
Defined.

(** ** Construct-or-fetch on a freshly constructed object *)

(** A constructor that returns has added the new object at the end of the
    store and has written to its parent only. *)
Lemma construct_inv k name parent s l s1 :
  construct k name parent s = Return l s1 →
  l = length (heap s)
  ∧ ∃ o op,
      heap s1 = <[parent := op]> (heap (push s o))
      ∧ kind_of o = child_kind k
      ∧ id_of o = Some (key_of k name)
      ∧ parent ≠ l.
Proof.
  intros H.
  assert (∀ o, heap (push s o) !! parent = None →
               get_obj parent (push s o) = Fault) as Hnone.
  { intros o Hn. unfold get_obj. by rewrite Hn. }
  assert (∀ (o x : obj), heap (push s o) !! parent = Some x →
            kind_of x ≠ kind_of o → parent ≠ length (heap s)) as Hne.
  { intros o x Hx Hk ->. rewrite lookup_push_new in Hx. congruence. }
  destruct k; cbn [construct] in H;
    [ unfold DataBlock.__init__ in H
    | unfold SaveFrame.__init__ in H
    | unfold Category.__init__, Category.register in H
    | unfold Category.__init__, Category.register in H
    | unfold Item.__init__ in H ];
    rewrite bind_unfold in H; cbn [alloc] in H;
    rewrite ?bind_unfold in H;
    match type of H with
    | context [get_obj parent (push s ?o)] =>
        destruct (heap (push s o) !! parent) as [op|] eqn:Hp;
        [ rewrite (get_obj_ok _ _ _ Hp) in H
        | by rewrite (Hnone _ Hp) in H ]
    end;
    destruct op; try discriminate H;
    repeat (first [ rewrite bind_unfold in H
                  | progress cbn [put_obj] in H
                  | progress unfold mret, M_ret in H ]);
    simplify_eq;
    (split; [done|]); eexists _, _;
    (split; [reflexivity|]); (split; [reflexivity|]);
    (split; [reflexivity|]); by eapply Hne.
Qed.

(** C4, as the code has it: in a well-typed store, for a container that
    holds a child under some id, construct-or-fetch with a child object of
    that id freshly constructed with another parent than the container is a
    fetch: the child registered before is returned, the live map of the
    container is what it was, and the fresh object is not in it.  (The
    constructor registers every new object with the parent it is given, so a
    fresh object constructed with the container itself as parent has already
    replaced the old child when the method is called.) *)
Theorem construct_or_fetch_fresh_object
    (k : factory) (s : state) (self : loc) (m : gmap string loc)
    (name : string) (parent l0 l : loc) (s1 : state) :
  typed s →
  live k s self = Some m →
  m !! key_of k name = Some l0 →
  parent ≠ self →
  construct k name parent s = Return l s1 →
  ∃ s2,
    construct_or_fetch k self (VRef l) s1 = Return (VRef l0) s2
    ∧ live k s2 self = Some m
    ∧ l ≠ l0
    ∧ ∀ key, m !! key ≠ Some l.
Proof.
  intros Ht Hlive Hkey Hparent Hnew.
  destruct (construct_inv _ _ _ _ _ _ Hnew)
    as (-> & o & op & Hheap & Hko & Hid & Hpl).
  destruct (live_inv _ _ _ _ Hlive) as (oc & Hself & Hmap & _).
  pose proof (lookup_fresh_ne _ _ _ Hself) as Hsl.
  assert (heap s1 !! self = Some oc) as Hself1.
  { rewrite Hheap, list_lookup_insert_ne by done.
    by apply lookup_app_l_Some. }
  assert (heap s1 !! length (heap s) = Some o) as Hl1.
  { rewrite Hheap, list_lookup_insert_ne by done.
    apply lookup_push_new. }
  assert (live k s1 self = Some m) as Hlive1.
  { unfold live. by rewrite Hself1. }
  destruct (cof_ref k s1 self m _ o _ Hlive1 Hl1 Hko Hid)
    as (s2 & Hrun & Hlive2 & _).
  rewrite (setdefault_present _ _ _ _ Hkey) in Hrun, Hlive2.
  assert (∀ key, m !! key ≠ Some (length (heap s))) as Hfresh.
  { intros key Hk.
    destruct (typed_child _ _ _ _ _ _ Ht Hlive Hk) as (? & ? & Hx & _).
    by eapply lookup_fresh_ne. }
  exists s2. split; [done|]. split; [done|]. split; [|done].
  intros <-. by eapply Hfresh.
Qed.

Lemma construct_or_fetch_fresh_object_witness :
  ∃ s2,
    construct_or_fetch SetItem 2 (VRef 5)
      (state_of (construct SetItem "x" 4 two_category_state))
    = Return (VRef 3) s2
    ∧ live SetItem s2 2 = Some {["x" := 3]}
    ∧ 5 ≠ 3
    ∧ ∀ key, ({["x" := 3]} : gmap string loc) !! key ≠ Some 5.
Proof.
  apply (construct_or_fetch_fresh_object SetItem two_category_state 2
           {["x" := 3]} "x" 4 3 5).
  - apply (bool_decide_unpack _). vm_compute. exact I.
  - vm_compute. reflexivity.
  - vm_compute. reflexivity.
  - lia.
  - vm_compute. reflexivity.
Defined.

(** The claim C4 as written fails for a fresh object constructed with the
    container itself as its parent: [Item("x", c)] replaces the item
    registered under [x] in [c.items], and [c.setItem] of the fresh object
    returns the fresh object; the item registered before is no longer in
    the live map. *)
Lemma setItem_fresh_same_parent_replaces :
  live SetItem item_state 2 = Some {["x" := 3]}
  ∧ ∃ s1 s2,
      construct SetItem "x" 2 item_state = Return 4 s1
      ∧ construct_or_fetch SetItem 2 (VRef 4) s1 = Return (VRef 4) s2
      ∧ live SetItem s2 2 = Some {["x" := 4]}.
Proof.
  split; [vm_compute; reflexivity|].
  eexists _, _. split; [vm_compute; reflexivity|].
  split; vm_compute; reflexivity.
Qed.

(** ** Construct-or-fetch on an argument of the wrong type *)

Lemma no_name_no_id_raises s arg :
  no_name_no_id s arg →
  py_isalnum arg s = Raise AttributeError s
  ∧ obj_id arg s = Raise AttributeError s.
Proof.
  intros H. destruct arg; try done.
  destruct H as [f Hf]. split; [done|].
  unfold obj_id. by rewrite bind_unfold, (get_obj_ok _ _ _ Hf).
Qed.

(** C7, as the code has it: [setItem] with an argument that has neither
    the method [isalnum] nor an [id] (that is, neither a string nor an
    object with an [id], and not the class [str]) returns [None], raises
    nothing and leaves the store as it was; [setDataBlock], [setSaveFrame]
    and the two [setCategory] raise [AttributeError] on such an argument,
    with the store as it was.  On the class [str] itself, which has the
    method but no string to call it on, all five raise [TypeError], which
    no [except] of theirs catches, and leave the store as it was. *)
Theorem construct_or_fetch_type_mismatch
    (s : state) (self : loc) (arg : pyval) :
  (no_name_no_id s arg →
   Category.setItem self arg s = Return VNone s
   ∧ CifFile.setDataBlock self arg s = Raise AttributeError s
   ∧ DataBlock.setSaveFrame self arg s = Raise AttributeError s
   ∧ DataBlock.setCategory self arg s = Raise AttributeError s
   ∧ SaveFrame.setCategory self arg s = Raise AttributeError s)
  ∧ (arg = VStrClass →
     Category.setItem self arg s = Raise TypeError s
     ∧ CifFile.setDataBlock self arg s = Raise TypeError s
     ∧ DataBlock.setSaveFrame self arg s = Raise TypeError s
     ∧ DataBlock.setCategory self arg s = Raise TypeError s
     ∧ SaveFrame.setCategory self arg s = Raise TypeError s).
Proof.
  split.
  - intros [H1 H2]%no_name_no_id_raises.
    split; [by apply setItem_no_id|].
    unfold CifFile.setDataBlock, DataBlock.setSaveFrame,
      DataBlock.setCategory, SaveFrame.setCategory.
    repeat split;
      rewrite bind_unfold, try_except_unfold, bind_unfold, H1;
      cbn [mret M_ret]; by rewrite bind_unfold, H2.
  - intros ->. repeat split.
Qed.

Lemma construct_or_fetch_type_mismatch_witness :
  no_name_no_id item_state (VInt 5)
  ∧ Category.setItem 2 (VInt 5) item_state = Return VNone item_state
  ∧ CifFile.setDataBlock 0 (VInt 5) item_state
    = Raise AttributeError item_state.
Proof.
  split; [exact I|].
  destruct (proj1 (construct_or_fetch_type_mismatch item_state 2 (VInt 5)) I)
    as (H1 & _).
  destruct (proj1 (construct_or_fetch_type_mismatch item_state 0 (VInt 5)) I)
    as (_ & H2 & _).
  by split.
Defined.

(** The claim C7 as written fails for three of the four methods: on the
    number 5, which is neither a name nor a child, [setCategory] raises
    [AttributeError] instead of returning [None]. *)
Lemma setCategory_number_raises :
  no_name_no_id item_state (VInt 5)
  ∧ construct_or_fetch SetCategoryOfBlock 1 (VInt 5) item_state
    = Raise AttributeError item_state
  ∧ construct_or_fetch SetCategoryOfBlock 1 (VInt 5) item_state
    ≠ Return VNone item_state.
Proof. split; [exact I|]. split; [reflexivity|]. discriminate. Qed.

(** [setItem] itself raises on an object that has an [id] and no [value]:
    a Category handed to [setItem]. *)
Lemma setItem_category_raises :
  ∃ s', Category.setItem 2 (VRef 2) item_state = Raise AttributeError s'.
Proof. eexists. vm_compute. reflexivity. Qed.

(** ** Removal *)

(** C10: [DataBlock.removeChild] with a string that names a category (once
    leading underscores are dropped) and also a save frame moves the
    category to the recycle bin, prints the warning and returns [True]; the
    save frame of that name is not touched by the call and stays in the live
    map. *)
Theorem DataBlock_removeChild_name_in_both
    (s : state) (self : loc) (b : DataBlock_) (name : string) (lc lf : loc) :
  heap s !! self = Some (ODataBlock b) →
  db_categories b !! lstrip "_"%char name = Some lc →
  db_saveFrames b !! name = Some lf →
  ∃ s' b',
    DataBlock.removeChild self (VStr name) s = Return (VBool true) s'
    ∧ heap s' !! self = Some (ODataBlock b')
    ∧ db_categories b' = delete (lstrip "_"%char name) (db_categories b)
    ∧ db_recycleBin b' = <[lstrip "_"%char name := lc]> (db_recycleBin b)
    ∧ db_saveFrames b' = db_saveFrames b
    ∧ db_saveFrames b' !! name = Some lf
    ∧ (∀ l', l' ≠ self → heap s' !! l' = heap s !! l')
    ∧ stdout s' = (stdout s ++ [DataBlock.warning name ["categories"]])%list.
Proof.
  intros Hs Hc Hf.
  eexists _, _. split.
  - unfold DataBlock.removeChild, DataBlock.live_category,
      DataBlock.live_saveFrame, DataBlock.isinstance_Category,
      DataBlock.isinstance_SaveFrame, DataBlock.removeChild_str,
      DataBlock.pop_category.
    mrun. rewrite Hc.
    rewrite bool_decide_eq_true_2 by (by eexists). cbn [orb]. mrun.
    cbn [length Nat.ltb Nat.leb]. mrun. reflexivity.
  - split; [slook|].
    do 3 (split; [reflexivity|]). split; [exact Hf|].
    split; [|reflexivity]. intros l' Hne. cbn.
    by apply list_lookup_insert_ne.
Qed.

Lemma DataBlock_removeChild_name_in_both_witness :
  ∃ s' b',
    DataBlock.removeChild 1 (VStr "x") both_state = Return (VBool true) s'
    ∧ heap s' !! 1 = Some (ODataBlock b')
    ∧ db_categories b' = delete "x" {["x" := 2]}
    ∧ db_recycleBin b' = <["x" := 2]> ∅
    ∧ db_saveFrames b' = {["x" := 3]}
    ∧ db_saveFrames b' !! "x" = Some 3
    ∧ (∀ l', l' ≠ 1 → heap s' !! l' = heap both_state !! l')
    ∧ stdout s' = [DataBlock.warning "x" ["categories"]].
Proof.
  destruct (DataBlock_removeChild_name_in_both both_state 1
              {| db_id := "B"; db_categories := {["x" := 2]};
                 db_saveFrames := {["x" := 3]};
                 db_recycleBin := ∅; db_parent := 0 |}
              "x" 2 3)
    as (s' & b' & H1 & H2 & H3 & H4 & H5 & H6 & H7 & H8).
  - vm_compute. reflexivity.
  - vm_compute. reflexivity.
  - vm_compute. reflexivity.
  - exists s', b'.
    split; [exact H1|]. split; [exact H2|]. split; [exact H3|].
    split; [exact H4|]. split; [exact H5|]. split; [exact H6|].
    split; [exact H7|exact H8].
Defined.

(** *** Category, SaveFrame and CifFile: removal is a move, once *)

Lemma child_key_cases s child k :
  child_key s child = Some k →
  (child = VStr k)
  ∨ (∃ l o, child = VRef l ∧ heap s !! l = Some o ∧ id_of o = Some k).
Proof.
  destruct child; try done; cbn.
  - intros [= ->]. by left.
  - destruct (heap s !! l) as [o|] eqn:E; [|done]. cbn. intros H.
    right. by exists l, o.
Qed.

Lemma child_key_upd s self o o' child k :
  heap s !! self = Some o → id_of o' = id_of o →
  child_key s child = Some k → child_key (upd s self o') child = Some k.
Proof.
  intros Hs Hid [->|(l & x & -> & Hl & Hx)]%child_key_cases; [done|].
  cbn [child_key]. destruct (decide (self = l)) as [->|Hne].
  - erewrite lookup_upd_eq by done. cbn. simplify_eq. congruence.
  - rewrite lookup_upd_ne by done. by rewrite Hl.
Qed.

(** [pop_to_bin] raises nothing. *)
Lemma Category_pop_to_bin_cases self k s :
  Category.pop_to_bin self k s = Fault
  ∨ ∃ r s', Category.pop_to_bin self k s = Return r s'.
Proof.
  unfold Category.pop_to_bin, get_category, get_obj.
  rewrite !bind_unfold. destruct (heap s !! self) as [[]|]; cbn; eauto.
  destruct (cat_items _ !! k); cbn; eauto.
Qed.

Lemma SaveFrame_pop_to_bin_cases self k s :
  SaveFrame.pop_to_bin self k s = Fault
  ∨ ∃ r s', SaveFrame.pop_to_bin self k s = Return r s'.
Proof.
  unfold SaveFrame.pop_to_bin, get_saveframe, get_obj.
  rewrite !bind_unfold. destruct (heap s !! self) as [[]|]; cbn; eauto.
  destruct (sf_categories _ !! k); cbn; eauto.
Qed.

Lemma CifFile_pop_to_bin_cases self k s :
  CifFile.pop_to_bin self k s = Fault
  ∨ ∃ r s', CifFile.pop_to_bin self k s = Return r s'.
Proof.
  unfold CifFile.pop_to_bin, get_ciffile, get_obj.
  rewrite !bind_unfold. destruct (heap s !! self) as [[]|]; cbn; eauto.
  destruct (cf_data_blocks _ !! k); cbn; eauto.
Qed.

Lemma Category_removeChild_key s self child k :
  child_key s child = Some k →
  Category.removeChild self child s
  = (r ← Category.pop_to_bin self k; mret (VBool r)) s.
Proof.
  intros [->|(l & x & -> & Hl & Hx)]%child_key_cases;
    unfold Category.removeChild; mrun; [reflexivity|].
  by destruct (Category_pop_to_bin_cases self k s) as [->|(r & s' & ->)].
Qed.

Lemma SaveFrame_removeChild_key s self child k :
  child_key s child = Some k →
  SaveFrame.removeChild self child s
  = (r ← SaveFrame.pop_to_bin self k; mret (VBool r)) s.
Proof.
  intros [->|(l & x & -> & Hl & Hx)]%child_key_cases;
    unfold SaveFrame.removeChild; mrun; [reflexivity|].
  by destruct (SaveFrame_pop_to_bin_cases self k s) as [->|(r & s' & ->)].
Qed.

Lemma CifFile_removeChild_key s self child k :
  child_key s child = Some k →
  CifFile.removeChild self child s
  = (r ← CifFile.pop_to_bin self k; mret (VBool r)) s.
Proof.
  intros [->|(l & x & -> & Hl & Hx)]%child_key_cases;
    unfold CifFile.removeChild; mrun; [reflexivity|].
  by destruct (CifFile_pop_to_bin_cases self k s) as [->|(r & s' & ->)].
Qed.

(** [Category.removeChild]: a child that is found, by its id or by its name,
    leaves the live map for the recycle bin and the call returns [True]; the
    same call again finds nothing, returns [False] and raises nothing. *)
Lemma Category_removeChild_total_move s self c child k l :
  heap s !! self = Some (OCategory c) →
  child_key s child = Some k →
  cat_items c !! k = Some l →
  ∃ s' c',
    Category.removeChild self child s = Return (VBool true) s'
    ∧ heap s' !! self = Some (OCategory c')
    ∧ cat_items c' = delete k (cat_items c)
    ∧ cat_recycleBin c' !! k = Some l
    ∧ Category.getItemNames self s' = Return (dom (cat_items c) ∖ {[k]}) s'
    ∧ Category.removeChild self child s' = Return (VBool false) s'.
Proof.
  intros Hs Hk Hl.
  rewrite (Category_removeChild_key _ _ _ _ Hk).
  unfold Category.pop_to_bin at 1. mrun. rewrite Hl. mrun.
  set (c' := Category.with_recycleBin _ _).
  exists (upd s self (OCategory c')), c'.
  split; [reflexivity|]. split; [slook|]. split; [reflexivity|].
  split; [apply lookup_insert_eq|]. split.
  - unfold Category.getItemNames. mrun. cbn. by rewrite dom_delete_L.
  - rewrite (Category_removeChild_key _ _ _ k)
      by (by eapply child_key_upd).
    unfold Category.pop_to_bin. mrun. cbn. rewrite lookup_delete_eq.
    reflexivity.
Qed.

Lemma SaveFrame_removeChild_total_move s self f child k l :
  heap s !! self = Some (OSaveFrame f) →
  child_key s child = Some k →
  sf_categories f !! k = Some l →
  ∃ s' f',
    SaveFrame.removeChild self child s = Return (VBool true) s'
    ∧ heap s' !! self = Some (OSaveFrame f')
    ∧ sf_categories f' = delete k (sf_categories f)
    ∧ sf_recycleBin f' !! k = Some l
    ∧ SaveFrame.getCategoryIds self s'
      = Return (dom (sf_categories f) ∖ {[k]}) s'
    ∧ SaveFrame.removeChild self child s' = Return (VBool false) s'.
Proof.
  intros Hs Hk Hl.
  rewrite (SaveFrame_removeChild_key _ _ _ _ Hk).
  unfold SaveFrame.pop_to_bin at 1. mrun. rewrite Hl. mrun.
  set (f' := SaveFrame.with_recycleBin _ _).
  exists (upd s self (OSaveFrame f')), f'.
  split; [reflexivity|]. split; [slook|]. split; [reflexivity|].
  split; [apply lookup_insert_eq|]. split.
  - unfold SaveFrame.getCategoryIds. mrun. cbn. by rewrite dom_delete_L.
  - rewrite (SaveFrame_removeChild_key _ _ _ k)
      by (by eapply child_key_upd).
    unfold SaveFrame.pop_to_bin. mrun. cbn. rewrite lookup_delete_eq.
    reflexivity.
Qed.

Lemma CifFile_removeChild_total_move s self f child k l :
  heap s !! self = Some (OCifFile f) →
  child_key s child = Some k →
  cf_data_blocks f !! k = Some l →
  ∃ s' f',
    CifFile.removeChild self child s = Return (VBool true) s'
    ∧ heap s' !! self = Some (OCifFile f')
    ∧ cf_data_blocks f' = delete k (cf_data_blocks f)
    ∧ cf_recycleBin f' !! k = Some l
    ∧ CifFile.getDataBlockIds self s'
      = Return (dom (cf_data_blocks f) ∖ {[k]}) s'
    ∧ CifFile.removeChild self child s' = Return (VBool false) s'.
Proof.
  intros Hs Hk Hl.
  rewrite (CifFile_removeChild_key _ _ _ _ Hk).
  unfold CifFile.pop_to_bin at 1. mrun. rewrite Hl. mrun.
  set (f' := CifFile.with_recycleBin _ _).
  exists (upd s self (OCifFile f')), f'.
  split; [reflexivity|]. split; [slook|]. split; [reflexivity|].
  split; [apply lookup_insert_eq|]. split.
  - unfold CifFile.getDataBlockIds. mrun. cbn. by rewrite dom_delete_L.
  - rewrite (CifFile_removeChild_key _ _ _ k)
      by (by eapply child_key_upd).
    unfold CifFile.pop_to_bin. mrun. cbn. rewrite lookup_delete_eq.
    reflexivity.
Qed.

(** [DataBlock.removeChild]: the same, for a child that is a Category
    object, a SaveFrame object, or a string that does not name a category
    and a save frame at once. *)
Lemma DataBlock_removeChild_total_move s self b child which k l :
  heap s !! self = Some (ODataBlock b) →
  db_target s b child = Some (which, k, l) →
  ¬ shared_name b child →
  ∃ s' b',
    DataBlock.removeChild self child s = Return (VBool true) s'
    ∧ heap s' !! self = Some (ODataBlock b')
    ∧ db_live which b' = delete k (db_live which b)
    ∧ db_recycleBin b' !! k = Some l
    ∧ DataBlock.removeChild self child s' = Return (VBool false) s'.
Proof.
  intros Hs Htarget Hshared.
  destruct child as [| | |name| | | |r]; try discriminate Htarget;
    cbn [db_target] in Htarget.
  - (* a string *)
    cbn [shared_name] in Hshared.
    unfold DataBlock.removeChild, DataBlock.live_category,
      DataBlock.live_saveFrame, DataBlock.isinstance_Category,
      DataBlock.isinstance_SaveFrame.
    mrun. unfold DataBlock.removeChild_str at 1. mrun.
    destruct (db_categories b !! lstrip "_"%char name) as [lc|] eqn:Hc.
    + assert (db_saveFrames b !! name = None) as Hf.
      { destruct (db_saveFrames b !! name) eqn:E; [|done].
        exfalso. apply Hshared. by split. }
      simplify_eq. rewrite bool_decide_eq_true_2 by (by eexists).
      cbn [orb]. unfold DataBlock.pop_category. mrun.
      cbn [length Nat.ltb Nat.leb]. mrun.
      eexists _, _. split; [reflexivity|]. split; [slook|].
      split; [reflexivity|]. split; [apply lookup_insert_eq|].
      unfold DataBlock.removeChild_str. mrun.
      cbn [DataBlock.with_recycleBin DataBlock.with_categories db_categories
           db_saveFrames].
      rewrite lookup_delete_eq, Hf.
      rewrite !bool_decide_eq_false_2 by (by intros [? ?]). reflexivity.
    + destruct (db_saveFrames b !! name) as [lf|] eqn:Hf; [|done].
      cbn in Htarget. simplify_eq.
      rewrite bool_decide_eq_false_2 by (by intros [? ?]).
      rewrite bool_decide_eq_true_2 by (by eexists).
      cbn [orb]. unfold DataBlock.pop_saveFrame. mrun.
      cbn [length Nat.ltb Nat.leb]. mrun.
      eexists _, _. split; [reflexivity|]. split; [slook|].
      split; [reflexivity|]. split; [apply lookup_insert_eq|].
      unfold DataBlock.removeChild_str. mrun.
      cbn [DataBlock.with_recycleBin DataBlock.with_saveFrames db_categories
           db_saveFrames].
      rewrite lookup_delete_eq, Hc.
      rewrite !bool_decide_eq_false_2 by (by intros [? ?]). reflexivity.
  - (* an object *)
    destruct (heap s !! r) as [o|] eqn:Hr; [|done].
    assert (self ≠ r) as Hne.
    { intros <-. rewrite Hs in Hr. by simplify_eq. }
    destruct o as [|c|f| |]; try discriminate Htarget.
    + destruct (db_categories b !! cat_id c) as [lc|] eqn:Hc; [|done].
      cbn in Htarget. simplify_eq.
      unfold DataBlock.removeChild, DataBlock.live_category,
        DataBlock.live_saveFrame, DataBlock.isinstance_Category,
        DataBlock.isinstance_SaveFrame, DataBlock.pop_category.
      mrun. rewrite Hc. mrun.
      eexists _, _. split; [reflexivity|]. split; [slook|].
      split; [reflexivity|]. split; [apply lookup_insert_eq|].
      mrun.
      cbn [DataBlock.with_recycleBin DataBlock.with_categories db_categories].
      rewrite lookup_delete_eq. mrun. reflexivity.
    + destruct (db_saveFrames b !! sf_id f) as [lf|] eqn:Hf; [|done].
      cbn in Htarget. simplify_eq.
      unfold DataBlock.removeChild, DataBlock.live_category,
        DataBlock.live_saveFrame, DataBlock.isinstance_Category,
        DataBlock.isinstance_SaveFrame, DataBlock.pop_saveFrame.
      mrun. rewrite Hf. mrun.
      eexists _, _. split; [reflexivity|]. split; [slook|].
      split; [reflexivity|]. split; [apply lookup_insert_eq|].
      mrun.
      cbn [DataBlock.with_recycleBin DataBlock.with_saveFrames db_saveFrames].
      rewrite lookup_delete_eq. mrun. reflexivity.
Qed.

(** C5, as the code has it: removal is a move, once.  For a Category, a
    SaveFrame and a CifFile, and for a DataBlock when the child is no string
    that names a category and a save frame of the block at once: a
    [removeChild] that finds the child, by the id of the object or by the
    name, returns [True]; the key is gone from the live map it was found in
    and is in the recycle bin with the child; and the same call again
    returns [False] and raises nothing. *)
Theorem removeChild_total_move
    (s : state) (self : loc) (child : pyval) (k : string) (l : loc) :
  (∀ c,
     heap s !! self = Some (OCategory c) →
     child_key s child = Some k → cat_items c !! k = Some l →
     ∃ s' c',
       Category.removeChild self child s = Return (VBool true) s'
       ∧ heap s' !! self = Some (OCategory c')
       ∧ cat_items c' = delete k (cat_items c)
       ∧ cat_recycleBin c' !! k = Some l
       ∧ Category.getItemNames self s' = Return (dom (cat_items c) ∖ {[k]}) s'
       ∧ Category.removeChild self child s' = Return (VBool false) s')
  ∧ (∀ f,
       heap s !! self = Some (OSaveFrame f) →
       child_key s child = Some k → sf_categories f !! k = Some l →
       ∃ s' f',
         SaveFrame.removeChild self child s = Return (VBool true) s'
         ∧ heap s' !! self = Some (OSaveFrame f')
         ∧ sf_categories f' = delete k (sf_categories f)
         ∧ sf_recycleBin f' !! k = Some l
         ∧ SaveFrame.getCategoryIds self s'
           = Return (dom (sf_categories f) ∖ {[k]}) s'
         ∧ SaveFrame.removeChild self child s' = Return (VBool false) s')
  ∧ (∀ f,
       heap s !! self = Some (OCifFile f) →
       child_key s child = Some k → cf_data_blocks f !! k = Some l →
       ∃ s' f',
         CifFile.removeChild self child s = Return (VBool true) s'
         ∧ heap s' !! self = Some (OCifFile f')
         ∧ cf_data_blocks f' = delete k (cf_data_blocks f)
         ∧ cf_recycleBin f' !! k = Some l
         ∧ CifFile.getDataBlockIds self s'
           = Return (dom (cf_data_blocks f) ∖ {[k]}) s'
         ∧ CifFile.removeChild self child s' = Return (VBool false) s')
  ∧ (∀ b which,
       heap s !! self = Some (ODataBlock b) →
       db_target s b child = Some (which, k, l) →
       ¬ shared_name b child →
       ∃ s' b',
         DataBlock.removeChild self child s = Return (VBool true) s'
         ∧ heap s' !! self = Some (ODataBlock b')
         ∧ db_live which b' = delete k (db_live which b)
         ∧ db_recycleBin b' !! k = Some l
         ∧ DataBlock.removeChild self child s' = Return (VBool false) s').
Proof.
  split; [|split; [|split]].
  - intros c. apply Category_removeChild_total_move.
  - intros f. apply SaveFrame_removeChild_total_move.
  - intros f. apply CifFile_removeChild_total_move.
  - intros b which. apply DataBlock_removeChild_total_move.
Qed.

Lemma removeChild_total_move_witness :
  ∃ s' c',
    Category.removeChild 2 (VStr "x") item_state = Return (VBool true) s'
    ∧ heap s' !! 2 = Some (OCategory c')
    ∧ cat_items c' = delete "x" ({["x" := 3]} : gmap string loc)
    ∧ cat_recycleBin c' !! "x" = Some 3
    ∧ Category.getItemNames 2 s'
      = Return (dom ({["x" := 3]} : gmap string loc) ∖ {["x"]}) s'
    ∧ Category.removeChild 2 (VStr "x") s' = Return (VBool false) s'.
Proof.
  pose ({| cat_items := {["x" := 3]}; cat_recycleBin := ∅;
           cat_isTable := false; cat_id := "c"; cat_maxTagLength := 3;
           cat_parent := 1 |}) as c0.
  assert (heap item_state !! 2 = Some (OCategory c0)) as H1
    by (vm_compute; reflexivity).
  assert (cat_items c0 !! "x" = Some 3) as H2 by (vm_compute; reflexivity).
  exact (proj1 (removeChild_total_move item_state 2 (VStr "x") "x" 3)
           c0 H1 eq_refl H2).
Defined.

(** The claim C5 as written fails on a DataBlock that holds a category and a
    save frame of one name: the first [removeChild] of the name moves the
    category only and returns [True]; the name is still among the ids of the
    save frames, and the same call again returns [True] once more, for the
    save frame. *)
Lemma DataBlock_removeChild_twice_true :
  ∃ s1 s2,
    DataBlock.removeChild 1 (VStr "x") both_state = Return (VBool true) s1
    ∧ DataBlock.getCategoryIds 1 s1 = Return ∅ s1
    ∧ DataBlock.getSaveFrameIds 1 s1 = Return {["x"]} s1
    ∧ DataBlock.removeChild 1 (VStr "x") s1 = Return (VBool true) s2
    ∧ DataBlock.getSaveFrameIds 1 s2 = Return ∅ s2.
Proof.
  eexists _, _. split; [vm_compute; reflexivity|].
  split; [vm_compute; reflexivity|]. split; [vm_compute; reflexivity|].
  split; vm_compute; reflexivity.
Qed.

(** ** The import: how the store grows *)

Lemma obj_le_refl o : obj_le o o.
Proof. destruct o; cbn; done. Qed.

Lemma obj_le_trans o1 o2 o3 : obj_le o1 o2 → obj_le o2 o3 → obj_le o1 o3.
Proof.
  destruct o1, o2; try done; destruct o3; try done; cbn.
  - congruence.
  - intros. by etrans.
  - intros. by etrans.
  - intros (? & ? & ?) (? & ? & ?). split; [congruence|]. split; by etrans.
  - intros. by etrans.
Qed.

Lemma obj_le_kind o o' : obj_le o o' → kind_of o' = kind_of o.
Proof. by destruct o, o'. Qed.

Lemma extends_refl s : extends s s.
Proof. split; [|done]. intros l o H. exists o. split; [done|apply obj_le_refl]. Qed.

Lemma extends_trans s1 s2 s3 : extends s1 s2 → extends s2 s3 → extends s1 s3.
Proof.
  intros [H1 P1] [H2 P2]. split; [|by etrans].
  intros l o Ho. destruct (H1 _ _ Ho) as (o' & Ho' & Hle).
  destruct (H2 _ _ Ho') as (o'' & Ho'' & Hle').
  exists o''. split; [done|]. by eapply obj_le_trans.
Qed.

Lemma extends_has_kind s s' k l : extends s s' → has_kind s k l → has_kind s' k l.
Proof.
  intros [H _]. unfold has_kind. destruct (heap s !! l) as [o|] eqn:E; [|done].
  destruct (H _ _ E) as (o' & -> & Hle). cbn. intros [= <-].
  by rewrite (obj_le_kind _ _ Hle).
Qed.

Lemma extends_all_kind s s' k m : extends s s' → all_kind s k m → all_kind s' k m.
Proof. intros He H key l Hl. eapply extends_has_kind; [done|]. by eapply H. Qed.

Lemma extends_obj_typed s s' o : extends s s' → obj_typed s o → obj_typed s' o.
Proof.
  intros He. destruct o; cbn.
  - by apply extends_has_kind.
  - by apply extends_all_kind.
  - by apply extends_all_kind.
  - intros [? ?]. split; by eapply extends_all_kind.
  - by apply extends_all_kind.
Qed.

Lemma all_kind_insert s k m key l :
  has_kind s k l → all_kind s k m → all_kind s k (<[key := l]> m).
Proof.
  intros Hl Hm key' l' [[<- <-]|[_ H]]%lookup_insert_Some; [done|].
  by eapply Hm.
Qed.

Lemma all_kind_empty s k : all_kind s k ∅.
Proof. intros key l H. by rewrite lookup_empty in H. Qed.

Lemma all_kind_setdefault s k m key l :
  has_kind s k l → all_kind s k m →
  all_kind s k (setdefault m key l).1 ∧ has_kind s k (setdefault m key l).2.
Proof.
  intros Hl Hm. unfold setdefault. destruct (m !! key) as [x|] eqn:E; cbn.
  - split; [done|]. by eapply Hm.
  - split; [by apply all_kind_insert|done].
Qed.

Lemma has_kind_lookup s l o : heap s !! l = Some o → has_kind s (kind_of o) l.
Proof. intros H. unfold has_kind. by rewrite H. Qed.

Lemma keeps_files_refl s : keeps_files s s.
Proof. by intros l f H. Qed.

Lemma keeps_files_trans s1 s2 s3 :
  keeps_files s1 s2 → keeps_files s2 s3 → keeps_files s1 s3.
Proof. intros H1 H2 l f H. by apply H2, H1. Qed.

Lemma grows_refl s : grows s s.
Proof. split; [done|apply extends_refl]. Qed.

Lemma grows_trans s1 s2 s3 : grows s1 s2 → grows s2 s3 → grows s1 s3.
Proof.
  intros [T1 E1] [T2 E2]. split; [by auto|by eapply extends_trans].
Qed.

Lemma step_refl s : step s s.
Proof. split; [apply grows_refl|apply keeps_files_refl]. Qed.

Lemma step_trans s1 s2 s3 : step s1 s2 → step s2 s3 → step s1 s3.
Proof.
  intros [G1 K1] [G2 K2].
  split; [by eapply grows_trans|by eapply keeps_files_trans].
Qed.

(** Overwriting an object by a grown version of itself. *)
Lemma extends_upd s l o o' :
  heap s !! l = Some o → obj_le o o' → extends s (upd s l o').
Proof.
  intros Hl Hle. split; [|done]. intros l' x Hx.
  destruct (decide (l = l')) as [<-|Hne].
  - exists o'. split; [by eapply lookup_upd_eq|]. congruence.
  - exists x. split; [by rewrite lookup_upd_ne|apply obj_le_refl].
Qed.

Lemma grows_upd s l o o' :
  heap s !! l = Some o → obj_le o o' →
  (typed s → obj_typed (upd s l o') o') →
  grows s (upd s l o').
Proof.
  intros Hl Hle Hty. pose proof (extends_upd _ _ _ _ Hl Hle) as He.
  split; [|done]. intros Ht l' x Hx.
  destruct (decide (l = l')) as [<-|Hne].
  - rewrite (lookup_upd_eq _ _ _ _ Hl) in Hx. simplify_eq. by apply Hty.
  - rewrite lookup_upd_ne in Hx by done.
    eapply extends_obj_typed; [done|]. by eapply Ht.
Qed.

Lemma step_upd s l o o' :
  heap s !! l = Some o → obj_le o o' → kind_of o ≠ KCifFile →
  (typed s → obj_typed (upd s l o') o') →
  step s (upd s l o').
Proof.
  intros Hl Hle Hk Hty. split; [by eapply grows_upd|].
  intros l' f Hf. rewrite lookup_upd_ne; [done|].
  intros <-. rewrite Hl in Hf. by simplify_eq.
Qed.

(** A new object. *)
Lemma extends_push s o : extends s (push s o).
Proof.
  split; [|done]. intros l x Hx. exists x.
  split; [by apply lookup_push_old|apply obj_le_refl].
Qed.

Lemma step_push s o :
  (typed s → obj_typed (push s o) o) → step s (push s o).
Proof.
  intros Hty. pose proof (extends_push s o) as He.
  split; [split; [|done]|].
  - intros Ht l x Hx. cbn in Hx.
    apply lookup_app_Some in Hx as [Hx|[_ Hx]].
    + eapply extends_obj_typed; [done|]. by eapply Ht.
    + apply list_lookup_singleton_Some in Hx as [_ <-]. by apply Hty.
  - intros l f Hf. by apply lookup_push_old.
Qed.

(** A printed line. *)
Lemma step_emit s line : step s (emit s line).
Proof.
  split; [split|].
  - intros Ht l o Ho. exact (Ht l o Ho).
  - split; [|by apply prefix_app_r].
    intros l o Ho. exists o. split; [done|apply obj_le_refl].
  - by intros l f Hf.
Qed.

Lemma upd_same s l o : heap s !! l = Some o → upd s l o = s.
Proof.
  intros H. destruct s as [h out]. unfold upd. cbn in *.
  by rewrite list_insert_id.
Qed.

(** *** The four calls of the import, one by one *)

(** [setDataBlock] on a name, in a coherent file: the block under the name,
    a new one when the name is new. *)
Lemma setDataBlock_import s self name :
  typed s → coherent s self →
  ∃ lb s' f' b,
    CifFile.setDataBlock self (VStr name) s = Return (VRef lb) s'
    ∧ grows s s' ∧ coherent s' self
    ∧ heap s' !! self = Some (OCifFile f')
    ∧ cf_data_blocks f' !! name = Some lb
    ∧ heap s' !! lb = Some (ODataBlock b).
Proof.
  intros Ht (f & Hs & Hcoh).
  destruct (cf_data_blocks f !! name) as [l|] eqn:Hname.
  - destruct (Hcoh _ _ Hname) as (b & Hb & Hid).
    rewrite (setDataBlock_fetch _ _ _ _ _ Hs Hname).
    rewrite (setDataBlock_ref _ _ _ _ _ name Hs Hb) by (cbn; congruence).
    rewrite (setdefault_present _ _ _ _ Hname). cbn [fst snd].
    assert (CifFile.with_data_blocks f (cf_data_blocks f) = f) as ->
      by (by destruct f).
    rewrite (upd_same _ _ _ Hs).
    exists l, s, f, b. split; [done|]. split; [apply grows_refl|].
    split; [by exists f|done].
  - rewrite (setDataBlock_new _ _ _ _ Hs Hname).
    set (n := length (heap s)). set (s1 := push s _).
    set (f' := CifFile.with_data_blocks _ _).
    assert (self ≠ n) as Hne by (by eapply lookup_fresh_ne).
    assert (step s s1) as [G1 _].
    { apply step_push. intros _. split; apply all_kind_empty. }
    assert (heap s1 !! self = Some (OCifFile f)) as Hs1
      by (by apply lookup_push_old).
    assert (heap s1 !! n = Some (new_datablock name self)) as Hn1
      by apply lookup_push_new.
    assert (extends s1 (upd s1 self (OCifFile f'))) as E2.
    { eapply extends_upd; [exact Hs1|]. by apply insert_subseteq. }
    assert (grows s1 (upd s1 self (OCifFile f'))) as G2.
    { eapply grows_upd; [done|by apply insert_subseteq|].
      intros Ht1. cbn. apply all_kind_insert.
      - eapply extends_has_kind; [done|].
        by apply (has_kind_lookup _ _ _ Hn1).
      - eapply extends_all_kind; [done|]. apply (Ht1 _ _ Hs1). }
    eexists n, _, f', _. split; [reflexivity|].
    split; [by eapply grows_trans|].
    split; [|split; [slook|split; [apply lookup_insert_eq|slook]]].
    exists f'. split; [slook|].
    intros k l Hkl. unfold f' in Hkl. cbn in Hkl.
    apply lookup_insert_Some in Hkl as [[<- <-]|[Hk Hl]].
    + eexists. split; [slook|done].
    + destruct (Hcoh _ _ Hl) as (b & Hb & Hid). exists b. split; [|done].
      assert (l ≠ self) by congruence.
      rewrite lookup_upd_ne by done. by apply lookup_push_old.
Qed.

Lemma step_upd_mono s l o o' :
  heap s !! l = Some o → obj_le o o' → kind_of o ≠ KCifFile →
  (∀ s', extends s s' → typed s → obj_typed s' o') →
  step s (upd s l o').
Proof.
  intros Hl Hle Hk Hty. eapply step_upd; try done.
  apply Hty. by eapply extends_upd.
Qed.

Lemma typed_has_kind_child s (m : gmap string loc) k key l :
  all_kind s k m → m !! key = Some l → ∃ o, heap s !! l = Some o ∧ kind_of o = k.
Proof.
  intros Hm Hl. pose proof (Hm _ _ Hl) as H. unfold has_kind in H.
  destruct (heap s !! l) as [o|]; [|done]. cbn in H. exists o.
  split; [done|congruence].
Qed.

(** [setCategory] on a name, called on a data block. *)
Lemma setCategory_import s lb b cname :
  typed s → heap s !! lb = Some (ODataBlock b) →
  ∃ lc s' b',
    call_setCategory (VRef lb) (VStr cname) s = Return (VRef lc) s'
    ∧ step s s'
    ∧ has_kind s' KCategory lc
    ∧ heap s' !! lb = Some (ODataBlock b')
    ∧ is_Some (db_categories b' !! lstrip "_"%char cname).
Proof.
  intros Ht Hb. destruct (Ht _ _ Hb) as [Hcats Hframes].
  unfold call_setCategory. mrun.
  destruct (db_categories b !! lstrip "_"%char cname) as [l|] eqn:Hkey.
  - destruct (typed_has_kind_child _ _ _ _ _ Hcats Hkey) as (o & Ho & Hko).
    destruct o as [|c| | |]; try discriminate Hko.
    rewrite (setCategory_block_fetch _ _ _ _ _ Hb Hkey).
    rewrite (setCategory_block_ref _ _ _ _ _ (cat_id c) Hb Ho) by done.
    set (sd := setdefault (db_categories b) (cat_id c) l).
    set (b' := DataBlock.with_categories b sd.1).
    assert (step s (upd s lb (ODataBlock b'))) as Hstep.
    { eapply step_upd_mono; [done| |done|].
      - split; [done|]. split; [apply setdefault_subseteq|done].
      - intros s' He _. split.
        + eapply extends_all_kind; [done|].
          eapply all_kind_setdefault; [|done]. by eapply Hcats.
        + by eapply extends_all_kind. }
    exists sd.2, (upd s lb (ODataBlock b')), b'.
    split; [done|]. split; [done|].
    split; [|split; [slook|]].
    + eapply extends_has_kind; [apply Hstep|].
      eapply all_kind_setdefault; [|done]. by eapply Hcats.
    + exists l. by apply setdefault_keeps.
  - rewrite (setCategory_block_new _ _ _ _ Hb Hkey).
    set (n := length (heap s)). set (s1 := push s _).
    set (b' := DataBlock.with_categories _ _).
    assert (lb ≠ n) as Hne by (by eapply lookup_fresh_ne).
    assert (step s s1) as S1.
    { apply step_push. intros _. apply all_kind_empty. }
    assert (heap s1 !! lb = Some (ODataBlock b)) as Hb1
      by (by apply lookup_push_old).
    assert (has_kind s1 KCategory n) as Hn1.
    { unfold has_kind, s1, n. by rewrite lookup_push_new. }
    assert (step s1 (upd s1 lb (ODataBlock b'))) as S2.
    { eapply step_upd_mono; [done| |done|].
      - split; [done|]. split; [by apply insert_subseteq|done].
      - intros s' He Ht1. destruct (Ht1 _ _ Hb1) as [Hc1 Hf1]. split.
        + eapply extends_all_kind; [done|]. by apply all_kind_insert.
        + by eapply extends_all_kind. }
    exists n, (upd s1 lb (ODataBlock b')), b'.
    split; [done|]. split; [by eapply step_trans|].
    split; [by eapply extends_has_kind; [apply S2|]|].
    split; [slook|]. exists n. apply lookup_insert_eq.
Qed.

(** [setItem] of an entry key, called on a category: it returns an item or
    [None], and raises nothing. *)
Lemma setItem_import s lc key :
  typed s → has_kind s KCategory lc → plain_key key = true →
  ∃ r s',
    call_setItem (VRef lc) key s = Return r s'
    ∧ step s s'
    ∧ (r = VNone ∨ ∃ li, r = VRef li ∧ has_kind s' KItem li).
Proof.
  intros Ht Hlc Hkey. unfold has_kind in Hlc.
  destruct (heap s !! lc) as [o|] eqn:Hc; [|done].
  destruct o as [|c| | |]; try discriminate Hlc. clear Hlc.
  pose proof (Ht _ _ Hc) as Hitems. cbn in Hitems.
  unfold call_setItem. mrun.
  destruct key as [| | |name| | | |]; try discriminate Hkey;
    try (rewrite setItem_no_id by done; exists VNone, s;
         split; [done|]; split; [apply step_refl|by left]).
  destruct (cat_items c !! name) as [l|] eqn:Hname.
  - destruct (typed_has_kind_child _ _ _ _ _ Hitems Hname) as (o & Ho & Hko).
    destruct o as [i| | | |]; try discriminate Hko.
    rewrite (setItem_fetch _ _ _ _ _ Hc Hname).
    rewrite (setItem_ref _ _ _ _ _ Hc Ho).
    destruct (setItem_effect_items c i l) as (Hi & Hr & _).
    destruct (setItem_effect c i l) as [c' r]. cbn [fst snd] in *.
    assert (step s (upd s lc (OCategory c'))) as Hstep.
    { eapply step_upd_mono; [done| |done|].
      - cbn. rewrite Hi. apply setdefault_subseteq.
      - intros s' He _. cbn. rewrite Hi.
        eapply extends_all_kind; [done|].
        eapply all_kind_setdefault; [|done]. by eapply Hitems. }
    eexists _, _. split; [done|]. split; [done|]. right.
    eexists. split; [done|]. rewrite Hr.
    eapply extends_has_kind; [apply Hstep|].
    eapply all_kind_setdefault; [|done]. by eapply Hitems.
  - destruct (setItem_new _ _ _ _ Hc Hname) as (c' & -> & Hm & _).
    set (n := length (heap s)) in *. set (s1 := push s _).
    assert (lc ≠ n) as Hne by (by eapply lookup_fresh_ne).
    assert (heap s1 !! lc = Some (OCategory c)) as Hc1
      by (by apply lookup_push_old).
    assert (step s s1) as S1.
    { apply step_push. intros _. cbn. unfold has_kind.
      by rewrite (lookup_push_old _ _ _ _ Hc). }
    assert (has_kind s1 KItem n) as Hn1.
    { unfold has_kind, s1, n. by rewrite lookup_push_new. }
    assert (step s1 (upd s1 lc (OCategory c'))) as S2.
    { eapply step_upd_mono; [done| |done|].
      - cbn. rewrite Hm. by apply insert_subseteq.
      - intros s' He Ht1. cbn. rewrite Hm.
        eapply extends_all_kind; [done|]. apply all_kind_insert; [done|].
        apply (Ht1 _ _ Hc1). }
    eexists _, _. split; [done|]. split; [by eapply step_trans|]. right.
    eexists. split; [done|]. by eapply extends_has_kind; [apply S2|].
Qed.

Lemma step_upd_item s li i i' :
  heap s !! li = Some (OItem i) → it_parent i' = it_parent i →
  step s (upd s li (OItem i')).
Proof.
  intros Hi Hp. eapply step_upd_mono; [done|done|done|].
  intros s' He Ht. cbn. rewrite Hp.
  eapply extends_has_kind; [done|]. apply (Ht _ _ Hi).
Qed.

Lemma step_upd_table s p c :
  heap s !! p = Some (OCategory c) →
  step s (upd s p (OCategory (Category.with_isTable c true))).
Proof.
  intros Hp. eapply step_upd_mono; [done|by cbn|done|].
  intros s' He Ht. cbn. eapply extends_all_kind; [done|]. apply (Ht _ _ Hp).
Qed.

(** [setValue] on an item returns or raises [AttributeError]; either way
    the store has only grown. *)
Lemma setValue_import s li i v t n :
  typed s → heap s !! li = Some (OItem i) →
  ends (Item.setValue li v t n s) (λ _ s', step s s') (λ s', step s s').
Proof.
  intros Ht Hi.
  destruct (typed_has_kind_child s {["p" := it_parent i]} KCategory "p"
              (it_parent i)) as (o & Hp & Hko).
  { intros key l [_ <-]%lookup_singleton_Some. apply (Ht _ _ Hi). }
  { apply lookup_singleton_eq. }
  destruct o as [|c| | |]; try discriminate Hko. clear Hko.
  pose proof (item_not_parent _ _ _ _ Hi Hp) as Hne.
  assert (∀ i', it_parent i' = it_parent i →
            ends (Item.mark_parent_table li (upd s li (OItem i')))
              (λ _ s', step s s') (λ s', step s s')) as Hmark.
  { intros i' Hpar.
    rewrite (mark_parent_table_after_put s li i c Hi Hp i' Hpar). cbn.
    eapply step_trans; [by eapply step_upd_item|].
    apply step_upd_table. by rewrite lookup_upd_ne. }
  unfold Item.setValue. mrun.
  destruct (is_None (it_value i) && negb (it_isColumn i)) eqn:E1;
    [|destruct (negb (is_None (it_value i)) && negb (it_isColumn i)) eqn:E2].
  - destruct v as [| | | |[|x [|y rest]]| | |]; mrun; cbn [ends];
      try (by eapply step_upd_item).
    by apply Hmark.
  - mrun. by apply Hmark.
  - destruct (it_value i) eqn:Ev; cbn [Item.py_append]; mrun; cbn [ends];
      try apply step_refl.
    assert (step s (upd s li (OItem (Item.with_value i (VList (l ++ [v]))))))
      as S1 by (by eapply step_upd_item).
    cbn [Item.with_value it_type].
    destruct (it_type i) eqn:Et; cbn [Item.py_append]; mrun; cbn [ends];
      try exact S1.
    rewrite upd_upd.
    cbn [Item.with_value Item.with_type it_lineno].
    assert (∀ x, step s (upd s li (OItem (Item.with_type
                     (Item.with_value i (VList (l ++ [v]))) x)))) as S2
      by (intros; by eapply step_upd_item).
    destruct (it_lineno i) eqn:En; cbn [Item.py_append]; mrun; cbn [ends];
      try apply S2.
    unfold put_obj. cbn [ends]. rewrite upd_upd. by eapply step_upd_item.
Qed.

(** [setValue] called on the result of [setItem]. *)
Lemma call_setValue_import s r value :
  typed s → (r = VNone ∨ ∃ li, r = VRef li ∧ has_kind s KItem li) →
  ends (call_setValue r value s) (λ _ s', step s s') (λ s', step s s').
Proof.
  intros Ht [->|(li & -> & Hk)]; [cbn; apply step_refl|].
  unfold has_kind in Hk. destruct (heap s !! li) as [o|] eqn:Hi; [|done].
  destruct o as [i| | | |]; try discriminate Hk.
  unfold call_setValue. mrun. by eapply setValue_import.
Qed.

(** *** The loops of the import *)

Lemma ends_mono {A} (o : outcome A) (Q Q' : A → state → Prop)
    (E E' : state → Prop) :
  ends o Q E → (∀ a s, Q a s → Q' a s) → (∀ s, E s → E' s) → ends o Q' E'.
Proof. destruct o as [a s|[] s|]; cbn; auto. Qed.

Lemma step_typed s s' : step s s' → typed s → typed s'.
Proof. intros [[H _] _]. exact H. Qed.

Lemma step_extends s s' : step s s' → extends s s'.
Proof. intros [[_ H] _]. exact H. Qed.

Lemma ends_bind {A B} (m : M A) (f : A → M B) s
    (Q : A → state → Prop) (Q' : B → state → Prop) (E : state → Prop) :
  ends (m s) Q E →
  (∀ a s', Q a s' → ends (f a s') Q' E) →
  ends ((m ≫= f) s) Q' E.
Proof.
  intros Hm Hf. rewrite bind_unfold.
  destruct (m s) as [a s'|[] s'|]; cbn in *; auto.
Qed.

(** One entry of a category: [setItem] then [setValue]. *)
Lemma import_item_ends s lc entry :
  typed s → has_kind s KCategory lc → plain_key entry.1 = true →
  ends (CifFile.import_item (VRef lc) entry s)
    (λ _ s', step s s') (λ s', step s s').
Proof.
  intros Ht Hlc Hkey. destruct entry as [key value]. cbn in Hkey.
  unfold CifFile.import_item.
  destruct (setItem_import s lc key Ht Hlc Hkey) as (r & s1 & Hrun & S1 & Hr).
  rewrite bind_unfold, Hrun.
  eapply ends_mono.
  - apply call_setValue_import; [by eapply step_typed|exact Hr].
  - intros ? s' S2. by eapply step_trans.
  - intros s' S2. by eapply step_trans.
Qed.

Lemma import_items_ends lc items :
  ∀ s, typed s → has_kind s KCategory lc →
       Forall (λ ie, plain_key ie.1 = true) items →
       ends (for_each items (CifFile.import_item (VRef lc)) s)
         (λ _ s', step s s') (λ s', step s s').
Proof.
  induction items as [|e items IH]; intros s Ht Hlc Hok.
  - cbn. apply step_refl.
  - apply Forall_cons in Hok as [He Hok].
    rewrite for_each_cons.
    pose proof (import_item_ends s lc e Ht Hlc He) as H1.
    destruct (CifFile.import_item (VRef lc) e s) as [[] s1|[] s1|];
      cbn in H1; try done.
    eapply ends_mono.
    + apply IH; [by eapply step_typed| |done].
      eapply extends_has_kind; [by apply step_extends|done].
    + intros ? s' S2. by eapply step_trans.
    + intros s' S2. by eapply step_trans.
Qed.

Lemma extends_block s s' lb b :
  extends s s' → heap s !! lb = Some (ODataBlock b) →
  ∃ b', heap s' !! lb = Some (ODataBlock b')
        ∧ db_id b' = db_id b ∧ db_categories b ⊆ db_categories b'.
Proof.
  intros [H _] Hb. destruct (H _ _ Hb) as (o' & Ho' & Hle).
  destruct o' as [| | |b'|]; try done. destruct Hle as (? & ? & ?).
  by exists b'.
Qed.

Lemma extends_stdout s s' line :
  extends s s' → line ∈ stdout s → line ∈ stdout s'.
Proof. intros [_ [k ->]] H. apply elem_of_app. by left. Qed.

(** One category of a block: the category is there afterwards whatever its
    value was, the call returns, and a value that is no mapping was
    printed. *)
Lemma no_category_extends s s' v :
  extends s s' → no_category s v → no_category s' v.
Proof.
  intros He H l Hl. destruct (H l Hl) as (k & Hk & Hne).
  exists k. split; [by eapply extends_has_kind|done].
Qed.

Lemma category_entry_ok_extends s s' e :
  extends s s' → category_entry_ok s e → category_entry_ok s' e.
Proof.
  intros He (H1 & H2 & H3). split; [done|].
  split; [by eapply no_category_extends|done].
Qed.

(** [items()] on a value that is no mapping and no Category raises
    [AttributeError]. *)
Lemma py_items_no_mapping s v :
  is_dict v = false → no_category s v →
  py_items v s = Raise AttributeError s.
Proof.
  intros Hd Hv. destruct v as [| | | | | | |l]; try done.
  destruct (Hv l eq_refl) as (k & Hk & Hne). unfold has_kind in Hk.
  destruct (heap s !! l) as [o|] eqn:Hl; [|done].
  cbn [py_items]. rewrite bind_unfold, (get_obj_ok _ _ _ Hl).
  destruct o; cbn in Hk; by simplify_eq.
Qed.

Lemma import_category_ok s lb b entry :
  typed s → heap s !! lb = Some (ODataBlock b) → category_entry_ok s entry →
  ∃ s' b' cname,
    CifFile.import_category (VRef lb) entry s = Return tt s'
    ∧ step s s'
    ∧ heap s' !! lb = Some (ODataBlock b')
    ∧ entry.1 = VStr cname
    ∧ is_Some (db_categories b' !! lstrip "_"%char cname)
    ∧ (is_dict entry.2 = false → PrintVal entry.2 ∈ stdout s').
Proof.
  intros Ht Hb ([cname Hname] & Hvalue & Hitems). destruct entry as [c v].
  cbn in Hname, Hvalue, Hitems. subst c. unfold CifFile.import_category.
  destruct (setCategory_import s lb b cname Ht Hb)
    as (lc & s1 & b1 & Hrun & S1 & Hlc & Hb1 & Hreg).
  rewrite bind_unfold, Hrun. rewrite try_except_unfold.
  assert (∀ s2, step s1 s2 →
            ∃ b', heap s2 !! lb = Some (ODataBlock b')
                  ∧ is_Some (db_categories b' !! lstrip "_"%char cname))
    as Hkeep.
  { intros s2 S2.
    destruct (extends_block _ _ _ _ (step_extends _ _ S2) Hb1)
      as (b' & Hb' & _ & Hsub).
    exists b'. split; [done|]. destruct Hreg as [x Hx]. exists x.
    by eapply lookup_weaken. }
  assert (∀ s2, step s1 s2 →
            ∃ s' b',
              (_ ← print (PrintExn AttributeError); print (PrintVal v)) s2
              = Return tt s'
              ∧ step s s'
              ∧ heap s' !! lb = Some (ODataBlock b')
              ∧ is_Some (db_categories b' !! lstrip "_"%char cname)
              ∧ PrintVal v ∈ stdout s') as Hhandler.
  { intros s2 S2. destruct (Hkeep s2 S2) as (b' & Hb' & Hreg').
    eexists _, b'. split; [reflexivity|].
    split; [|split; [exact Hb'|split; [exact Hreg'|]]].
    - eapply step_trans; [exact S1|]. eapply step_trans; [exact S2|].
      eapply step_trans; apply step_emit.
    - cbn. apply elem_of_app. right. apply list_elem_of_singleton. done. }
  destruct (is_dict v) eqn:Hdict.
  2:{ rewrite bind_unfold, (py_items_no_mapping s1 v Hdict)
        by (eapply no_category_extends; [by apply step_extends|done]).
      destruct (Hhandler s1 (step_refl s1))
        as (s' & b' & Hh & ? & ? & ? & ?).
      exists s', b', cname. by do 5 (split; [done|]). }
  destruct v as [| | | | |items| |]; try discriminate Hdict.
  cbn in Hitems. rewrite bind_unfold. cbn [py_items mret M_ret].
  pose proof (import_items_ends lc items s1 (step_typed _ _ S1 Ht) Hlc Hitems)
    as Hloop.
  destruct (for_each items (CifFile.import_item (VRef lc)) s1)
    as [[] s2|[] s2|]; cbn in Hloop; try done.
  - destruct (Hkeep s2 Hloop) as (b' & Hb' & Hreg').
    exists s2, b', cname. split; [done|]. split; [by eapply step_trans|].
    do 3 (split; [done|]). intros [=].
  - destruct (Hhandler s2 Hloop) as (s' & b' & Hh & ? & ? & ? & ?).
    exists s', b', cname. do 5 (split; [done|]). intros [=].
Qed.

(** The categories of one block: every one of them is registered in the
    block afterwards, and every value that is no mapping was printed. *)
Lemma import_categories_ok lb cats :
  ∀ s b,
    typed s → heap s !! lb = Some (ODataBlock b) →
    Forall (category_entry_ok s) cats →
    ∃ s' b',
      for_each cats (CifFile.import_category (VRef lb)) s = Return tt s'
      ∧ step s s'
      ∧ heap s' !! lb = Some (ODataBlock b')
      ∧ (∀ c v, (c, v) ∈ cats →
           ∃ cname, c = VStr cname
                    ∧ is_Some (db_categories b' !! lstrip "_"%char cname))
      ∧ (∀ c v, (c, v) ∈ cats → is_dict v = false →
                PrintVal v ∈ stdout s').
Proof.
  induction cats as [|e cats IH]; intros s b Ht Hb Hok.
  - exists s, b. split; [done|]. split; [apply step_refl|].
    split; [done|]. split; intros c v H; by apply elem_of_nil in H.
  - apply Forall_cons in Hok as [He Hok]. rewrite for_each_cons.
    destruct (import_category_ok s lb b e Ht Hb He)
      as (s1 & b1 & cname & -> & S1 & Hb1 & Hname & Hreg & Hprint).
    destruct (IH s1 b1 (step_typed _ _ S1 Ht) Hb1)
      as (s' & b' & Hrun & S2 & Hb' & Hregs & Hprints).
    { eapply Forall_impl; [exact Hok|]. intros x.
      apply category_entry_ok_extends. by apply step_extends. }
    exists s', b'. split; [done|]. split; [by eapply step_trans|].
    split; [done|]. split.
    + intros c v [<-|Hin]%elem_of_cons; [|by eapply Hregs].
      exists cname. split; [done|].
      destruct (extends_block _ _ _ _ (step_extends _ _ S2) Hb1)
        as (b2 & Hb2 & _ & Hsub).
      assert (b2 = b') as -> by congruence.
      destruct Hreg as [x Hx]. exists x. by eapply lookup_weaken.
    + intros c v [<-|Hin]%elem_of_cons Hv; [|by eapply Hprints].
      eapply extends_stdout; [by apply step_extends|]. by apply Hprint.
Qed.

Lemma coherent_step s s' self : coherent s self → step s s' → coherent s' self.
Proof.
  intros (f & Hs & Hcoh) [[_ He] Hk]. exists f. split; [by apply Hk|].
  intros k l Hl. destruct (Hcoh _ _ Hl) as (b & Hb & Hid).
  destruct (extends_block _ _ _ _ He Hb) as (b' & Hb' & Hid' & _).
  exists b'. split; [done|congruence].
Qed.

Lemma block_registered_extends s s' self bname cats :
  extends s s' → block_registered s self bname cats →
  block_registered s' self bname cats.
Proof.
  intros He (f & lb & blk & Hs & Hl & Hb & Hcats).
  destruct (proj1 He _ _ Hs) as (o' & Ho' & Hle).
  destruct o' as [| | | |f']; try done. cbn in Hle.
  destruct (extends_block _ _ _ _ He Hb) as (blk' & Hb' & _ & Hsub).
  exists f', lb, blk'. split; [done|]. split; [by eapply lookup_weaken|].
  split; [done|]. intros c v Hin.
  destruct (Hcats c v Hin) as (cname & -> & [x Hx]).
  exists cname. split; [done|]. exists x. by eapply lookup_weaken.
Qed.

(** One block of the mapping. *)
Lemma block_entry_ok_extends s s' e :
  extends s s' → block_entry_ok s e → block_entry_ok s' e.
Proof.
  intros He (H1 & H2 & H3). do 2 (split; [done|]).
  eapply Forall_impl; [exact H3|]. intros x.
  by apply category_entry_ok_extends.
Qed.

Lemma import_block_ok s self entry :
  typed s → coherent s self → block_entry_ok s entry →
  ∃ s' bname,
    CifFile.import_block self entry s = Return tt s'
    ∧ grows s s' ∧ coherent s' self
    ∧ entry.1 = VStr bname
    ∧ block_registered s' self bname (entries entry.2)
    ∧ (∀ c v, (c, v) ∈ entries entry.2 → is_dict v = false →
              PrintVal v ∈ stdout s').
Proof.
  intros Ht Hcoh ([bname Hname] & Hdict & Hcats).
  destruct entry as [bid v]. cbn in Hname, Hdict, Hcats. subst bid.
  destruct v as [| | | | |cats| |]; try discriminate Hdict. clear Hdict.
  cbn [entries snd] in *. unfold CifFile.import_block.
  destruct (setDataBlock_import s self bname Ht Hcoh)
    as (lb & s1 & f1 & b1 & Hrun & G1 & Hcoh1 & Hs1 & Hlb & Hb1).
  rewrite bind_unfold, Hrun, bind_unfold. cbn [py_items mret M_ret].
  destruct (import_categories_ok lb cats s1 b1 (proj1 G1 Ht) Hb1)
    as (s' & b' & -> & S2 & Hb' & Hregs & Hprints).
  { eapply Forall_impl; [exact Hcats|]. intros x.
    apply category_entry_ok_extends. apply G1. }
  exists s', bname. split; [done|].
  split; [eapply grows_trans; [exact G1|apply S2]|].
  split; [by eapply coherent_step|]. split; [done|].
  split; [|done].
  destruct (proj1 (step_extends _ _ S2) _ _ Hs1) as (o' & Ho' & Hle).
  destruct o' as [| | | |f']; try done. cbn in Hle.
  exists f', lb, b'. split; [done|]. split; [by eapply lookup_weaken|].
  by split.
Qed.

(** All the blocks. *)
Lemma import_blocks_ok self data :
  ∀ s,
    typed s → coherent s self → Forall (block_entry_ok s) data →
    ∃ s',
      for_each data (CifFile.import_block self) s = Return tt s'
      ∧ grows s s' ∧ coherent s' self
      ∧ (∀ b v, (b, v) ∈ data →
           ∃ bname, b = VStr bname
                    ∧ block_registered s' self bname (entries v))
      ∧ (∀ b v c x, (b, v) ∈ data → (c, x) ∈ entries v →
                    is_dict x = false → PrintVal x ∈ stdout s').
Proof.
  induction data as [|e data IH]; intros s Ht Hcoh Hok.
  - exists s. split; [done|]. split; [apply grows_refl|]. split; [done|].
    split; [intros b v H|intros b v c x H]; by apply elem_of_nil in H.
  - apply Forall_cons in Hok as [He Hok]. rewrite for_each_cons.
    destruct (import_block_ok s self e Ht Hcoh He)
      as (s1 & bname & -> & G1 & Hcoh1 & Hname & Hreg & Hprint).
    destruct (IH s1 (proj1 G1 Ht) Hcoh1)
      as (s' & Hrun & G2 & Hcoh' & Hregs & Hprints).
    { eapply Forall_impl; [exact Hok|]. intros x.
      apply block_entry_ok_extends. apply G1. }
    exists s'. split; [done|]. split; [by eapply grows_trans|].
    split; [done|]. split.
    + intros b v [<-|Hin]%elem_of_cons; [|by eapply Hregs].
      exists bname. split; [done|].
      eapply block_registered_extends; [apply G2|done].
    + intros b v c x [<-|Hin]%elem_of_cons Hc Hx; [|by eapply Hprints].
      eapply extends_stdout; [apply G2|]. by eapply Hprint.
Qed.

(** *** The import into blocks that are new to the file *)

Lemma same_but_refl x s : same_but x s s.
Proof. by repeat split. Qed.

Lemma same_but_trans x s1 s2 s3 :
  same_but x s1 s2 → same_but x s2 s3 → same_but x s1 s3.
Proof.
  intros (O1 & L1 & H1) (O2 & L2 & H2). split; [congruence|].
  split; [lia|]. intros l Hl Hne.
  rewrite H2 by (done || lia). by apply H1.
Qed.

(** Writes to an object that did not exist yet do not count. *)
Lemma same_but_fresh x y s1 s2 s3 :
  same_but x s1 s2 → same_but y s2 s3 → (length (heap s1) ≤ y)%nat →
  same_but x s1 s3.
Proof.
  intros (O1 & L1 & H1) (O2 & L2 & H2) Hy. split; [congruence|].
  split; [lia|]. intros l Hl Hne.
  rewrite H2 by lia. by apply H1.
Qed.

Lemma same_but_push_upd s x o o' :
  is_Some (heap s !! x) → same_but x s (upd (push s o) x o').
Proof.
  intros [ox Hx]. split; [done|]. split.
  { cbn. rewrite length_insert, length_app. lia. }
  intros l Hl Hne. rewrite lookup_upd_ne by done.
  cbn. by rewrite lookup_app_l.
Qed.

Lemma same_but_lookup x s s' l o :
  same_but x s s' → heap s !! l = Some o → l ≠ x → heap s' !! l = Some o.
Proof.
  intros (_ & _ & H) Hl Hne. rewrite H; [done| |done].
  by eapply lookup_lt_Some.
Qed.

Lemma cat_kept_refl c : cat_kept c c.
Proof. by repeat split. Qed.

Lemma cat_kept_trans c1 c2 c3 :
  cat_kept c1 c2 → cat_kept c2 c3 → cat_kept c1 c3.
Proof.
  intros (I1 & P1 & T1) (I2 & P2 & T2).
  split; [congruence|]. split; [congruence|]. auto.
Qed.

Lemma setItem_effect_kept c i l : cat_kept c (setItem_effect c i l).1.
Proof.
  unfold setItem_effect. cbn [fst snd].
  match goal with
  | |- context [if ?b then Category.with_isTable _ true else _] => destruct b
  end; by repeat split.
Qed.

(** [setItem] on a name that is new to the category. *)
Lemma setItem_new_kept s self c name :
  heap s !! self = Some (OCategory c) → cat_items c !! name = None →
  ∃ c',
    Category.setItem self (VStr name) s =
      Return (VRef (length (heap s)))
        (upd (push s (new_item name self)) self (OCategory c'))
    ∧ cat_items c' = <[name := length (heap s)]> (cat_items c)
    ∧ cat_kept c c'.
Proof.
  intros Hs Hl. rewrite (setItem_construct s self c name Hs Hl).
  pose proof (lookup_fresh_ne _ _ _ Hs) as Hne.
  erewrite setItem_ref; [|slook|unfold new_item; slook].
  rewrite upd_upd.
  set (c0 := Category.with_items c _).
  set (i0 := {| it_value := VNone |}).
  destruct (setItem_effect_registered c0 i0 (length (heap s))) as [Hm Hr];
    [apply lookup_insert_eq|].
  rewrite Hr. eexists. split; [reflexivity|]. split; [exact Hm|].
  apply (cat_kept_trans c c0); [by repeat split|apply setItem_effect_kept].
Qed.

(** [setValue] on an item that is still empty stores the value, or its one
    element, and writes to the item and to its category only, whose items
    stay; a list of two or more makes the item a column and the category a
    table. *)
Lemma setValue_fresh s li i c v t n :
  heap s !! li = Some (OItem i) →
  heap s !! it_parent i = Some (OCategory c) →
  it_value i = VNone → it_isColumn i = false →
  ∃ i' c',
    Item.setValue li v t n s
    = Return tt (upd (upd s li (OItem i')) (it_parent i) (OCategory c'))
    ∧ it_value i' = stored v ∧ it_isColumn i' = many v
    ∧ it_id i' = it_id i ∧ it_parent i' = it_parent i
    ∧ cat_items c' = cat_items c ∧ cat_kept c c'
    ∧ (many v = true → cat_isTable c' = true).
Proof.
  intros Hi Hp Hv Hc.
  pose proof (item_not_parent _ _ _ _ Hi Hp) as Hne.
  assert (∀ i', Return tt (upd s li (OItem i'))
                = Return tt (upd (upd s li (OItem i')) (it_parent i)
                               (OCategory c))) as Hsame.
  { intros i'. f_equal. symmetry. apply upd_same.
    by rewrite lookup_upd_ne. }
  unfold Item.setValue. mrun. rewrite Hv, Hc. cbn [is_None negb andb].
  destruct v as [| | | |[|x [|y rest]]| | |]; mrun;
    try (eexists _, c; split; [apply Hsame|]; cbn; rewrite ?Hc;
         by repeat split).
  rewrite (mark_parent_table_after_put s li i c Hi Hp) by done.
  eexists _, _. split; [reflexivity|]. by repeat split.
Qed.

(** One entry of a category: a new item, with its value. *)
Lemma import_item_fresh s lc c n v :
  heap s !! lc = Some (OCategory c) → cat_items c !! n = None →
  ∃ s1 c1 it,
    CifFile.import_item (VRef lc) (enc_item (n, v)) s = Return tt s1
    ∧ same_but lc s s1
    ∧ heap s1 !! lc = Some (OCategory c1)
    ∧ cat_items c1 = <[n := length (heap s)]> (cat_items c)
    ∧ cat_kept c c1
    ∧ heap s1 !! length (heap s) = Some (OItem it)
    ∧ it_value it = stored v ∧ it_isColumn it = many v
    ∧ it_id it = n ∧ it_parent it = lc
    ∧ (many v = true → cat_isTable c1 = true).
Proof.
  intros Hlc Hfresh.
  pose proof (lookup_fresh_ne _ _ _ Hlc) as Hne.
  destruct (setItem_new_kept s lc c n Hlc Hfresh)
    as (c1 & Hrun & Hitems & Hkept).
  set (s0 := upd (push s (new_item n lc)) lc (OCategory c1)) in *.
  assert (heap s0 !! lc = Some (OCategory c1)) as Hlc0.
  { unfold s0. eapply lookup_upd_eq. by apply lookup_push_old. }
  assert (heap s0 !! length (heap s) = Some (new_item n lc)) as Hli0.
  { unfold s0. rewrite lookup_upd_ne by done. apply lookup_push_new. }
  unfold new_item in Hli0.
  destruct (setValue_fresh s0 (length (heap s)) _ c1 v Item.default_type
              Item.default_lineno Hli0 Hlc0 eq_refl eq_refl)
    as (i' & c' & Hset & Hval & Hcol & Hid & Hpar & Hitems' & Hkept' & Htab).
  cbn [it_parent it_id] in Hset, Hid, Hpar.
  eexists _, c', i'. split.
  { unfold CifFile.import_item, enc_item, call_setItem. cbn [fst snd].
    mrun. rewrite Hrun. unfold call_setValue. mrun. exact Hset. }
  split.
  { split; [done|]. split.
    - cbn. rewrite !length_insert, length_app. lia.
    - intros l Hl Hx. rewrite lookup_upd_ne by done.
      rewrite lookup_upd_ne by lia. unfold s0.
      rewrite lookup_upd_ne by done. cbn. by rewrite lookup_app_l. }
  split.
  { eapply lookup_upd_eq. by rewrite lookup_upd_ne. }
  split; [congruence|].
  split; [by eapply cat_kept_trans|].
  split; [|done].
  rewrite lookup_upd_ne by done. by eapply lookup_upd_eq.
Qed.

(** The loop over the entries of a category whose names are new to it. *)
Lemma import_items_run (items : item_map) :
  ∀ s lc c,
    heap s !! lc = Some (OCategory c) →
    NoDup items.*1 →
    (∀ n, n ∈ items.*1 → cat_items c !! n = None) →
    ∃ s' c',
      for_each (enc_item <$> items) (CifFile.import_item (VRef lc)) s
      = Return tt s'
      ∧ same_but lc s s'
      ∧ heap s' !! lc = Some (OCategory c')
      ∧ cat_kept c c'
      ∧ (∀ n, n ∉ items.*1 → cat_items c' !! n = cat_items c !! n)
      ∧ (∀ n v, (n, v) ∈ items → item_at s' lc n v).
Proof.
  induction items as [|[n0 v0] rest IH]; intros s lc c Hlc Hnd Hfresh.
  - exists s, c. split; [done|]. split; [apply same_but_refl|].
    split; [done|]. split; [apply cat_kept_refl|]. split; [done|].
    intros n v Hin. by inversion Hin.
  - cbn [fmap list_fmap fst] in Hnd, Hfresh.
    apply NoDup_cons in Hnd as [Hn0 Hnd].
    destruct (import_item_fresh s lc c n0 v0 Hlc) as
      (s1 & c1 & it & Hrun1 & Hsame1 & Hlc1 & Hitems1 & Hkept1 & Hli1
       & Hval1 & Hcol1 & Hid1 & Hpar1 & Htab1).
    { apply Hfresh. by left. }
    destruct (IH s1 lc c1 Hlc1 Hnd) as (s' & c' & Hrun & Hsame & Hlc' & Hkept
                                        & Hkeep & Hleaves).
    { intros n Hn. rewrite Hitems1, lookup_insert_ne; [|by intros ->].
      apply Hfresh. by right. }
    exists s', c'. split.
    { change (enc_item <$> (n0, v0) :: rest)
        with (enc_item (n0, v0) :: (enc_item <$> rest)).
      by rewrite for_each_cons, Hrun1. }
    split; [by eapply same_but_trans|].
    split; [done|]. split; [by eapply cat_kept_trans|]. split.
    + intros n Hn. cbn [fmap list_fmap fst] in Hn.
      apply not_elem_of_cons in Hn as [Hne Hn].
      rewrite (Hkeep n Hn), Hitems1. by rewrite lookup_insert_ne.
    + intros n v [Heq|Hin]%elem_of_cons; [|by apply Hleaves].
      injection Heq as -> ->.
      exists c', (length (heap s)), it.
      split; [done|]. split.
      { rewrite (Hkeep n0 Hn0), Hitems1. apply lookup_insert_eq. }
      split.
      { eapply same_but_lookup; [done|done|].
        by eapply not_eq_sym, lookup_fresh_ne. }
      do 4 (split; [done|]).
      intros Hmany. destruct Hkept as (_ & _ & Htab). auto.
Qed.

(** An item found in a category is still found there after writes to an
    object that is no item and no category. *)
Lemma item_at_same_but x ox s s' lc n v :
  same_but x s s' → heap s !! x = Some ox →
  kind_of ox ≠ KItem → kind_of ox ≠ KCategory →
  item_at s lc n v → item_at s' lc n v.
Proof.
  intros Hsame Hx Hk1 Hk2 (c & li & it & Hc & Hn & Hli & Hrest).
  exists c, li, it.
  split; [eapply same_but_lookup; [done|done|]; intros ->; by simplify_eq|].
  split; [done|].
  split; [eapply same_but_lookup; [done|done|]; intros ->; by simplify_eq|].
  done.
Qed.

Lemma category_ok_same_but x ox s s' lc lb cn items :
  same_but x s s' → heap s !! x = Some ox →
  kind_of ox ≠ KItem → kind_of ox ≠ KCategory →
  category_ok s lc lb cn items → category_ok s' lc lb cn items.
Proof.
  intros Hsame Hx Hk1 Hk2 (c & Hc & Hid & Hpar & Hleaves).
  exists c.
  split; [eapply same_but_lookup; [done|done|]; intros ->; by simplify_eq|].
  do 2 (split; [done|]). intros n v Hin.
  eapply item_at_same_but; [done|done|done|done|]. by apply Hleaves.
Qed.

(** One entry of a block: a new category, with its items. *)
Lemma import_category_fresh s lb blk cn (items : item_map) :
  heap s !! lb = Some (ODataBlock blk) →
  db_categories blk !! lstrip "_"%char cn = None →
  NoDup items.*1 →
  ∃ s1 blk1,
    CifFile.import_category (VRef lb) (enc_category (cn, items)) s
    = Return tt s1
    ∧ same_but lb s s1
    ∧ heap s1 !! lb = Some (ODataBlock blk1)
    ∧ db_categories blk1
      = <[lstrip "_"%char cn := length (heap s)]> (db_categories blk)
    ∧ db_id blk1 = db_id blk ∧ db_parent blk1 = db_parent blk
    ∧ category_ok s1 (length (heap s)) lb cn items.
Proof.
  intros Hlb Hfresh Hnd.
  pose proof (lookup_fresh_ne _ _ _ Hlb) as Hne.
  pose proof (setCategory_block_new s lb blk cn Hlb Hfresh) as Hrun.
  set (blk0 := DataBlock.with_categories blk _) in Hrun.
  set (s0 := upd (push s (new_category (lstrip "_"%char cn) lb)) lb
               (ODataBlock blk0)) in *.
  assert (heap s0 !! lb = Some (ODataBlock blk0)) as Hlb0.
  { unfold s0. eapply lookup_upd_eq. by apply lookup_push_old. }
  assert (heap s0 !! length (heap s)
          = Some (new_category (lstrip "_"%char cn) lb)) as Hlc0.
  { unfold s0. rewrite lookup_upd_ne by done. apply lookup_push_new. }
  unfold new_category in Hlc0.
  destruct (import_items_run items s0 (length (heap s)) _ Hlc0 Hnd)
    as (s1 & c' & Hitems & Hsame & Hlc1 & (Hid & Hpar & _) & _ & Hleaves).
  { intros n _. apply lookup_empty. }
  assert (same_but lb s s0) as Hsame0.
  { unfold s0. apply same_but_push_upd. by eexists. }
  exists s1, blk0. split.
  { unfold CifFile.import_category, enc_category, call_setCategory.
    cbn [fst snd]. mrun. rewrite Hrun.
    rewrite try_except_unfold, bind_unfold. unfold encode_items.
    cbn [py_items mret M_ret]. by rewrite Hitems. }
  split; [by eapply same_but_fresh|].
  split.
  { eapply same_but_lookup; [done|done|]. done. }
  do 3 (split; [done|]). by exists c'.
Qed.

(** The loop over the entries of a block whose category names are new to
    it. *)
Lemma import_categories_run (cats : category_map) :
  ∀ s lb blk,
    heap s !! lb = Some (ODataBlock blk) →
    NoDup (lstrip "_"%char <$> cats.*1) →
    (∀ cn, cn ∈ cats.*1 → db_categories blk !! lstrip "_"%char cn = None) →
    Forall (λ c, NoDup c.2.*1) cats →
    ∃ s' blk',
      for_each (enc_category <$> cats) (CifFile.import_category (VRef lb)) s
      = Return tt s'
      ∧ same_but lb s s'
      ∧ heap s' !! lb = Some (ODataBlock blk')
      ∧ db_id blk' = db_id blk ∧ db_parent blk' = db_parent blk
      ∧ (∀ k, k ∉ (lstrip "_"%char <$> cats.*1) →
              db_categories blk' !! k = db_categories blk !! k)
      ∧ (∀ cn items, (cn, items) ∈ cats → category_at s' lb cn items).
Proof.
  induction cats as [|[cn0 items0] rest IH];
    intros s lb blk Hlb Hnd Hfresh Hitems.
  - exists s, blk. split; [done|]. split; [apply same_but_refl|].
    do 4 (split; [done|]). intros cn items Hin. by inversion Hin.
  - cbn [fmap list_fmap fst] in Hnd, Hfresh.
    apply NoDup_cons in Hnd as [Hn0 Hnd].
    apply Forall_cons in Hitems as [Hi0 Hitems]. cbn [snd] in Hi0.
    destruct (import_category_fresh s lb blk cn0 items0 Hlb) as
      (s1 & blk1 & Hrun1 & Hsame1 & Hlb1 & Hcats1 & Hid1 & Hpar1 & Hok1);
      [apply Hfresh; by left|done|].
    destruct (IH s1 lb blk1 Hlb1 Hnd) as (s' & blk' & Hrun & Hsame & Hlb'
                                          & Hid & Hpar & Hkeep & Hrest);
      [|done|].
    { intros cn Hcn. rewrite Hcats1, lookup_insert_ne.
      - apply Hfresh. by right.
      - intros E. apply Hn0. rewrite E.
        by apply list_elem_of_fmap_2. }
    exists s', blk'. split.
    { change (enc_category <$> (cn0, items0) :: rest)
        with (enc_category (cn0, items0) :: (enc_category <$> rest)).
      by rewrite for_each_cons, Hrun1. }
    split; [by eapply same_but_trans|].
    split; [done|]. split; [congruence|]. split; [congruence|]. split.
    + intros k Hk. cbn [fmap list_fmap fst] in Hk.
      apply not_elem_of_cons in Hk as [Hne Hk].
      rewrite (Hkeep k Hk), Hcats1. by rewrite lookup_insert_ne.
    + intros cn items [Heq|Hin]%elem_of_cons; [|by apply Hrest].
      injection Heq as -> ->.
      exists blk', (length (heap s)). split; [done|]. split.
      { rewrite (Hkeep _ Hn0), Hcats1. apply lookup_insert_eq. }
      by eapply (category_ok_same_but lb (ODataBlock blk1) s1 s').
Qed.

(** A block is still what it was, with its categories, after writes to a
    file. *)
Lemma block_ok_same_but x f s s' lb self bn cats :
  same_but x s s' → heap s !! x = Some (OCifFile f) →
  block_ok s lb self bn cats → block_ok s' lb self bn cats.
Proof.
  intros Hsame Hx (blk & Hlb & Hid & Hpar & Hcats).
  assert (lb ≠ x) as Hne by (intros ->; by simplify_eq).
  exists blk. split; [by eapply same_but_lookup|].
  do 2 (split; [done|]). intros cn items Hin.
  destruct (Hcats cn items Hin) as (blk2 & lc & Hlb2 & Hlc & Hok).
  exists blk2, lc. split; [by eapply same_but_lookup|]. split; [done|].
  by eapply (category_ok_same_but x (OCifFile f) s s').
Qed.

(** One entry of the mapping: a new block, with its categories. *)
Lemma import_block_fresh s self f bn (cats : category_map) :
  heap s !! self = Some (OCifFile f) →
  cf_data_blocks f !! bn = None →
  NoDup (lstrip "_"%char <$> cats.*1) →
  Forall (λ c, NoDup c.2.*1) cats →
  ∃ s1 f1,
    CifFile.import_block self (enc_block (bn, cats)) s = Return tt s1
    ∧ same_but self s s1
    ∧ heap s1 !! self = Some (OCifFile f1)
    ∧ cf_data_blocks f1 = <[bn := length (heap s)]> (cf_data_blocks f)
    ∧ block_ok s1 (length (heap s)) self bn cats.
Proof.
  intros Hself Hfresh Hnd Hitems.
  pose proof (lookup_fresh_ne _ _ _ Hself) as Hne.
  pose proof (setDataBlock_new s self f bn Hself Hfresh) as Hrun.
  set (f0 := CifFile.with_data_blocks f _) in Hrun.
  set (s0 := upd (push s (new_datablock bn self)) self (OCifFile f0)) in *.
  assert (heap s0 !! self = Some (OCifFile f0)) as Hself0.
  { unfold s0. eapply lookup_upd_eq. by apply lookup_push_old. }
  assert (heap s0 !! length (heap s) = Some (new_datablock bn self)) as Hlb0.
  { unfold s0. rewrite lookup_upd_ne by done. apply lookup_push_new. }
  unfold new_datablock in Hlb0.
  destruct (import_categories_run cats s0 (length (heap s)) _ Hlb0 Hnd)
    as (s1 & blk' & Hcats & Hsame & Hlb1 & Hid & Hpar & _ & Hleaves);
    [|done|].
  { intros cn _. apply lookup_empty. }
  assert (same_but self s s0) as Hsame0.
  { unfold s0. apply same_but_push_upd. by eexists. }
  exists s1, f0. split.
  { unfold CifFile.import_block, enc_block. cbn [fst snd].
    rewrite bind_unfold, Hrun, bind_unfold. unfold encode_categories.
    cbn [py_items mret M_ret]. exact Hcats. }
  split; [by eapply same_but_fresh|].
  split; [by eapply same_but_lookup|].
  split; [done|]. by exists blk'.
Qed.

(** The loop over the entries of the mapping whose block names are new to
    the file. *)
Lemma import_blocks_run (data : block_map) :
  ∀ s self f,
    heap s !! self = Some (OCifFile f) →
    well_keyed data →
    (∀ bn, bn ∈ data.*1 → cf_data_blocks f !! bn = None) →
    ∃ s' f',
      for_each (enc_block <$> data) (CifFile.import_block self) s
      = Return tt s'
      ∧ same_but self s s'
      ∧ heap s' !! self = Some (OCifFile f')
      ∧ (∀ k, k ∉ data.*1 → cf_data_blocks f' !! k = cf_data_blocks f !! k)
      ∧ (∀ bn cats, (bn, cats) ∈ data → block_at s' self bn cats).
Proof.
  induction data as [|[bn0 cats0] rest IH];
    intros s self f Hself [Hnd Hwk] Hfresh.
  - exists s, f. split; [done|]. split; [apply same_but_refl|].
    split; [done|]. split; [done|]. intros bn cats Hin. by inversion Hin.
  - cbn [fmap list_fmap fst] in Hnd, Hfresh.
    apply NoDup_cons in Hnd as [Hn0 Hnd].
    apply Forall_cons in Hwk as [[Hc0 Hi0] Hwk]. cbn [snd] in Hc0, Hi0.
    destruct (import_block_fresh s self f bn0 cats0 Hself) as
      (s1 & f1 & Hrun1 & Hsame1 & Hself1 & Hblocks1 & Hok1);
      [apply Hfresh; by left|done|done|].
    destruct (IH s1 self f1 Hself1) as (s' & f' & Hrun & Hsame & Hself'
                                        & Hkeep & Hrest); [by split| |].
    { intros bn Hbn. rewrite Hblocks1, lookup_insert_ne; [|by intros ->].
      apply Hfresh. by right. }
    exists s', f'. split.
    { change (enc_block <$> (bn0, cats0) :: rest)
        with (enc_block (bn0, cats0) :: (enc_block <$> rest)).
      by rewrite for_each_cons, Hrun1. }
    split; [by eapply same_but_trans|].
    split; [done|]. split.
    + intros k Hk. cbn [fmap list_fmap fst] in Hk.
      apply not_elem_of_cons in Hk as [Hne Hk].
      rewrite (Hkeep k Hk), Hblocks1. by rewrite lookup_insert_ne.
    + intros bn cats [Heq|Hin]%elem_of_cons; [|by apply Hrest].
      injection Heq as -> ->.
      exists f', (length (heap s)). split; [done|]. split.
      { rewrite (Hkeep _ Hn0), Hblocks1. apply lookup_insert_eq. }
      by eapply (block_ok_same_but self f1 s1 s').
Qed.

(** The constructor of the file with a mapping. *)
Lemma init_run (file_path : option string) (data : block_map) (s : state) :
  well_keyed data →
  ∃ s',
    CifFile.__init__ file_path (encode_blocks data) s
    = Return (length (heap s)) s'
    ∧ (data ≠ [] → stdout s' = stdout s)
    ∧ (∀ l o, heap s !! l = Some o → heap s' !! l = Some o)
    ∧ ∀ bn cats, (bn, cats) ∈ data → block_at s' (length (heap s)) bn cats.
Proof.
  intros Hwk.
  set (f0 := {| cf_data_blocks := ∅; cf_recycleBin := ∅;
                cf_file_path := file_path |}).
  set (s0 := push s (OCifFile f0)).
  assert (heap s0 !! length (heap s) = Some (OCifFile f0)) as Hself
    by apply lookup_push_new.
  destruct (import_blocks_run data s0 (length (heap s)) f0 Hself Hwk)
    as (s' & f' & Hrun & (Hout & Hlen & Hframe) & Hself' & _ & Hleaves).
  { intros bn _. apply lookup_empty. }
  destruct data as [|e rest].
  - eexists. split.
    { unfold CifFile.__init__. mrun. cbn. reflexivity. }
    split; [done|]. split; [intros l o Hl; by apply lookup_app_l_Some|].
    intros bn cats Hin. by inversion Hin.
  - exists s'. split.
    { unfold CifFile.__init__. mrun. fold f0. fold s0.
      unfold encode_blocks. cbn [is_None fmap list_fmap].
      unfold CifFile.import_mmcif_data_map.
      change (enc_block e :: (enc_block <$> rest))
        with (enc_block <$> e :: rest) .
      rewrite Hrun. reflexivity. }
    split; [intros _; by rewrite Hout|].
    split; [|exact Hleaves].
    intros l o Hl. rewrite Hframe.
    + by apply lookup_app_l_Some.
    + unfold s0. cbn. rewrite length_app.
      apply lookup_lt_Some in Hl. lia.
    + by eapply lookup_fresh_ne.
Qed.

(** A leaf that is in place is what the getters return. *)
Lemma read_leaf_run s self bn cats cn items n v :
  block_at s self bn cats → (cn, items) ∈ cats → (n, v) ∈ items →
  read_leaf self bn cn n s = Return (stored v) s.
Proof.
  intros (f & lb & Hself & Hlb & blk0 & Hblk0 & _ & _ & Hcats) Hc Hn.
  destruct (Hcats cn items Hc) as (blk & lc & Hblk & Hlc & c0 & _ & _ & _
                                   & Hitems).
  destruct (Hitems n v Hn) as (c & li & it & Hcat & Hli & Hit & Hv & _).
  unfold read_leaf, CifFile.getDataBlock. mrun. rewrite Hlb. cbn.
  unfold call_getCategory, DataBlock.getCategory. mrun. rewrite Hlc. cbn.
  unfold call_getItem, Category.getItem. mrun. rewrite Hli. cbn.
  unfold call_getRawValue, Item.getRawValue. mrun. by rewrite Hv.
Qed.

(** *** The import of a mapping with malformed categories *)

Lemma kept_but_refl x s : kept_but x s s.
Proof. split; [done|]. split; [done|]. intros o Ho. by exists o. Qed.

Lemma kept_but_trans x s1 s2 s3 :
  kept_but x s1 s2 → kept_but x s2 s3 → kept_but x s1 s3.
Proof.
  intros (L1 & H1 & K1) (L2 & H2 & K2). split; [lia|]. split.
  - intros l Hl Hne. rewrite H2 by (done || lia). by apply H1.
  - intros o Ho. destruct (K1 o Ho) as (o1 & Ho1 & Hk1).
    destruct (K2 o1 Ho1) as (o2 & Ho2 & Hk2).
    exists o2. split; [done|congruence].
Qed.

(** Writes to an object that did not exist yet do not count. *)
Lemma kept_but_fresh x y s1 s2 s3 :
  kept_but x s1 s2 → kept_but y s2 s3 → (length (heap s1) ≤ y)%nat →
  kept_but x s1 s3.
Proof.
  intros (L1 & H1 & K1) (L2 & H2 & K2) Hy. split; [lia|]. split.
  - intros l Hl Hne. rewrite H2 by lia. by apply H1.
  - intros o Ho. destruct (K1 o Ho) as (o1 & Ho1 & Hk1).
    exists o1. split; [|done]. apply lookup_lt_Some in Ho.
    rewrite H2 by lia. done.
Qed.

Lemma kept_but_upd s x ox o' :
  heap s !! x = Some ox → kind_of o' = kind_of ox →
  kept_but x s (upd s x o').
Proof.
  intros Hx Hk. split; [cbn; by rewrite length_insert|]. split.
  - intros l Hl Hne. by rewrite lookup_upd_ne.
  - intros o Ho. exists o'. split; [by eapply lookup_upd_eq|congruence].
Qed.

Lemma kept_but_push_upd s x o ox o' :
  heap s !! x = Some ox → kind_of o' = kind_of ox →
  kept_but x s (upd (push s o) x o').
Proof.
  intros Hx Hk. split.
  { cbn. rewrite length_insert, length_app. lia. }
  split.
  - intros l Hl Hne. rewrite lookup_upd_ne by done.
    cbn. by rewrite lookup_app_l.
  - intros o0 Ho0. exists o'. split; [|congruence].
    eapply lookup_upd_eq. by apply lookup_push_old.
Qed.

Lemma kept_but_lookup x s s' l o :
  kept_but x s s' → heap s !! l = Some o → l ≠ x → heap s' !! l = Some o.
Proof.
  intros (_ & H & _) Hl Hne. rewrite H; [done| |done].
  by eapply lookup_lt_Some.
Qed.

Lemma kept_but_has_kind x s s' k l :
  kept_but x s s' → has_kind s k l → has_kind s' k l.
Proof.
  intros Hk H. unfold has_kind in *.
  destruct (heap s !! l) as [o|] eqn:Hl; [|done].
  destruct (decide (l = x)) as [->|Hne].
  - destruct Hk as (_ & _ & K). destruct (K o Hl) as (o' & -> & Ho').
    cbn in *. congruence.
  - by rewrite (kept_but_lookup _ _ _ _ _ Hk Hl Hne).
Qed.

Lemma category_entry_ok_kept x s s' e :
  kept_but x s s' → category_entry_ok s e → category_entry_ok s' e.
Proof.
  intros Hk (H1 & H2 & H3). split; [done|]. split; [|done].
  intros l Hl. destruct (H2 l Hl) as (k & Hkind & Hne).
  exists k. split; [by eapply kept_but_has_kind|done].
Qed.

Lemma block_entry_ok_kept x s s' e :
  kept_but x s s' → block_entry_ok s e → block_entry_ok s' e.
Proof.
  intros Hk (H1 & H2 & H3). do 2 (split; [done|]).
  eapply Forall_impl; [exact H3|]. intros y.
  by apply (category_entry_ok_kept x s s').
Qed.

(** An item found in a category is still found there after writes to an
    object that is no item and no category. *)
Lemma item_at_kept x ox s s' lc n v :
  kept_but x s s' → heap s !! x = Some ox →
  kind_of ox ≠ KItem → kind_of ox ≠ KCategory →
  item_at s lc n v → item_at s' lc n v.
Proof.
  intros Hk Hx Hk1 Hk2 (c & li & it & Hc & Hn & Hli & Hrest).
  exists c, li, it.
  split; [eapply kept_but_lookup; [done|done|]; intros ->; by simplify_eq|].
  split; [done|].
  split; [eapply kept_but_lookup; [done|done|]; intros ->; by simplify_eq|].
  done.
Qed.

Lemma category_ok_kept x ox s s' lc lb cn items :
  kept_but x s s' → heap s !! x = Some ox →
  kind_of ox ≠ KItem → kind_of ox ≠ KCategory →
  category_ok s lc lb cn items → category_ok s' lc lb cn items.
Proof.
  intros Hk Hx Hk1 Hk2 (c & Hc & Hid & Hpar & Hleaves).
  exists c.
  split; [eapply kept_but_lookup; [done|done|]; intros ->; by simplify_eq|].
  do 2 (split; [done|]). intros n v Hin.
  eapply item_at_kept; [done|done|done|done|]. by apply Hleaves.
Qed.

Lemma block_ok_kept x f s s' lb self bn cats :
  kept_but x s s' → heap s !! x = Some (OCifFile f) →
  block_ok s lb self bn cats → block_ok s' lb self bn cats.
Proof.
  intros Hk Hx (blk & Hlb & Hid & Hpar & Hcats).
  assert (lb ≠ x) as Hne by (intros ->; by simplify_eq).
  exists blk. split; [by eapply kept_but_lookup|].
  do 2 (split; [done|]). intros cn items Hin.
  destruct (Hcats cn items Hin) as (blk2 & lc & Hlb2 & Hlc & Hok).
  exists blk2, lc. split; [by eapply kept_but_lookup|]. split; [done|].
  by eapply (category_ok_kept x (OCifFile f) s s').
Qed.

(** [setValue] writes to the item and to its category only, also when it
    raises. *)
Lemma setValue_writes s li i c v t n :
  heap s !! li = Some (OItem i) →
  heap s !! it_parent i = Some (OCategory c) →
  ends (Item.setValue li v t n s)
    (λ _ s', item_written s li i c s') (λ s', item_written s li i c s').
Proof.
  intros Hi Hp.
  pose proof (item_not_parent _ _ _ _ Hi Hp) as Hne.
  assert (∀ i', it_parent i' = it_parent i →
            item_written s li i c (upd s li (OItem i'))) as Hput.
  { intros i' Hpar. exists i', c. split; [|done].
    symmetry. apply upd_same. by rewrite lookup_upd_ne. }
  assert (item_written s li i c s) as Hsame.
  { exists i, c. split; [|done]. rewrite (upd_same s li _ Hi).
    symmetry. by apply upd_same. }
  assert (∀ i', it_parent i' = it_parent i →
            ends (Item.mark_parent_table li (upd s li (OItem i')))
              (λ _ s', item_written s li i c s')
              (λ s', item_written s li i c s')) as Hmark.
  { intros i' Hpar.
    rewrite (mark_parent_table_after_put s li i c Hi Hp i' Hpar). cbn.
    by exists i', (Category.with_isTable c true). }
  unfold Item.setValue. mrun.
  destruct (is_None (it_value i) && negb (it_isColumn i)) eqn:E1;
    [|destruct (negb (is_None (it_value i)) && negb (it_isColumn i)) eqn:E2].
  - destruct v as [| | | |[|x [|y rest]]| | |]; mrun; cbn [ends];
      try (by apply Hput).
    by apply Hmark.
  - mrun. by apply Hmark.
  - destruct (it_value i) eqn:Ev; cbn [Item.py_append]; mrun; cbn [ends];
      try exact Hsame.
    cbn [Item.with_value it_type].
    destruct (it_type i) eqn:Et; cbn [Item.py_append]; mrun; cbn [ends];
      try (by apply Hput).
    rewrite upd_upd.
    cbn [Item.with_value Item.with_type it_lineno].
    destruct (it_lineno i) eqn:En; cbn [Item.py_append]; mrun; cbn [ends];
      try (by apply Hput).
    unfold put_obj. cbn [ends]. rewrite upd_upd. by apply Hput.
Qed.

Lemma setdefault_from (m : gmap string loc) k l j x :
  (setdefault m k l).1 !! j = Some x → m !! j = Some x ∨ x = l.
Proof.
  unfold setdefault. destruct (m !! k) eqn:E; cbn; [by left|].
  destruct (decide (j = k)) as [->|Hne].
  - rewrite lookup_insert_eq. intros [= <-]. by right.
  - rewrite lookup_insert_ne by done. by left.
Qed.

(** [setValue] on an item of a category whose items are its own leaves the
    objects older than the items as they are, but the category. *)
Lemma call_setValue_kept s0 lc s r it v :
  kept_but lc s0 s → own_items (length (heap s0)) lc s →
  heap s !! r = Some (OItem it) → it_parent it = lc →
  (length (heap s0) ≤ r)%nat →
  ends (call_setValue (VRef r) v s)
    (λ _ s', kept_but lc s0 s' ∧ own_items (length (heap s0)) lc s')
    (λ s', kept_but lc s0 s').
Proof.
  intros (L & H & K) (c & Hc & Hown) Hr Hpar Hbase.
  assert (lc ≠ r) as Hne by congruence.
  assert (heap s !! it_parent it = Some (OCategory c)) as Hp
    by (by rewrite Hpar).
  assert (∀ s', item_written s r it c s' →
            kept_but lc s0 s' ∧ own_items (length (heap s0)) lc s') as Hw.
  { intros s' (i' & c' & -> & Hpar' & Hitems). rewrite Hpar in *.
    split.
    - split; [cbn; by rewrite !length_insert|]. split.
      + intros l Hl Hx. rewrite lookup_upd_ne by done.
        rewrite lookup_upd_ne by lia. by apply H.
      + intros o Ho. destruct (K o Ho) as (o1 & Ho1 & Hk1).
        exists (OCategory c'). split.
        * eapply lookup_upd_eq. by rewrite lookup_upd_ne.
        * rewrite <- Hk1. by simplify_eq.
    - exists c'. split.
      { eapply lookup_upd_eq. by rewrite lookup_upd_ne. }
      intros n li Hn. rewrite Hitems in Hn.
      destruct (Hown n li Hn) as (Hb & it2 & Hit2 & Hp2).
      split; [done|]. assert (lc ≠ li) as Hne2 by congruence.
      rewrite lookup_upd_ne by done.
      destruct (decide (li = r)) as [->|Hlr].
      + exists i'. split; [by eapply lookup_upd_eq|done].
      + exists it2. split; [|done]. by rewrite lookup_upd_ne. }
  unfold call_setValue. mrun.
  eapply ends_mono; [by apply (setValue_writes s r it c)| |].
  - intros ? s'. apply Hw.
  - intros s' Hs'. by apply Hw.
Qed.

(** One entry of a category, whatever its key and its value are. *)
Lemma import_item_kept s0 lc s entry :
  kept_but lc s0 s → own_items (length (heap s0)) lc s →
  plain_key entry.1 = true →
  ends (CifFile.import_item (VRef lc) entry s)
    (λ _ s', kept_but lc s0 s' ∧ own_items (length (heap s0)) lc s')
    (λ s', kept_but lc s0 s').
Proof.
  intros Hk (c & Hc & Hown) Hkey. destruct entry as [key v]. cbn in Hkey.
  unfold CifFile.import_item, call_setItem. mrun.
  destruct key as [| | |name| | | |]; try discriminate Hkey;
    try (rewrite setItem_no_id by done; exact Hk).
  destruct (cat_items c !! name) as [l|] eqn:Hname.
  - destruct (Hown _ _ Hname) as (Hl & it & Hit & Hpar).
    rewrite (setItem_fetch _ _ _ _ _ Hc Hname),
      (setItem_ref _ _ _ _ _ Hc Hit).
    destruct (setItem_effect_items c it l) as (Hi & Hr & _).
    destruct (setItem_effect c it l) as [c' r]. cbn [fst snd] in *.
    assert (lc ≠ l) as Hne by congruence.
    assert (∀ n li, cat_items c' !! n = Some li →
              (length (heap s0) ≤ li)%nat
              ∧ ∃ it, heap s !! li = Some (OItem it) ∧ it_parent it = lc)
      as Hown'.
    { intros n li Hn. rewrite Hi in Hn.
      apply setdefault_from in Hn as [Hn| ->]; [by eapply Hown|].
      split; [done|]. by exists it. }
    destruct (Hown' (it_id it) r) as (Hbr & itr & Hitr & Hparr).
    { rewrite Hi, Hr. apply setdefault_lookup. }
    assert (lc ≠ r) as Hner by congruence.
    eapply call_setValue_kept; [| |by rewrite lookup_upd_ne|done|done].
    + eapply kept_but_trans; [exact Hk|]. by eapply kept_but_upd.
    + exists c'. split; [by eapply lookup_upd_eq|].
      intros n li Hn. destruct (Hown' n li Hn) as (Hb & it2 & Hit2 & Hp2).
      split; [done|]. exists it2. split; [|done].
      rewrite lookup_upd_ne; [done|congruence].
  - destruct (setItem_new_kept s lc c name Hc Hname) as (c' & -> & Hm & _).
    pose proof (lookup_fresh_ne _ _ _ Hc) as Hne.
    pose proof (proj1 Hk) as L.
    set (s1 := upd (push s (new_item name lc)) lc (OCategory c')).
    assert (heap s1 !! length (heap s) = Some (new_item name lc)) as Hnew.
    { unfold s1. rewrite lookup_upd_ne by done. apply lookup_push_new. }
    unfold new_item in Hnew.
    eapply (call_setValue_kept s0 lc s1 _ _ v).
    3: exact Hnew.
    3: reflexivity.
    3: exact L.
    all: unfold s1.
    + eapply kept_but_trans; [exact Hk|].
      by eapply kept_but_push_upd.
    + exists c'. split; [eapply lookup_upd_eq; by apply lookup_push_old|].
      intros n li Hn. rewrite Hm in Hn.
      destruct (decide (n = name)) as [->|Hnn].
      * rewrite lookup_insert_eq in Hn. injection Hn as <-.
        split; [done|]. eexists. split.
        { rewrite lookup_upd_ne by done. unfold new_item.
          apply lookup_push_new. }
        reflexivity.
      * rewrite lookup_insert_ne in Hn by done.
        destruct (Hown n li Hn) as (Hb & it2 & Hit2 & Hp2).
        split; [done|]. exists it2. split; [|done].
        rewrite lookup_upd_ne by congruence. by apply lookup_push_old.
Qed.

(** The loop over the entries of a category, whatever they are. *)
Lemma import_items_kept s0 lc items :
  ∀ s, kept_but lc s0 s → own_items (length (heap s0)) lc s →
       Forall (λ ie, plain_key ie.1 = true) items →
       ends (for_each items (CifFile.import_item (VRef lc)) s)
         (λ _ s', kept_but lc s0 s') (λ s', kept_but lc s0 s').
Proof.
  induction items as [|e items IH]; intros s Hk Hown Hok.
  - exact Hk.
  - apply Forall_cons in Hok as [He Hok]. rewrite for_each_cons.
    pose proof (import_item_kept s0 lc s e Hk Hown He) as H1.
    destruct (CifFile.import_item (VRef lc) e s) as [[] s1|[] s1|];
      cbn in H1; try done.
    destruct H1 as [Hk1 Hown1]. by apply IH.
Qed.

(** One entry of a block, whatever its value is: a new category; and its
    items, when the value is a mapping of names. *)
Lemma import_category_kept s lb blk cn v :
  heap s !! lb = Some (ODataBlock blk) →
  db_categories blk !! lstrip "_"%char cn = None →
  category_entry_ok s (VStr cn, v) →
  ∃ s1 blk1,
    CifFile.import_category (VRef lb) (VStr cn, v) s = Return tt s1
    ∧ kept_but lb s s1
    ∧ heap s1 !! lb = Some (ODataBlock blk1)
    ∧ db_categories blk1
      = <[lstrip "_"%char cn := length (heap s)]> (db_categories blk)
    ∧ db_id blk1 = db_id blk ∧ db_parent blk1 = db_parent blk
    ∧ ∀ items, v = encode_items items → NoDup items.*1 →
               category_ok s1 (length (heap s)) lb cn items.
Proof.
  intros Hlb Hfresh (_ & Hv & Hkeys). cbn [fst snd] in Hv, Hkeys.
  pose proof (lookup_fresh_ne _ _ _ Hlb) as Hne.
  pose proof (setCategory_block_new s lb blk cn Hlb Hfresh) as Hrun.
  set (blk0 := DataBlock.with_categories blk _) in Hrun.
  set (s0 := upd (push s (new_category (lstrip "_"%char cn) lb)) lb
               (ODataBlock blk0)) in *.
  assert (heap s0 !! lb = Some (ODataBlock blk0)) as Hlb0.
  { unfold s0. eapply lookup_upd_eq. by apply lookup_push_old. }
  assert (heap s0 !! length (heap s)
          = Some (new_category (lstrip "_"%char cn) lb)) as Hlc0.
  { unfold s0. rewrite lookup_upd_ne by done. apply lookup_push_new. }
  unfold new_category in Hlc0.
  assert (kept_but lb s s0) as Hk0.
  { unfold s0. by eapply kept_but_push_upd. }
  assert (length (heap s0) = S (length (heap s))) as Hlen0.
  { unfold s0. cbn. rewrite length_insert, length_app. cbn. lia. }
  assert (∀ s1, kept_but (length (heap s)) s0 s1 →
            kept_but lb s s1 ∧ heap s1 !! lb = Some (ODataBlock blk0))
    as Hup.
  { intros s1 Hk1. split; [by eapply kept_but_fresh|].
    by eapply kept_but_lookup. }
  assert (own_items (length (heap s0)) (length (heap s)) s0) as Hown0.
  { eexists. split; [exact Hlc0|]. intros n li Hn.
    cbn in Hn. by rewrite lookup_empty in Hn. }
  unfold CifFile.import_category, call_setCategory. mrun. rewrite Hrun.
  rewrite try_except_unfold, bind_unfold.
  destruct (is_dict v) eqn:Hdict.
  2:{ rewrite (py_items_no_mapping s0 v Hdict).
      - eexists _, blk0. split; [reflexivity|].
        split; [exact Hk0|]. split; [exact Hlb0|].
        do 3 (split; [done|]). intros items ->. discriminate Hdict.
      - intros l Hl. destruct (Hv l Hl) as (k & Hkind & Hnk).
        exists k. split; [by eapply kept_but_has_kind|done]. }
  destruct v as [| | | | |entries_v| |]; try discriminate Hdict.
  cbn [entries] in Hkeys. cbn [py_items mret M_ret].
  pose proof (import_items_kept s0 (length (heap s)) entries_v s0
                (kept_but_refl _ _) Hown0 Hkeys) as Hloop.
  destruct (for_each entries_v
              (CifFile.import_item (VRef (length (heap s)))) s0)
    as [[] s2|[] s2|] eqn:Hfor; cbn in Hloop; try done.
  - destruct (Hup s2 Hloop) as [Hk2 Hlb2].
    exists s2, blk0. do 6 (split; [done|]).
    intros items Heq Hnd. unfold encode_items in Heq. injection Heq as ->.
    destruct (import_items_run items s0 (length (heap s)) _ Hlc0 Hnd)
      as (s' & c' & Hitems & _ & Hlc1 & (Hid & Hpar & _) & _ & Hleaves).
    { intros n _. apply lookup_empty. }
    assert (s' = s2) as -> by congruence. by exists c'.
  - destruct (Hup s2 Hloop) as [Hk2 Hlb2].
    eexists _, blk0. split; [reflexivity|].
    split; [exact Hk2|]. split; [exact Hlb2|]. do 3 (split; [done|]).
    intros items Heq Hnd. unfold encode_items in Heq. injection Heq as ->.
    destruct (import_items_run items s0 (length (heap s)) _ Hlc0 Hnd)
      as (s' & c' & Hitems & _). { intros n _. apply lookup_empty. }
    congruence.
Qed.

(** The loop over the entries of a block whose category names are new to
    it, whatever their values are. *)
Lemma import_categories_kept (cats : list (pyval * pyval)) :
  ∀ s lb blk,
    heap s !! lb = Some (ODataBlock blk) →
    NoDup (category_key <$> cats.*1) →
    (∀ c, c ∈ cats.*1 → db_categories blk !! category_key c = None) →
    Forall (category_entry_ok s) cats →
    ∃ s' blk',
      for_each cats (CifFile.import_category (VRef lb)) s = Return tt s'
      ∧ kept_but lb s s'
      ∧ heap s' !! lb = Some (ODataBlock blk')
      ∧ db_id blk' = db_id blk ∧ db_parent blk' = db_parent blk
      ∧ (∀ k, k ∉ (category_key <$> cats.*1) →
              db_categories blk' !! k = db_categories blk !! k)
      ∧ (∀ cn items, (VStr cn, encode_items items) ∈ cats →
                     NoDup items.*1 → category_at s' lb cn items).
Proof.
  induction cats as [|[c0 v0] rest IH]; intros s lb blk Hlb Hnd Hfresh Hok.
  - exists s, blk. split; [done|]. split; [apply kept_but_refl|].
    do 4 (split; [done|]). intros cn items Hin. by inversion Hin.
  - cbn [fmap list_fmap fst] in Hnd, Hfresh.
    apply NoDup_cons in Hnd as [Hn0 Hnd].
    apply Forall_cons in Hok as [He Hok].
    pose proof He as ([cn0 Hname] & _). cbn [fst] in Hname. subst c0.
    destruct (import_category_kept s lb blk cn0 v0 Hlb) as
      (s1 & blk1 & Hrun1 & Hk1 & Hlb1 & Hcats1 & Hid1 & Hpar1 & Hok1);
      [apply (Hfresh (VStr cn0)); by left|done|].
    destruct (IH s1 lb blk1 Hlb1 Hnd) as (s' & blk' & Hrun & Hk & Hlb'
                                          & Hid & Hpar & Hkeep & Hrest).
    { intros c Hc. rewrite Hcats1, lookup_insert_ne.
      - apply Hfresh. by right.
      - intros E. apply Hn0.
        change (lstrip "_"%char cn0) with (category_key (VStr cn0)) in E.
        rewrite E. by apply list_elem_of_fmap_2. }
    { eapply Forall_impl; [exact Hok|]. intros y.
      by apply (category_entry_ok_kept lb s s1). }
    exists s', blk'. split; [by rewrite for_each_cons, Hrun1|].
    split; [by eapply kept_but_trans|].
    split; [done|]. split; [congruence|]. split; [congruence|]. split.
    + intros k Hk'. cbn [fmap list_fmap fst] in Hk'.
      apply not_elem_of_cons in Hk' as [Hnk Hk'].
      rewrite (Hkeep k Hk'), Hcats1. by rewrite lookup_insert_ne.
    + intros cn items [Heq|Hin]%elem_of_cons Hnd'; [|by apply Hrest].
      injection Heq as -> <-.
      exists blk', (length (heap s)). split; [done|]. split.
      { pose proof (Hkeep _ Hn0) as Hkept.
        unfold category_key, key_name in Hkept.
        rewrite Hkept, Hcats1. apply lookup_insert_eq. }
      eapply (category_ok_kept lb (ODataBlock blk1) s1 s');
        [done|done|done|done|]. by apply Hok1.
Qed.

(** One entry of the mapping: a new block, with its categories. *)
Lemma import_block_kept s self f bn (cats : list (pyval * pyval)) :
  heap s !! self = Some (OCifFile f) →
  cf_data_blocks f !! bn = None →
  NoDup (category_key <$> cats.*1) →
  Forall (category_entry_ok s) cats →
  ∃ s1 f1,
    CifFile.import_block self (VStr bn, VDict cats) s = Return tt s1
    ∧ kept_but self s s1
    ∧ heap s1 !! self = Some (OCifFile f1)
    ∧ cf_data_blocks f1 = <[bn := length (heap s)]> (cf_data_blocks f)
    ∧ ∀ cn items, (VStr cn, encode_items items) ∈ cats → NoDup items.*1 →
                  block_ok s1 (length (heap s)) self bn [(cn, items)].
Proof.
  intros Hself Hfresh Hnd Hok.
  pose proof (lookup_fresh_ne _ _ _ Hself) as Hne.
  pose proof (setDataBlock_new s self f bn Hself Hfresh) as Hrun.
  set (f0 := CifFile.with_data_blocks f _) in Hrun.
  set (s0 := upd (push s (new_datablock bn self)) self (OCifFile f0)) in *.
  assert (heap s0 !! self = Some (OCifFile f0)) as Hself0.
  { unfold s0. eapply lookup_upd_eq. by apply lookup_push_old. }
  assert (heap s0 !! length (heap s) = Some (new_datablock bn self)) as Hlb0.
  { unfold s0. rewrite lookup_upd_ne by done. apply lookup_push_new. }
  unfold new_datablock in Hlb0.
  assert (kept_but self s s0) as Hk0.
  { unfold s0. by eapply kept_but_push_upd. }
  destruct (import_categories_kept cats s0 (length (heap s)) _ Hlb0 Hnd)
    as (s1 & blk' & Hcats & Hk & Hlb1 & Hid & Hpar & _ & Hleaves).
  { intros c _. apply lookup_empty. }
  { eapply Forall_impl; [exact Hok|]. intros y.
    by apply (category_entry_ok_kept self s s0). }
  exists s1, f0. split.
  { unfold CifFile.import_block.
    rewrite bind_unfold, Hrun, bind_unfold. cbn [py_items mret M_ret].
    exact Hcats. }
  split; [by eapply kept_but_fresh|].
  split; [by eapply kept_but_lookup|].
  split; [done|]. intros cn items Hin Hnd'. exists blk'.
  do 3 (split; [done|]).
  intros cn' items' [[= -> ->]|Hnil]%elem_of_cons; [|by inversion Hnil].
  by apply Hleaves.
Qed.

(** The loop over the entries of the mapping whose block names are new to
    the file. *)
Lemma import_blocks_kept (data : list (pyval * pyval)) :
  ∀ s self f,
    heap s !! self = Some (OCifFile f) →
    distinct_keys data →
    (∀ b, b ∈ data.*1 → cf_data_blocks f !! key_name b = None) →
    Forall (block_entry_ok s) data →
    ∃ s' f',
      for_each data (CifFile.import_block self) s = Return tt s'
      ∧ kept_but self s s'
      ∧ heap s' !! self = Some (OCifFile f')
      ∧ (∀ k, k ∉ (key_name <$> data.*1) →
              cf_data_blocks f' !! k = cf_data_blocks f !! k)
      ∧ (∀ bn cats cn items,
           (VStr bn, VDict cats) ∈ data →
           (VStr cn, encode_items items) ∈ cats → NoDup items.*1 →
           block_at s' self bn [(cn, items)]).
Proof.
  induction data as [|[b0 v0] rest IH];
    intros s self f Hself [Hnd Hwk] Hfresh Hok.
  - exists s, f. split; [done|]. split; [apply kept_but_refl|].
    do 2 (split; [done|]). intros bn cats cn items Hin. by inversion Hin.
  - cbn [fmap list_fmap fst] in Hnd, Hfresh.
    apply NoDup_cons in Hnd as [Hn0 Hnd].
    apply Forall_cons in Hwk as [Hc0 Hwk]. cbn [snd] in Hc0.
    apply Forall_cons in Hok as [([bn0 Hname] & Hdict & Hcats0) Hok].
    cbn [fst snd] in Hname, Hdict, Hcats0. subst b0.
    destruct v0 as [| | | | |cats0| |]; try discriminate Hdict.
    cbn [entries] in Hc0, Hcats0.
    destruct (import_block_kept s self f bn0 cats0 Hself) as
      (s1 & f1 & Hrun1 & Hk1 & Hself1 & Hblocks1 & Hok1);
      [apply (Hfresh (VStr bn0)); by left|done|done|].
    destruct (IH s1 self f1 Hself1) as (s' & f' & Hrun & Hk & Hself'
                                        & Hkeep & Hrest); [by split| | |].
    { intros b Hb. rewrite Hblocks1, lookup_insert_ne.
      - apply Hfresh. by right.
      - intros E. apply Hn0.
        change bn0 with (key_name (VStr bn0)) in E.
        rewrite E. by apply list_elem_of_fmap_2. }
    { eapply Forall_impl; [exact Hok|]. intros y.
      by apply (block_entry_ok_kept self s s1). }
    exists s', f'. split; [by rewrite for_each_cons, Hrun1|].
    split; [by eapply kept_but_trans|].
    split; [done|]. split.
    + intros k Hk'. cbn [fmap list_fmap fst] in Hk'.
      apply not_elem_of_cons in Hk' as [Hnk Hk'].
      rewrite (Hkeep k Hk'), Hblocks1. by rewrite lookup_insert_ne.
    + intros bn cats cn items [Heq|Hin]%elem_of_cons Hc Hnd';
        [|by eapply Hrest].
      injection Heq as -> ->.
      exists f', (length (heap s)). split; [done|]. split.
      { pose proof (Hkeep _ Hn0) as Hkept. unfold key_name in Hkept.
        rewrite Hkept, Hblocks1. apply lookup_insert_eq. }
      eapply (block_ok_kept self f1 s1 s'); [done|done|]. by apply Hok1.
Qed.

(** C6, as the code has it: in a well-typed store, for a file whose blocks
    are registered under their ids, and a mapping whose block names are
    strings, whose block values are mappings and whose category names are
    strings (the value of a category being anything but a Category object,
    and the keys of one that is a mapping anything but objects and the
    class [str]), the import returns and raises nothing, whatever the values
    of the categories are; afterwards every block of the mapping is live in
    the file with every category of the mapping live in it, also the blocks
    and categories that come after a malformed category; and every category
    value that is no mapping was printed.  When moreover the block names
    are distinct and new to the file, and the category ids of each block are
    distinct, no object that existed but the file is written, and every
    category whose value is a mapping of distinct names to values is
    imported with all its items, whatever the other categories and blocks
    of the mapping are: for such a category [c] of the block [b] and its
    item [i] with value [v],
    [f.getDataBlock(b).getCategory(c).getItem(i).getRawValue()] returns
    [v], or the one element of [v] when [v] is a list of one. *)
Theorem import_reports_and_continues
    (s : state) (self : loc) (data : list (pyval * pyval)) :
  typed s →
  coherent s self →
  Forall (block_entry_ok s) data →
  ∃ s',
    CifFile.import_mmcif_data_map self (VDict data) s = Return tt s'
    ∧ typed s'
    ∧ (∀ b v, (b, v) ∈ data →
         ∃ bname, b = VStr bname
                  ∧ block_registered s' self bname (entries v))
    ∧ (∀ b v c x, (b, v) ∈ data → (c, x) ∈ entries v →
                  is_dict x = false → PrintVal x ∈ stdout s')
    ∧ (distinct_keys data → new_to_file s self data →
       kept_but self s s'
       ∧ ∀ bn cats cn items n v,
           (VStr bn, VDict cats) ∈ data →
           (VStr cn, encode_items items) ∈ cats →
           NoDup items.*1 → (n, v) ∈ items →
           read_leaf self bn cn n s' = Return (stored v) s').
Proof.
  intros Ht Hcoh Hok.
  destruct (import_blocks_ok self data s Ht Hcoh Hok)
    as (s' & Hrun & G & _ & Hregs & Hprints).
  destruct data as [|e data].
  - eexists. split; [reflexivity|]. split; [exact Ht|].
    split; [intros b v H; by apply elem_of_nil in H|].
    split; [intros b v c x H; by apply elem_of_nil in H|].
    intros _ _. split; [exact (kept_but_refl self s)|].
    intros bn cats cn items n v H. by apply elem_of_nil in H.
  - exists s'. split; [exact Hrun|]. split; [by apply G|].
    do 2 (split; [done|]).
    intros Hd (f & Hself & Hnew).
    destruct (import_blocks_kept (e :: data) s self f Hself Hd Hnew Hok)
      as (s2 & f' & Hrun2 & Hk & _ & _ & Hat).
    assert (s2 = s') as -> by congruence.
    split; [exact Hk|].
    intros bn cats cn items n v Hb Hc Hnd Hn.
    eapply read_leaf_run; [by eapply Hat|by left|done].
Qed.

Lemma import_reports_and_continues_witness :
  ∃ s',
    CifFile.import_mmcif_data_map 0 (VDict sample_map) file_state
    = Return tt s'
    ∧ typed s'
    ∧ block_registered s' 0 "DBLK"
        [ (VStr "broken", VStr "oops");
          (VStr "atom_site",
           VDict [ (VStr "id", VList [VInt 1; VInt 2; VInt 3]);
                   (VStr "label", VStr "C") ]) ]
    ∧ PrintVal (VStr "oops") ∈ stdout s'
    ∧ read_leaf 0 "DBLK" "atom_site" "id" s'
      = Return (VList [VInt 1; VInt 2; VInt 3]) s'
    ∧ read_leaf 0 "DBLK" "atom_site" "label" s' = Return (VStr "C") s'.
Proof.
  assert (typed file_state) as Ht
    by (apply (bool_decide_unpack _); vm_compute; exact I).
  assert (coherent file_state 0) as Hcoh.
  { exists {| cf_data_blocks := ∅; cf_recycleBin := ∅;
              cf_file_path := None |}.
    split; [reflexivity|]. intros k l H. cbn in H.
    by rewrite lookup_empty in H. }
  assert (Forall (block_entry_ok file_state) sample_map) as Hok.
  { constructor; [|constructor].
    split; [by eexists|]. split; [reflexivity|].
    constructor; [|constructor; [|constructor]].
    + split; [by eexists|]. split; [by intros l [=]|constructor].
    + split; [by eexists|]. split; [by intros l [=]|].
      by repeat constructor. }
  destruct (import_reports_and_continues file_state 0 sample_map Ht Hcoh Hok)
    as (s' & Hrun & Ht' & Hreg & Hprint & Hleaves).
  destruct Hleaves as [_ Hleaves].
  { split.
    - apply (bool_decide_unpack _). vm_compute. exact I.
    - constructor; [|constructor].
      apply (bool_decide_unpack _). vm_compute. exact I. }
  { exists {| cf_data_blocks := ∅; cf_recycleBin := ∅;
              cf_file_path := None |}.
    split; [reflexivity|]. intros b _. apply lookup_empty. }
  exists s'. split; [exact Hrun|]. split; [exact Ht'|].
  split.
  { destruct (Hreg (VStr "DBLK") _ (list_elem_of_here _ _))
      as (bname & [= <-] & Hb). exact Hb. }
  split.
  { eapply (Hprint (VStr "DBLK") _ (VStr "broken") (VStr "oops"));
      [by left|by left|reflexivity]. }
  split.
  - refine (Hleaves "DBLK" _ "atom_site"
              [("id", VList [VInt 1; VInt 2; VInt 3]); ("label", VStr "C")]
              "id" (VList [VInt 1; VInt 2; VInt 3]) _ _ _ _).
    + by left.
    + right. by left.
    + apply (bool_decide_unpack _). vm_compute. exact I.
    + by left.
  - refine (Hleaves "DBLK" _ "atom_site"
              [("id", VList [VInt 1; VInt 2; VInt 3]); ("label", VStr "C")]
              "label" (VStr "C") _ _ _ _).
    + by left.
    + right. by left.
    + apply (bool_decide_unpack _). vm_compute. exact I.
    + right. by left.
Defined.

(** The claim C6 as written fails for a data block whose value is no
    mapping: the import raises [AttributeError] at
    [categories_items_and_values.items()], outside the [try]; nothing is
    printed, and the block that comes next in the mapping is not imported. *)
Lemma import_block_not_mapping_raises :
  ∃ s',
    CifFile.import_mmcif_data_map 0
      (VDict [(VStr "A", VStr "oops"); (VStr "B", VDict [])]) file_state
    = Raise AttributeError s'
    ∧ stdout s' = []
    ∧ CifFile.getDataBlockIds 0 s' = Return {["A"]} s'.
Proof.
  eexists. split; [vm_compute; reflexivity|]. split; [reflexivity|].
  vm_compute. reflexivity.
Qed.

(** The two values the import does not cope with inside a category, and
    why they are set aside above.  A category whose value is a Category
    object has an [items], the dictionary of its items, which is not
    callable: [items_and_values.items()] raises [TypeError], which the
    [except AttributeError] does not catch. *)
Lemma import_category_object_raises :
  ∃ s',
    CifFile.import_mmcif_data_map 0
      (VDict [(VStr "N", VDict [(VStr "d", VRef 2)])]) item_state
    = Raise TypeError s'
    ∧ stdout s' = [].
Proof. eexists. split; [vm_compute; reflexivity|reflexivity]. Qed.

(** An item key that is the class [str] has the method [isalnum] and no
    string to call it on: [item.isalnum()] in [setItem] raises
    [TypeError]. *)
Lemma import_key_str_class_raises :
  ∃ s',
    CifFile.import_mmcif_data_map 0
      (VDict [(VStr "N", VDict [(VStr "d", VDict [(VStrClass, VInt 1)])])])
      item_state
    = Raise TypeError s'
    ∧ stdout s' = [].
Proof. eexists. split; [vm_compute; reflexivity|reflexivity]. Qed.

(** * Further properties *)

(** ** The formatter: when it fails, and what a token tells *)

Lemma formatVal_token text :
  text ≠ EmptyString → _formatVal text = Ok (token_of text).
Proof.
  intros Hne. unfold _formatVal, token_of. rewrite wrap_quotes_cases.
  destruct (char_in nl_char text) eqn:Hnl;
    destruct (char_in squote_char text) eqn:Hs;
    destruct (char_in dquote_char text) eqn:Hd;
    try destruct (reserved_or_spaced text) eqn:Hr;
    cbn [orb andb];
    rewrite ?char_in_dquoted, ?char_in_squoted, ?Hnl, ?orb_true_r;
    cbn [Ascii.eqb nl_char dquote_char squote_char orb negb];
    rewrite ?first_is_quote_dquoted, ?first_is_quote_squoted,
      ?slice_dquoted, ?slice_squoted, ?Hs, ?Hd;
    cbn [andb orb];
    rewrite ?(first_is_quote_plain _ Hne Hs Hd); reflexivity.
Qed.

Lemma str_app_cons x (a b : string) :
  String x a +:+ b = String x (a +:+ b).
Proof. reflexivity. Qed.

Lemma str_app_assoc (a b c : string) : (a +:+ b) +:+ c = a +:+ (b +:+ c).
Proof.
  induction a as [|x a IH]; [reflexivity|].
  by rewrite !str_app_cons, IH.
Qed.

Lemma str_app_snoc (a : string) c (rest : string) :
  a +:+ String c rest = (a +:+ String c EmptyString) +:+ rest.
Proof. by rewrite str_app_assoc. Qed.

Lemma dquoted_inj a b : dquoted a = dquoted b → a = b.
Proof. intros H. by rewrite <- (slice_dquoted a), H, slice_dquoted. Qed.

Lemma squoted_inj a b : squoted a = squoted b → a = b.
Proof. intros H. by rewrite <- (slice_squoted a), H, slice_squoted. Qed.

Lemma block_inj a b : block a = block b → a = b.
Proof.
  unfold block, NL. intros H.
  change (String nl_char EmptyString +:+ ";" +:+ ?x)
    with (String nl_char (String ";" x)) in H.
  injection H as H.
  change (String nl_char EmptyString +:+ ";" +:+ String nl_char EmptyString)
    with (String nl_char (String ";" (String nl_char EmptyString))) in H.
  rewrite (str_app_snoc a), (str_app_snoc b) in H.
  rewrite (str_app_snoc (a +:+ _)), (str_app_snoc (b +:+ _)) in H.
  apply (f_equal drop_last) in H. rewrite !drop_last_snoc in H.
  apply (f_equal drop_last) in H. rewrite !drop_last_snoc in H.
  apply (f_equal drop_last) in H. by rewrite !drop_last_snoc in H.
Qed.

Lemma head_char_dquoted a : head_char (dquoted a) = Some dquote_char.
Proof. reflexivity. Qed.
Lemma head_char_squoted a : head_char (squoted a) = Some squote_char.
Proof. reflexivity. Qed.
Lemma head_char_block a : head_char (block a) = Some nl_char.
Proof. reflexivity. Qed.

Lemma char_in_block c a :
  char_in c (block a)
  = Ascii.eqb c nl_char || Ascii.eqb c ";" || char_in c a.
Proof.
  unfold block, NL. rewrite !char_in_app, !char_in_one.
  change (char_in c ";") with (if Ascii.eqb c ";" then true else false).
  destruct (Ascii.eqb c nl_char), (Ascii.eqb c ";"), (char_in c a);
    reflexivity.
Qed.

(** The four shapes of a token, with what each tells about the text. *)
Lemma token_shape text :
  (token_of text = text
   ∧ char_in squote_char text = false ∧ char_in dquote_char text = false
   ∧ char_in nl_char text = false ∧ char_in " "%char text = false
   ∧ startswith "_" text = false ∧ startswith "[" text = false)
  ∨ (token_of text = dquoted text
     ∧ char_in dquote_char text = false ∧ char_in nl_char text = false)
  ∨ (token_of text = squoted text
     ∧ char_in squote_char text = false ∧ char_in nl_char text = false)
  ∨ (token_of text = block text
     ∧ (char_in nl_char text = true
        ∨ (char_in squote_char text = true
           ∧ char_in dquote_char text = true))).
Proof.
  unfold token_of.
  destruct (char_in nl_char text) eqn:Hnl;
    [repeat right; split; [done|by left]|].
  rewrite (reserved_or_spaced_no_nl _ Hnl).
  destruct (char_in squote_char text) eqn:Hs,
    (char_in dquote_char text) eqn:Hd; cbn [orb andb].
  - repeat right. split; [done|by right].
  - right. by left.
  - right. right. by left.
  - destruct (startswith "_" text) eqn:H1; cbn [orb]; [right; by left|].
    destruct (startswith "[" text) eqn:H2; cbn [orb]; [right; by left|].
    destruct (char_in " "%char text) eqn:H3; [right; by left|].
    by left.
Qed.

(** X1: [_formatVal] raises on the empty text and on no other: the empty
    text makes [val[0]] raise [IndexError], every other text gives a
    token. *)
Theorem formatVal_fails_iff_empty (text : string) :
  (∃ e, _formatVal text = Err e) ↔ text = EmptyString.
Proof.
  split.
  - intros [e He]. destruct (decide (text = EmptyString)) as [|Hne]; [done|].
    by rewrite (formatVal_token _ Hne) in He.
  - intros ->. by exists IndexError.
Qed.

(** X2: the token of a text that is not empty has one of four shapes, and a
    quote never occurs inside the quotes that delimit it: the text itself,
    and then the text holds no quote, no space, no line break and does not
    start with an underscore or an opening bracket; the text between double
    quotes, and then it holds no double quote and no line break; the text
    between single quotes, and then it holds no single quote and no line
    break; or the semicolon block, and then the text holds a line break, or
    both a single and a double quote.  Nothing is said of what a block
    holds: the block of a text with a line break followed by a semicolon
    holds its own closing delimiter ([formatVal_block_holds_delimiter]
    below). *)
Theorem formatVal_shape (text : string) :
  text ≠ EmptyString →
  ∃ tok,
    _formatVal text = Ok tok
    ∧ ((tok = text
        ∧ char_in squote_char text = false ∧ char_in dquote_char text = false
        ∧ char_in nl_char text = false ∧ char_in " "%char text = false
        ∧ startswith "_" text = false ∧ startswith "[" text = false)
       ∨ (tok = dquoted text
          ∧ char_in dquote_char text = false ∧ char_in nl_char text = false)
       ∨ (tok = squoted text
          ∧ char_in squote_char text = false ∧ char_in nl_char text = false)
       ∨ (tok = block text
          ∧ (char_in nl_char text = true
             ∨ (char_in squote_char text = true
                ∧ char_in dquote_char text = true)))).
Proof.
  intros Hne. exists (token_of text). split; [by apply formatVal_token|].
  apply token_shape.
Qed.

Lemma formatVal_shape_witness :
  ∃ tok,
    _formatVal "_atom_site.id" = Ok tok
    ∧ ((tok = "_atom_site.id"
        ∧ char_in squote_char "_atom_site.id" = false
        ∧ char_in dquote_char "_atom_site.id" = false
        ∧ char_in nl_char "_atom_site.id" = false
        ∧ char_in " "%char "_atom_site.id" = false
        ∧ startswith "_" "_atom_site.id" = false
        ∧ startswith "[" "_atom_site.id" = false)
       ∨ (tok = dquoted "_atom_site.id"
          ∧ char_in dquote_char "_atom_site.id" = false
          ∧ char_in nl_char "_atom_site.id" = false)
       ∨ (tok = squoted "_atom_site.id"
          ∧ char_in squote_char "_atom_site.id" = false
          ∧ char_in nl_char "_atom_site.id" = false)
       ∨ (tok = block "_atom_site.id"
          ∧ (char_in nl_char "_atom_site.id" = true
             ∨ (char_in squote_char "_atom_site.id" = true
                ∧ char_in dquote_char "_atom_site.id" = true)))).
Proof. apply (formatVal_shape "_atom_site.id"). discriminate. Defined.

(** A block can hold its own closing delimiter: the text [a], line break,
    [;b] is written between the block delimiters as it is. *)
Lemma formatVal_block_holds_delimiter :
  _formatVal ("a" +:+ NL +:+ ";b") = Ok (block ("a" +:+ NL +:+ ";b"))
  ∧ block ("a" +:+ NL +:+ ";b")
    = NL +:+ ";a" +:+ NL +:+ ";b" +:+ NL +:+ ";" +:+ NL.
Proof. split; reflexivity. Qed.

(** X3: two texts with one token are one text: [_formatVal] never maps two
    values to the same token. *)
Theorem formatVal_injective (a b tok : string) :
  _formatVal a = Ok tok → _formatVal b = Ok tok → a = b.
Proof.
  intros Ha Hb.
  assert (a ≠ EmptyString) as Hane by (by intros ->).
  assert (b ≠ EmptyString) as Hbne by (by intros ->).
  rewrite (formatVal_token _ Hane) in Ha.
  rewrite (formatVal_token _ Hbne) in Hb.
  assert (token_of a = token_of b) as Heq by congruence. clear Ha Hb tok.
  destruct (token_shape a)
    as [(Ta & As & Ad & An & _)|[(Ta & Ad & An)|[(Ta & As & An)|(Ta & _)]]];
    destruct (token_shape b)
      as [(Tb & Bs & Bd & Bn & _)|[(Tb & Bd & Bn)|[(Tb & Bs & Bn)|(Tb & _)]]];
    rewrite Ta, Tb in Heq.
  - done.
  - rewrite Heq, char_in_dquoted in Ad. done.
  - rewrite Heq, char_in_squoted in As. done.
  - rewrite Heq, char_in_block in An. done.
  - rewrite <- Heq, char_in_dquoted in Bd. done.
  - by apply dquoted_inj.
  - apply (f_equal head_char) in Heq. discriminate Heq.
  - apply (f_equal head_char) in Heq. discriminate Heq.
  - rewrite <- Heq, char_in_squoted in Bs. done.
  - apply (f_equal head_char) in Heq. discriminate Heq.
  - by apply squoted_inj.
  - apply (f_equal head_char) in Heq. discriminate Heq.
  - rewrite <- Heq, char_in_block in Bn. done.
  - apply (f_equal head_char) in Heq. discriminate Heq.
  - apply (f_equal head_char) in Heq. discriminate Heq.
  - by apply block_inj.
Qed.

Lemma formatVal_injective_witness :
  _formatVal ("it" +:+ "'s") = Ok (dquoted "it's")
  ∧ _formatVal "it's" = Ok (dquoted "it's")
  ∧ "it" +:+ "'s" = "it's".
Proof.
  split; [reflexivity|]. split; [reflexivity|].
  exact (formatVal_injective ("it" +:+ "'s") "it's" (dquoted "it's")
           eq_refl eq_refl).
Defined.

(** ** Item: [reset] and [getFormattedValue] *)

Lemma reset_run s self i :
  heap s !! self = Some (OItem i) →
  Item.reset self s =
    Return tt
      (upd s self
         (OItem (Item.with_type
                   (match it_value i with
                    | VNone => i
                    | VList l => Item.with_value i (VList (map (λ _, VNone) l))
                    | _ => Item.with_value i VNone
                    end) VNone))).
Proof. intros H. unfold Item.reset. mrun. reflexivity. Qed.

Lemma map_each_dots py_str (l : list pyval) s :
  map_each (format_entry py_str) (map (λ _, VNone) l) s
  = Return (replicate (length l) (VStr ".")) s.
Proof.
  induction l as [|x l IH]; [reflexivity|].
  cbn [map map_each length replicate]. rewrite bind_unfold.
  cbn [format_entry is_None mret M_ret]. rewrite bind_unfold, IH.
  reflexivity.
Qed.

(** X4: after [reset()] the formatted value is a dot for a scalar item and
    one dot per row for a column, whatever the values were; [reset] keeps
    the number of rows and leaves [isColumn], the id and the parent as they
    were. *)
Theorem reset_then_formatted
    (py_str : pyval → string) (s : state) (self : loc) (i : Item_) :
  heap s !! self = Some (OItem i) →
  ∃ s' i',
    Item.reset self s = Return tt s'
    ∧ heap s' !! self = Some (OItem i')
    ∧ it_isColumn i' = it_isColumn i
    ∧ it_id i' = it_id i ∧ it_parent i' = it_parent i
    ∧ Item_getFormattedValue py_str self s'
      = Return (match it_value i with
                | VList l => VList (replicate (length l) (VStr "."))
                | _ => VStr "."
                end) s'.
Proof.
  intros Hi. rewrite (reset_run _ _ _ Hi).
  eexists _, _. split; [reflexivity|]. split; [by eapply lookup_upd_eq|].
  unfold Item_getFormattedValue. mrun.
  destruct (it_value i) eqn:Ev;
    cbn [Item.with_type Item.with_value it_value it_isColumn it_id
         it_parent];
    rewrite ?Ev; do 3 (split; [reflexivity|]); try reflexivity.
  rewrite bind_unfold, map_each_dots. reflexivity.
Qed.

Lemma reset_then_formatted_witness :
  ∃ s' i',
    Item.reset 3
      (state_of (setValues 3 [plain_call (VStr "a"); plain_call (VStr EmptyString)]
                   item_state))
    = Return tt s'
    ∧ heap s' !! 3 = Some (OItem i')
    ∧ it_isColumn i' = true
    ∧ it_id i' = "x" ∧ it_parent i' = 2
    ∧ Item_getFormattedValue str_of_text 3 s'
      = Return (VList [VStr "."; VStr "."]) s'.
Proof.
  apply (reset_then_formatted str_of_text
           (state_of (setValues 3 [plain_call (VStr "a"); plain_call (VStr EmptyString)]
                        item_state))
           3
           {| it_value := VList [VStr "a"; VStr EmptyString];
              it_type := VList [Item.default_type; Item.default_type];
              it_mandatory := false; it_isColumn := true;
              it_id := "x"; it_name := "x";
              it_lineno := VList [Item.default_lineno; Item.default_lineno];
              it_parent := 2 |}).
  vm_compute. reflexivity.
Defined.

Section FormattedColumn.

Variable py_str : pyval → string.
Hypothesis py_str_text : ∀ t, py_str (VStr t) = t.

Lemma format_entry_text s t :
  format_entry py_str (VStr t) s =
    match _formatVal t with
    | Ok out => Return (VStr out) s
    | Err e => Raise e s
    end.
Proof using py_str_text.
  unfold format_entry. cbn [is_None]. rewrite py_str_text.
  by destruct (_formatVal t).
Qed.

Lemma map_each_formatted (l : list pyval) s :
  Forall none_or_text l →
  (VStr EmptyString ∉ l →
   ∃ toks, map_each (format_entry py_str) l s = Return toks s
           ∧ Forall2 formatted_as l toks)
  ∧ (VStr EmptyString ∈ l →
     map_each (format_entry py_str) l s = Raise IndexError s).
Proof using py_str_text.
  induction l as [|v l IH]; intros Hok.
  - split; [|by intros ?%elem_of_nil]. intros _. exists []. by split.
  - apply Forall_cons in Hok as [Hv Hok]. destruct (IH Hok) as [IH1 IH2].
    cbn [map_each]. rewrite bind_unfold.
    destruct Hv as [->|[t ->]].
    + cbn [format_entry is_None mret M_ret]. rewrite bind_unfold. split.
      * intros Hnot. destruct IH1 as (toks & -> & Hall).
        { intros ?. apply Hnot. by right. }
        eexists. split; [reflexivity|]. constructor; [by left|done].
      * intros [?|Hin]%elem_of_cons; [done|]. by rewrite (IH2 Hin).
    + rewrite format_entry_text.
      destruct (decide (t = EmptyString)) as [->|Hne].
      * split; [intros Hnot; exfalso; apply Hnot; by left|done].
      * rewrite (formatVal_token _ Hne), bind_unfold. split.
        -- intros Hnot. destruct IH1 as (toks & -> & Hall).
           { intros ?. apply Hnot. by right. }
           eexists. split; [reflexivity|].
           constructor; [|done]. right. exists t, (token_of t).
           split; [done|]. split; [by apply formatVal_token|done].
        -- intros [[=]|Hin]%elem_of_cons; [done|]. by rewrite (IH2 Hin).
Qed.

(** X5: for a column whose entries are [None] or strings,
    [getFormattedValue] returns one entry per row, a dot for [None] and the
    token of the string otherwise, when no entry is the empty string; when
    some entry is the empty string it raises [IndexError].  The store is
    not changed either way. *)
Theorem formatted_column (s : state) (self : loc) (i : Item_)
    (l : list pyval) :
  heap s !! self = Some (OItem i) →
  it_value i = VList l →
  Forall none_or_text l →
  (VStr EmptyString ∉ l →
   ∃ toks, Item_getFormattedValue py_str self s = Return (VList toks) s
           ∧ Forall2 formatted_as l toks)
  ∧ (VStr EmptyString ∈ l →
     Item_getFormattedValue py_str self s = Raise IndexError s).
Proof using py_str_text.
  intros Hi Hv Hok. unfold Item_getFormattedValue. mrun. rewrite Hv.
  destruct (map_each_formatted l s Hok) as [H1 H2]. split.
  - intros Hnot. destruct (H1 Hnot) as (toks & Hrun & Hall).
    exists toks. by rewrite bind_unfold, Hrun.
  - intros Hin. by rewrite bind_unfold, (H2 Hin).
Qed.

End FormattedColumn.

Lemma formatted_column_witness :
  (VStr EmptyString ∉ [VStr "a b"; VNone] →
   ∃ toks,
     Item_getFormattedValue str_of_text 3
       (state_of (setValues 3 [plain_call (VStr "a b"); plain_call VNone]
                    item_state))
     = Return (VList toks)
         (state_of (setValues 3 [plain_call (VStr "a b"); plain_call VNone]
                      item_state))
     ∧ Forall2 formatted_as [VStr "a b"; VNone] toks)
  ∧ (VStr EmptyString ∈ [VStr "a b"; VNone] →
     Item_getFormattedValue str_of_text 3
       (state_of (setValues 3 [plain_call (VStr "a b"); plain_call VNone]
                    item_state))
     = Raise IndexError
         (state_of (setValues 3 [plain_call (VStr "a b"); plain_call VNone]
                      item_state))).
Proof.
  apply (formatted_column str_of_text (λ t, eq_refl)
           (state_of (setValues 3 [plain_call (VStr "a b"); plain_call VNone]
                        item_state))
           3
           {| it_value := VList [VStr "a b"; VNone];
              it_type := VList [Item.default_type; Item.default_type];
              it_mandatory := false; it_isColumn := true;
              it_id := "x"; it_name := "x";
              it_lineno := VList [Item.default_lineno; Item.default_lineno];
              it_parent := 2 |}).
  - vm_compute. reflexivity.
  - reflexivity.
  - constructor; [right; by eexists|]. constructor; [by left|]. constructor.
Defined.

(** ** Item: [reset] followed by [setValue] *)

(** X6: [reset] brings a scalar item back to the empty state: the next
    [setValue] with a value that is no list stores the value, the type and
    the line number passed, and the item stays a scalar. *)
Theorem reset_scalar_then_setValue
    (s : state) (self : loc) (i : Item_) (v t n : pyval) :
  heap s !! self = Some (OItem i) →
  it_isColumn i = false →
  is_list (it_value i) = false →
  is_list v = false →
  ∃ s1 s2 i2,
    Item.reset self s = Return tt s1
    ∧ Item.setValue self v t n s1 = Return tt s2
    ∧ heap s2 !! self = Some (OItem i2)
    ∧ it_value i2 = v ∧ it_type i2 = t ∧ it_lineno i2 = n
    ∧ it_isColumn i2 = false.
Proof.
  intros Hi Hc Hl Hv. pose proof (reset_run _ _ _ Hi) as Hreset.
  set (i1 := Item.with_type _ VNone) in Hreset.
  assert (it_value i1 = VNone ∧ it_isColumn i1 = false) as [Hv1 Hc1].
  { unfold i1. by destruct (it_value i) eqn:E. }
  assert (heap (upd s self (OItem i1)) !! self = Some (OItem i1)) as Hi1
    by (by eapply lookup_upd_eq).
  eexists _, _, _. split; [exact Hreset|].
  split; [exact (setValue_first_scalar _ _ _ Hi1 v t n Hv1 Hc1 Hv)|].
  split; [by eapply lookup_upd_eq|]. by repeat split.
Qed.

Lemma reset_scalar_then_setValue_witness :
  ∃ s1 s2 i2,
    Item.reset 3 item_state = Return tt s1
    ∧ Item.setValue 3 (VStr "v") (VStr "t") (VInt 7) s1 = Return tt s2
    ∧ heap s2 !! 3 = Some (OItem i2)
    ∧ it_value i2 = VStr "v" ∧ it_type i2 = VStr "t"
    ∧ it_lineno i2 = VInt 7
    ∧ it_isColumn i2 = false.
Proof.
  apply (reset_scalar_then_setValue item_state 3
           {| it_value := VNone; it_type := VStrClass; it_mandatory := false;
              it_isColumn := false; it_id := "x"; it_name := "x";
              it_lineno := VInt (-1); it_parent := 2 |}).
  - vm_compute. reflexivity.
  - reflexivity.
  - reflexivity.
  - reflexivity.
Defined.

(** X7: a column cannot be filled again after [reset]: [reset] sets the
    type to [None], so the next [setValue] appends its value to the column of
    [None]s and then raises [AttributeError] at [self.type.append]; the
    column is left one row longer than its type and line numbers. *)
Theorem reset_column_then_setValue_raises
    (s : state) (self : loc) (i : Item_) (l : list pyval) (v t n : pyval) :
  heap s !! self = Some (OItem i) →
  it_isColumn i = true →
  it_value i = VList l →
  ∃ s1 s2 i2,
    Item.reset self s = Return tt s1
    ∧ Item.setValue self v t n s1 = Raise AttributeError s2
    ∧ heap s2 !! self = Some (OItem i2)
    ∧ it_value i2 = VList (replicate (length l) VNone ++ [v])
    ∧ it_type i2 = VNone
    ∧ it_lineno i2 = it_lineno i.
Proof.
  intros Hi Hc Hv. pose proof (reset_run _ _ _ Hi) as Hreset.
  rewrite Hv in Hreset. set (i1 := Item.with_type _ VNone) in Hreset.
  assert (heap (upd s self (OItem i1)) !! self = Some (OItem i1)) as Hi1
    by (by eapply lookup_upd_eq).
  eexists _, _, _. split; [exact Hreset|].
  split; [exact (setValue_append_raises _ _ _ Hi1 (map (λ _, VNone) l)
                   v t n Hc eq_refl eq_refl)|].
  split; [by eapply lookup_upd_eq|].
  split; [|by split]. cbn. f_equal. f_equal.
  clear. induction l as [|x l IH]; [done|]. cbn. by rewrite IH.
Qed.

Lemma reset_column_then_setValue_raises_witness :
  ∃ s1 s2 i2,
    Item.reset 3
      (state_of (setValues 3 [plain_call (VInt 1); plain_call (VInt 2)]
                   item_state))
    = Return tt s1
    ∧ Item.setValue 3 (VInt 3) Item.default_type Item.default_lineno s1
      = Raise AttributeError s2
    ∧ heap s2 !! 3 = Some (OItem i2)
    ∧ it_value i2 = VList [VNone; VNone; VInt 3]
    ∧ it_type i2 = VNone
    ∧ it_lineno i2 = VList [Item.default_lineno; Item.default_lineno].
Proof.
  apply (reset_column_then_setValue_raises
           (state_of (setValues 3 [plain_call (VInt 1); plain_call (VInt 2)]
                        item_state))
           3
           {| it_value := VList [VInt 1; VInt 2];
              it_type := VList [Item.default_type; Item.default_type];
              it_mandatory := false; it_isColumn := true;
              it_id := "x"; it_name := "x";
              it_lineno := VList [Item.default_lineno; Item.default_lineno];
              it_parent := 2 |}
           [VInt 1; VInt 2]).
  - vm_compute. reflexivity.
  - reflexivity.
  - reflexivity.
Defined.

(** ** Item: every column has a table above it *)

(** Overwriting an item by one with the same parent that is a column only
    if the old one was. *)
Lemma table_inv_upd_item s li i i' :
  table_inv s → heap s !! li = Some (OItem i) →
  it_parent i' = it_parent i →
  (it_isColumn i' = true → it_isColumn i = true) →
  table_inv (upd s li (OItem i')).
Proof.
  intros Hinv Hi Hp Hcol l0 i0 Hl0 Hc0.
  destruct (decide (li = l0)) as [<-|Hdiff].
  - rewrite (lookup_upd_eq _ _ _ _ Hi) in Hl0. simplify_eq.
    destruct (Hinv _ _ Hi (Hcol Hc0)) as (c & Hc & Htab).
    exists c. rewrite Hp. split; [|done].
    rewrite lookup_upd_ne; [done|]. intros E. rewrite E in Hi. congruence.
  - rewrite lookup_upd_ne in Hl0 by done.
    destruct (Hinv _ _ Hl0 Hc0) as (c & Hc & Htab).
    exists c. split; [|done]. rewrite lookup_upd_ne; [done|].
    intros E. rewrite E in Hi. congruence.
Qed.

(** Marking a category as a table. *)
Lemma table_inv_upd_table s p c :
  table_inv s → heap s !! p = Some (OCategory c) →
  table_inv (upd s p (OCategory (Category.with_isTable c true))).
Proof.
  intros Hinv Hp l0 i0 Hl0 Hc0.
  assert (p ≠ l0) as Hne.
  { intros <-. rewrite (lookup_upd_eq _ _ _ _ Hp) in Hl0. congruence. }
  rewrite lookup_upd_ne in Hl0 by done.
  destruct (Hinv _ _ Hl0 Hc0) as (c0 & Hc0' & Htab).
  destruct (decide (p = it_parent i0)) as [E|Hdiff].
  - exists (Category.with_isTable c true).
    split; [rewrite <- E; by eapply lookup_upd_eq|done].
  - exists c0. by rewrite lookup_upd_ne.
Qed.

(** Making an item a column and marking its category. *)
Lemma table_inv_upd_column s li i i' c :
  table_inv s → heap s !! li = Some (OItem i) →
  heap s !! it_parent i = Some (OCategory c) →
  it_parent i' = it_parent i →
  table_inv (upd (upd s li (OItem i')) (it_parent i)
               (OCategory (Category.with_isTable c true))).
Proof.
  intros Hinv Hi Hp Hpar l0 i0 Hl0 Hc0.
  assert (li ≠ it_parent i) as Hne by (intros E; rewrite E in Hi; congruence).
  assert (it_parent i ≠ l0) as Hne0.
  { intros <-. erewrite lookup_upd_eq in Hl0; [congruence|].
    by rewrite lookup_upd_ne. }
  rewrite lookup_upd_ne in Hl0 by done.
  assert (∃ c0, heap s !! it_parent i0 = Some (OCategory c0)
                ∧ (it_parent i0 = it_parent i ∨ cat_isTable c0 = true))
    as (c0 & Hc0' & Hor).
  { destruct (decide (li = l0)) as [<-|Hdiff].
    - rewrite (lookup_upd_eq _ _ _ _ Hi) in Hl0. simplify_eq.
      exists c. rewrite Hpar. split; [done|by left].
    - rewrite lookup_upd_ne in Hl0 by done.
      destruct (Hinv _ _ Hl0 Hc0) as (c0 & ? & ?). exists c0. by split; [|right]. }
  destruct (decide (it_parent i0 = it_parent i)) as [E|Hdiff].
  - exists (Category.with_isTable c true). split; [|reflexivity].
    rewrite E. eapply lookup_upd_eq. by rewrite lookup_upd_ne.
  - destruct Hor as [?|Htab]; [done|]. exists c0. split; [|done].
    rewrite lookup_upd_ne by done. rewrite lookup_upd_ne; [done|].
    intros E. rewrite E in Hi. congruence.
Qed.

(** X8: [setValue] and [reset] keep the invariant that every column has a
    table above it: if in the store every item that is a column has a
    category for parent that is a table, then so it is after [setValue],
    whether it returns or raises [AttributeError] half-way, and after
    [reset]. *)
Theorem setValue_reset_keep_table_inv
    (s : state) (li : loc) (i : Item_) (c : Category_) (v t n : pyval) :
  table_inv s →
  heap s !! li = Some (OItem i) →
  heap s !! it_parent i = Some (OCategory c) →
  ends (Item.setValue li v t n s)
    (λ _ s', table_inv s') (λ s', table_inv s')
  ∧ ends (Item.reset li s) (λ _ s', table_inv s') (λ _, False).
Proof.
  intros Hinv Hi Hp. split.
  - assert (∀ i', it_parent i' = it_parent i →
              ends (Item.mark_parent_table li (upd s li (OItem i')))
                (λ _ s', table_inv s') (λ s', table_inv s')) as Hmark.
    { intros i' Hpar.
      rewrite (mark_parent_table_after_put s li i c Hi Hp i' Hpar). cbn.
      by apply table_inv_upd_column. }
    assert (∀ i', it_parent i' = it_parent i →
              it_isColumn i' = it_isColumn i →
              table_inv (upd s li (OItem i'))) as Hitem.
    { intros i' Hpar Hcol. eapply table_inv_upd_item; try done. congruence. }
    unfold Item.setValue. mrun.
    destruct (is_None (it_value i) && negb (it_isColumn i)) eqn:E1;
      [|destruct (negb (is_None (it_value i)) && negb (it_isColumn i)) eqn:E2].
    + destruct v as [| | | |[|x [|y rest]]| | |]; mrun; cbn [ends];
        try (by apply Hitem).
      by apply Hmark.
    + mrun. by apply Hmark.
    + destruct (it_value i) eqn:Ev; cbn [Item.py_append]; mrun; cbn [ends];
        try exact Hinv.
      assert (table_inv
                (upd s li (OItem (Item.with_value i (VList (l ++ [v]))))))
        as S1 by (by apply Hitem).
      cbn [Item.with_value it_type].
      destruct (it_type i) eqn:Et; cbn [Item.py_append]; mrun; cbn [ends];
        try exact S1.
      rewrite upd_upd.
      cbn [Item.with_value Item.with_type it_lineno].
      assert (∀ x, table_inv
                     (upd s li (OItem (Item.with_type
                        (Item.with_value i (VList (l ++ [v]))) x)))) as S2
        by (intros; by apply Hitem).
      destruct (it_lineno i) eqn:En; cbn [Item.py_append]; mrun; cbn [ends];
        try apply S2.
      unfold put_obj. cbn [ends]. rewrite upd_upd. by apply Hitem.
  - rewrite (reset_run _ _ _ Hi). cbn [ends].
    eapply table_inv_upd_item; try done; by destruct (it_value i).
Qed.

Lemma table_inv_item_state : table_inv item_state.
Proof.
  rewrite item_state_eq. intros l i Hl Hc.
  destruct l as [|[|[|[|l]]]]; cbn in Hl; simplify_eq.
  unfold new_item in Hl. simplify_eq.
Qed.

Lemma setValue_reset_keep_table_inv_witness :
  ends (Item.setValue 3 (VList [VInt 1; VInt 2]) Item.default_type
          Item.default_lineno item_state)
    (λ _ s', table_inv s') (λ s', table_inv s')
  ∧ ends (Item.reset 3 item_state) (λ _ s', table_inv s') (λ _, False).
Proof.
  apply (setValue_reset_keep_table_inv item_state 3
           {| it_value := VNone; it_type := VStrClass; it_mandatory := false;
              it_isColumn := false; it_id := "x"; it_name := "x";
              it_lineno := VInt (-1); it_parent := 2 |}
           {| cat_items := {["x" := 3]}; cat_recycleBin := ∅;
              cat_isTable := false; cat_id := "c"; cat_maxTagLength := 3;
              cat_parent := 1 |}).
  - exact table_inv_item_state.
  - vm_compute. reflexivity.
  - vm_compute. reflexivity.
Defined.

(** ** Getters, [removeChild] and [remove] *)

Lemma fetch_run k s self m name :
  live k s self = Some m →
  fetch k self name s
  = Return (from_option VRef VNone (m !! key_of k name)) s.
Proof.
  intros (oc & Hs & Hm & _)%live_inv.
  destruct k, oc; try discriminate Hm; cbn in Hm; simplify_eq;
    cbn [fetch key_of];
    unfold CifFile.getDataBlock, DataBlock.getSaveFrame,
      DataBlock.getCategory, SaveFrame.getCategory, Category.getItem;
    mrun; reflexivity.
Qed.

Lemma live_map_moved k oc m key l :
  live_map k oc = Some m → live_map k (moved k oc key l) = Some (delete key m).
Proof.
  intros Hm. unfold moved. rewrite Hm.
  by destruct k, oc; try discriminate Hm.
Qed.

Lemma bin_of_moved k oc m key l :
  live_map k oc = Some m →
  ∃ b, bin_of oc = Some b ∧ bin_of (moved k oc key l) = Some (<[key := l]> b).
Proof.
  intros Hm. unfold moved. rewrite Hm.
  destruct k, oc; try discriminate Hm; by eexists.
Qed.

(** [removeChild] on a child object: what the live map holds under the id
    of the object decides, and is what moves. *)
Lemma discard_ref k s self oc m l o key :
  heap s !! self = Some oc → live_map k oc = Some m →
  heap s !! l = Some o → kind_of o = child_kind k → id_of o = Some key →
  discard k self (VRef l) s =
    match m !! key with
    | Some l0 => Return (VBool true) (upd s self (moved k oc key l0))
    | None => Return (VBool false) s
    end.
Proof.
  intros Hs Hm Hl Hk Hid.
  assert (child_key s (VRef l) = Some key) as Hkey.
  { cbn. by rewrite Hl. }
  destruct k, oc; try discriminate Hm; cbn in Hm; simplify_eq;
    cbn [discard].
  - rewrite (CifFile_removeChild_key _ _ _ _ Hkey).
    unfold CifFile.pop_to_bin. mrun.
    destruct (cf_data_blocks f !! key); mrun; reflexivity.
  - destruct o; try discriminate Hk. cbn in Hid. simplify_eq.
    unfold DataBlock.removeChild, DataBlock.live_category,
      DataBlock.live_saveFrame, DataBlock.isinstance_Category,
      DataBlock.isinstance_SaveFrame, DataBlock.pop_saveFrame.
    mrun. destruct (db_saveFrames b !! sf_id f); mrun; reflexivity.
  - destruct o; try discriminate Hk. cbn in Hid. simplify_eq.
    unfold DataBlock.removeChild, DataBlock.live_category,
      DataBlock.live_saveFrame, DataBlock.isinstance_Category,
      DataBlock.isinstance_SaveFrame, DataBlock.pop_category.
    mrun. destruct (db_categories b !! cat_id c); mrun; reflexivity.
  - rewrite (SaveFrame_removeChild_key _ _ _ _ Hkey).
    unfold SaveFrame.pop_to_bin. mrun.
    destruct (sf_categories f !! key); mrun; reflexivity.
  - rewrite (Category_removeChild_key _ _ _ _ Hkey).
    unfold Category.pop_to_bin. mrun.
    destruct (cat_items c !! key); mrun; reflexivity.
Qed.

(** [remove] is [removeChild] of the parent on the object itself. *)
Lemma remove_of_discard k s l o p oc m :
  heap s !! l = Some o → kind_of o = child_kind k → parent_of o = Some p →
  heap s !! p = Some oc → live_map k oc = Some m →
  remove_of k l s = (_ ← discard k p (VRef l); mret tt) s.
Proof.
  intros Hl Hk Hp Hs Hm.
  destruct k, oc; try discriminate Hm; destruct o; try discriminate Hk;
    cbn in Hp; simplify_eq; cbn [remove_of discard];
    unfold DataBlock_remove, SaveFrame_remove, Category_remove, Item_remove,
      call_removeChild;
    mrun; reflexivity.
Qed.

Lemma remove_of_run k s l o p oc m key :
  heap s !! l = Some o → kind_of o = child_kind k → parent_of o = Some p →
  id_of o = Some key →
  heap s !! p = Some oc → live_map k oc = Some m →
  remove_of k l s =
    match m !! key with
    | Some l0 => Return tt (upd s p (moved k oc key l0))
    | None => Return tt s
    end.
Proof.
  intros Hl Hk Hp Hid Hs Hm.
  rewrite (remove_of_discard k s l o p oc m) by done.
  rewrite bind_unfold, (discard_ref k s p oc m l o key) by done.
  by destruct (m !! key).
Qed.

Lemma kind_child_ne_container k s l o p oc m :
  heap s !! l = Some o → kind_of o = child_kind k →
  heap s !! p = Some oc → live_map k oc = Some m → l ≠ p.
Proof.
  intros Hl Hk Hs Hm ->. rewrite Hl in Hs. injection Hs as <-.
  by destruct k, o.
Qed.

(** X9: [remove()] of an Item, a Category, a SaveFrame or a DataBlock takes
    out of the live map of the parent whatever object is registered there
    under the id of the caller, which need not be the caller: that object
    goes to the recycle bin under the id, nothing but the parent is
    written, and a second [remove()] changes nothing.  When nothing is
    registered under the id, [remove()] returns with the store as it
    was. *)
Theorem remove_moves_registered
    (k : factory) (s : state) (l p : loc) (o : obj) (m : gmap string loc)
    (key : string) :
  heap s !! l = Some o → kind_of o = child_kind k →
  parent_of o = Some p → id_of o = Some key →
  live k s p = Some m →
  (∀ l0, m !! key = Some l0 →
     ∃ s' b,
       remove_of k l s = Return tt s'
       ∧ live k s' p = Some (delete key m)
       ∧ bin s' p = Some b ∧ b !! key = Some l0
       ∧ (∀ l', l' ≠ p → heap s' !! l' = heap s !! l')
       ∧ stdout s' = stdout s
       ∧ remove_of k l s' = Return tt s')
  ∧ (m !! key = None → remove_of k l s = Return tt s).
Proof.
  intros Hl Hk Hp Hid (oc & Hs & Hm & _)%live_inv.
  pose proof (kind_child_ne_container _ _ _ _ _ _ _ Hl Hk Hs Hm) as Hne.
  split.
  - intros l0 Hl0.
    destruct (bin_of_moved k oc m key l0 Hm) as (b & Hb & Hb').
    exists (upd s p (moved k oc key l0)), (<[key := l0]> b).
    split; [by rewrite (remove_of_run k s l o p oc m key), Hl0|].
    split.
    { apply live_upd; [by eexists|]. by apply live_map_moved. }
    split.
    { unfold bin. by rewrite (lookup_upd_eq _ _ _ _ Hs). }
    split; [apply lookup_insert_eq|].
    split; [intros; by apply lookup_upd_ne|].
    split; [reflexivity|].
    rewrite (remove_of_run k _ l o p (moved k oc key l0) (delete key m) key);
      [by rewrite lookup_delete_eq|by rewrite lookup_upd_ne|done|done|done
      |by eapply lookup_upd_eq|by apply live_map_moved].
  - intros Hnone. by rewrite (remove_of_run k s l o p oc m key), Hnone.
Qed.

Lemma remove_moves_registered_witness :
  ∃ s' b,
    remove_of SetItem 3 item_state = Return tt s'
    ∧ live SetItem s' 2 = Some (delete "x" {["x" := 3]})
    ∧ bin s' 2 = Some b ∧ b !! "x" = Some 3
    ∧ (∀ l', l' ≠ 2 → heap s' !! l' = heap item_state !! l')
    ∧ stdout s' = stdout item_state
    ∧ remove_of SetItem 3 s' = Return tt s'.
Proof.
  assert (heap item_state !! 3 = Some (new_item "x" 2)) as H1
    by (vm_compute; reflexivity).
  assert (live SetItem item_state 2 = Some {["x" := 3]}) as H2
    by (vm_compute; reflexivity).
  exact (proj1 (remove_moves_registered SetItem item_state 3 2
                  (new_item "x" 2) {["x" := 3]} "x"
                  H1 eq_refl eq_refl eq_refl H2) 3 eq_refl).
Defined.

(** A constructor adds the new object at the end of the store and registers
    it with its parent under its key, over whatever was there. *)
Lemma construct_run k s p oc m name :
  heap s !! p = Some oc → live_map k oc = Some m →
  construct k name p s =
    Return (length (heap s))
      (upd (push s (new_child k name p)) p
         (with_live k oc (<[key_of k name := length (heap s)]> m))).
Proof.
  intros Hs Hm.
  destruct k, oc; try discriminate Hm; cbn in Hm; simplify_eq;
    cbn [construct new_child key_of with_live].
  - by apply DataBlock_init.
  - by apply SaveFrame_init.
  - by apply Category_init_block.
  - by apply Category_init_frame.
  - by apply Item_init.
Qed.

Lemma live_map_with_live k oc m m' :
  live_map k oc = Some m → live_map k (with_live k oc m') = Some m'.
Proof. intros Hm. by destruct k, oc; try discriminate Hm. Qed.

Lemma bin_of_with_live k oc m' : bin_of (with_live k oc m') = bin_of oc.
Proof. by destruct k, oc. Qed.

Lemma new_child_facts k name p :
  kind_of (new_child k name p) = child_kind k
  ∧ id_of (new_child k name p) = Some (key_of k name)
  ∧ parent_of (new_child k name p) = Some p.
Proof. by destruct k. Qed.

(** X10: removal goes by the id, not by the object.  When two children of
    one name are constructed with the same parent, the second takes the
    place of the first in the live map of the parent; [remove()] of the
    first then moves the second to the recycle bin, and the name is no
    longer registered. *)
Theorem remove_takes_the_namesake
    (k : factory) (s : state) (p : loc) (m : gmap string loc)
    (name : string) :
  live k s p = Some m →
  ∃ l1 l2 s1 s2 s3 b,
    construct k name p s = Return l1 s1
    ∧ construct k name p s1 = Return l2 s2
    ∧ l1 ≠ l2
    ∧ fetch k p name s2 = Return (VRef l2) s2
    ∧ remove_of k l1 s2 = Return tt s3
    ∧ fetch k p name s3 = Return VNone s3
    ∧ bin s3 p = Some b ∧ b !! key_of k name = Some l2.
Proof.
  intros (oc & Hs & Hm & _)%live_inv.
  pose proof (lookup_fresh_ne _ _ _ Hs) as Hne.
  set (n := length (heap s)).
  set (key := key_of k name).
  set (oc1 := with_live k oc (<[key := n]> m)).
  set (s1 := upd (push s (new_child k name p)) p oc1).
  assert (heap s1 !! p = Some oc1) as Hs1.
  { unfold s1. eapply lookup_upd_eq. by apply lookup_push_old. }
  assert (live_map k oc1 = Some (<[key := n]> m)) as Hm1
    by (by eapply live_map_with_live).
  assert (length (heap s1) = S n) as Hlen.
  { subst s1. cbn. rewrite length_insert, length_app. cbn. subst n. lia. }
  set (oc2 := with_live k oc1 (<[key := S n]> (<[key := n]> m))).
  set (s2 := upd (push s1 (new_child k name p)) p oc2).
  assert (heap s2 !! p = Some oc2) as Hs2.
  { unfold s2. eapply lookup_upd_eq. by apply lookup_push_old. }
  assert (live_map k oc2 = Some (<[key := S n]> (<[key := n]> m))) as Hm2
    by (by eapply live_map_with_live).
  assert (heap s2 !! n = Some (new_child k name p)) as Hn.
  { subst s2. rewrite lookup_upd_ne by (subst n; done).
    apply lookup_push_old. subst s1.
    rewrite lookup_upd_ne by (subst n; done). apply lookup_push_new. }
  destruct (new_child_facts k name p) as (Hk & Hid & Hp).
  destruct (bin_of_moved k oc2 _ key (S n) Hm2) as (b & Hb & Hb').
  exists n, (S n), s1, s2, (upd s2 p (moved k oc2 key (S n))),
    (<[key := S n]> b).
  split; [by apply construct_run|].
  split.
  { rewrite (construct_run k s1 p oc1 _ name Hs1 Hm1). by rewrite Hlen. }
  split; [lia|].
  split.
  { rewrite (fetch_run k s2 p (<[key := S n]> (<[key := n]> m)) name);
      [|unfold live; by rewrite Hs2].
    fold key. by rewrite lookup_insert_eq. }
  split.
  { rewrite (remove_of_run k s2 n _ p oc2 _ key Hn Hk Hp Hid Hs2 Hm2).
    by rewrite lookup_insert_eq. }
  split.
  { rewrite (fetch_run k _ p (delete key (<[key := S n]> (<[key := n]> m)))
               name).
    - fold key. by rewrite lookup_delete_eq.
    - apply live_upd; [by eexists|]. by apply live_map_moved. }
  split.
  { unfold bin. by rewrite (lookup_upd_eq _ _ _ _ Hs2). }
  apply lookup_insert_eq.
Qed.

Lemma remove_takes_the_namesake_witness :
  ∃ l1 l2 s1 s2 s3 b,
    construct SetItem "y" 2 item_state = Return l1 s1
    ∧ construct SetItem "y" 2 s1 = Return l2 s2
    ∧ l1 ≠ l2
    ∧ fetch SetItem 2 "y" s2 = Return (VRef l2) s2
    ∧ remove_of SetItem l1 s2 = Return tt s3
    ∧ fetch SetItem 2 "y" s3 = Return VNone s3
    ∧ bin s3 2 = Some b ∧ b !! key_of SetItem "y" = Some l2.
Proof.
  apply (remove_takes_the_namesake SetItem item_state 2 {["x" := 3]} "y").
  vm_compute. reflexivity.
Defined.

(** ** [updateId] *)

Lemma updateId_of_run k s l o new :
  k = SetDataBlock ∨ k = SetSaveFrame →
  heap s !! l = Some o → kind_of o = child_kind k →
  ∃ o',
    updateId_of k l new s = Return tt (upd s l o')
    ∧ kind_of o' = kind_of o ∧ id_of o' = Some new
    ∧ parent_of o' = parent_of o.
Proof.
  intros [-> | ->] Hl Hk; destruct o; try discriminate Hk;
    cbn [updateId_of]; unfold DataBlock.updateId, SaveFrame.updateId;
    mrun; eexists; (split; [reflexivity|]); done.
Qed.

(** X11: [updateId] of a DataBlock or a SaveFrame changes the id of the
    object and nothing in its parent, where it stays registered under the
    old id.  The getter still finds it under the old id.  When the new id is
    no key of the parent, [remove()] and [removeChild] of the object leave
    it where it is, and the construct-or-fetch method on the object
    registers it a second time, under the new id.  When the new id is the
    key of another child, [remove()] of the object moves that other child
    to the recycle bin, and the object is still found under the old id. *)
Theorem updateId_keeps_registration
    (k : factory) (s : state) (l p : loc) (o : obj) (m : gmap string loc)
    (old new : string) :
  k = SetDataBlock ∨ k = SetSaveFrame →
  heap s !! l = Some o → kind_of o = child_kind k →
  parent_of o = Some p →
  live k s p = Some m → m !! old = Some l → new ≠ old →
  ∃ s1,
    updateId_of k l new s = Return tt s1
    ∧ obj_id (VRef l) s1 = Return new s1
    ∧ live k s1 p = Some m
    ∧ fetch k p old s1 = Return (VRef l) s1
    ∧ (m !! new = None →
         remove_of k l s1 = Return tt s1
         ∧ discard k p (VRef l) s1 = Return (VBool false) s1
         ∧ ∃ s2, construct_or_fetch k p (VRef l) s1 = Return (VRef l) s2
                 ∧ live k s2 p = Some (<[new := l]> m))
    ∧ (∀ l2, m !! new = Some l2 →
         ∃ s2 b,
           remove_of k l s1 = Return tt s2
           ∧ live k s2 p = Some (delete new m)
           ∧ bin s2 p = Some b ∧ b !! new = Some l2
           ∧ fetch k p old s2 = Return (VRef l) s2).
Proof.
  intros Hkk Hl Hk Hp Hlive Hold Hnew.
  destruct (live_inv _ _ _ _ Hlive) as (oc & Hs & Hm & _).
  pose proof (kind_child_ne_container _ _ _ _ _ _ _ Hl Hk Hs Hm) as Hne.
  destruct (updateId_of_run k s l o new Hkk Hl Hk)
    as (o' & Hrun & Hk' & Hid' & Hp').
  set (s1 := upd s l o') in *.
  assert (heap s1 !! l = Some o') as Hl1 by (by eapply lookup_upd_eq).
  assert (heap s1 !! p = Some oc) as Hs1
    by (subst s1; by rewrite lookup_upd_ne).
  assert (live k s1 p = Some m) as Hlive1.
  { unfold live. by rewrite Hs1. }
  assert (key_of k old = old) as Hkey_old by (by destruct Hkk as [-> | ->]).
  assert (kind_of o' = child_kind k) as Hk1 by congruence.
  assert (parent_of o' = Some p) as Hp1 by congruence.
  exists s1. split; [exact Hrun|].
  split; [by apply (obj_id_ok _ _ o')|].
  split; [exact Hlive1|].
  split.
  { rewrite (fetch_run k s1 p m old Hlive1), Hkey_old. by rewrite Hold. }
  split.
  - intros Hnone.
    split.
    { by rewrite (remove_of_run k s1 l o' p oc m new), Hnone. }
    split.
    { by rewrite (discard_ref k s1 p oc m l o' new), Hnone. }
    destruct (cof_ref k s1 p m l o' new Hlive1 Hl1 Hk1 Hid')
      as (s2 & Hrun2 & Hlive2 & _).
    unfold setdefault in Hrun2, Hlive2. rewrite Hnone in Hrun2, Hlive2.
    by exists s2.
  - intros l2 Hl2.
    destruct (bin_of_moved k oc m new l2 Hm) as (b & Hb & Hb').
    exists (upd s1 p (moved k oc new l2)), (<[new := l2]> b).
    split.
    { by rewrite (remove_of_run k s1 l o' p oc m new), Hl2. }
    assert (live k (upd s1 p (moved k oc new l2)) p = Some (delete new m))
      as Hlive2.
    { apply live_upd; [by eexists|]. by apply live_map_moved. }
    split; [exact Hlive2|].
    split.
    { unfold bin. by rewrite (lookup_upd_eq _ _ _ _ Hs1). }
    split; [apply lookup_insert_eq|].
    rewrite (fetch_run k _ p _ old Hlive2), Hkey_old.
    by rewrite lookup_delete_ne, Hold.
Qed.

Lemma updateId_keeps_registration_witness :
  ∃ s1,
    updateId_of SetDataBlock 1 "C" item_state = Return tt s1
    ∧ obj_id (VRef 1) s1 = Return "C" s1
    ∧ live SetDataBlock s1 0 = Some {["B" := 1]}
    ∧ fetch SetDataBlock 0 "B" s1 = Return (VRef 1) s1
    ∧ remove_of SetDataBlock 1 s1 = Return tt s1
    ∧ discard SetDataBlock 0 (VRef 1) s1 = Return (VBool false) s1.
Proof.
  assert (heap item_state !! 1
          = Some (ODataBlock {| db_id := "B"; db_categories := {["c" := 2]};
                                db_saveFrames := ∅; db_recycleBin := ∅;
                                db_parent := 0 |})) as H1
    by (vm_compute; reflexivity).
  assert (live SetDataBlock item_state 0 = Some {["B" := 1]}) as H2
    by (vm_compute; reflexivity).
  assert ("C" ≠ "B") as H3 by discriminate.
  destruct (updateId_keeps_registration SetDataBlock item_state 1 0 _
              {["B" := 1]} "B" "C" (or_introl eq_refl) H1 eq_refl eq_refl
              H2 eq_refl H3)
    as (s1 & R1 & R2 & R3 & R4 & R5 & _).
  destruct (R5 eq_refl) as (R6 & R7 & _).
  exists s1. by repeat split.
Defined.

(** ** Set, get, remove, set again *)

Lemma setItem_effect_bin c i l :
  cat_recycleBin (setItem_effect c i l).1 = cat_recycleBin c.
Proof.
  unfold setItem_effect. cbn [fst snd].
  match goal with
  | |- context [if ?b then Category.with_isTable _ true else _] => destruct b
  end; done.
Qed.

(** Construct-or-fetch on a name that is no key: the new child is the last
    object of the store, the live map holds it under the key, and the
    recycle bin is what it was. *)
Lemma cof_new_full k s self oc m name :
  heap s !! self = Some oc → live_map k oc = Some m →
  m !! key_of k name = None →
  ∃ oc',
    construct_or_fetch k self (VStr name) s
    = Return (VRef (length (heap s)))
        (upd (push s (new_child k name self)) self oc')
    ∧ live_map k oc' = Some (<[key_of k name := length (heap s)]> m)
    ∧ bin_of oc' = bin_of oc.
Proof.
  intros Hs Hm Hl.
  destruct k, oc; try discriminate Hm; cbn in Hm, Hl; simplify_eq;
    cbn [construct_or_fetch key_of new_child].
  - erewrite setDataBlock_new by done. by eexists.
  - erewrite setSaveFrame_new by done. by eexists.
  - erewrite setCategory_block_new by done. by eexists.
  - erewrite setCategory_frame_new by done. by eexists.
  - rewrite (setItem_construct s self c name Hs Hl).
    pose proof (lookup_fresh_ne _ _ _ Hs) as Hne.
    erewrite setItem_ref; [|slook|unfold new_item; slook].
    rewrite upd_upd.
    set (c0 := Category.with_items c _).
    set (i0 := {| it_value := VNone |}).
    destruct (setItem_effect_registered c0 i0 (length (heap s))) as [Hm' Hr];
      [apply lookup_insert_eq|].
    rewrite Hr. eexists. split; [reflexivity|].
    cbn [live_map bin_of]. rewrite Hm', setItem_effect_bin. done.
Qed.

(** X12: set, then get.  For each of the five construct-or-fetch methods
    and its getter: when what the container holds under the key of a name,
    if anything, is a child registered under its own id, the method on the
    name returns an object that the getter then returns for that name, and
    for every name with the same key (for categories: the name with more or
    fewer leading underscores); the getter answers for names with another
    key as it did before. *)
Theorem set_then_get
    (k : factory) (s : state) (self : loc) (m : gmap string loc)
    (name : string) :
  live k s self = Some m →
  own_key k s m (key_of k name) →
  ∃ r s1,
    construct_or_fetch k self (VStr name) s = Return (VRef r) s1
    ∧ (∀ name', key_of k name' = key_of k name →
                fetch k self name' s1 = Return (VRef r) s1)
    ∧ (∀ name', key_of k name' ≠ key_of k name →
                ∃ v, fetch k self name' s = Return v s
                     ∧ fetch k self name' s1 = Return v s1).
Proof.
  intros Hlive Hown.
  destruct (m !! key_of k name) as [l|] eqn:Hkey.
  - destruct (Hown l Hkey) as (o & Ho & Hko & Hid).
    destruct (cof_ref k s self m l o _ Hlive Ho Hko Hid)
      as (s1 & Hrun & Hlive1 & _).
    rewrite (setdefault_present _ _ _ _ Hkey) in Hrun, Hlive1.
    exists l, s1.
    split; [by rewrite (cof_fetch k s self m name l)|].
    split.
    + intros name' Hn. rewrite (fetch_run k s1 self m name' Hlive1).
      by rewrite Hn, Hkey.
    + intros name' Hn. eexists. split; [by apply fetch_run|].
      by apply fetch_run.
  - destruct (cof_new k s self m name Hlive Hkey)
      as (s1 & o & Hrun & Hlive1 & _).
    exists (length (heap s)), s1.
    split; [exact Hrun|]. split.
    + intros name' Hn. rewrite (fetch_run k s1 self _ name' Hlive1).
      by rewrite Hn, lookup_insert_eq.
    + intros name' Hn. eexists. split; [by apply fetch_run|].
      rewrite (fetch_run k s1 self _ name' Hlive1).
      by rewrite lookup_insert_ne.
Qed.

Lemma set_then_get_witness :
  ∃ r s1,
    construct_or_fetch SetCategoryOfBlock 1 (VStr "_c") item_state
    = Return (VRef r) s1
    ∧ (∀ name', key_of SetCategoryOfBlock name'
                = key_of SetCategoryOfBlock "_c" →
                fetch SetCategoryOfBlock 1 name' s1 = Return (VRef r) s1)
    ∧ (∀ name', key_of SetCategoryOfBlock name'
                ≠ key_of SetCategoryOfBlock "_c" →
                ∃ v, fetch SetCategoryOfBlock 1 name' item_state
                     = Return v item_state
                     ∧ fetch SetCategoryOfBlock 1 name' s1 = Return v s1).
Proof.
  apply (set_then_get SetCategoryOfBlock item_state 1 {["c" := 2]} "_c").
  - vm_compute. reflexivity.
  - intros l Hl. vm_compute in Hl. injection Hl as <-.
    eexists. split; [vm_compute; reflexivity|]. split; reflexivity.
Defined.

(** X13: remove, then set again.  For each of the five containers, with a
    child registered under the key of a name and under its own id:
    [removeChild] of the child returns [True], after which the getter
    returns [None] for the name; the construct-or-fetch method on the name
    then builds a new object, another one than the child, which the getter
    returns from then on; the child itself is untouched and stays in the
    recycle bin under the key. *)
Theorem remove_then_set_builds_anew
    (k : factory) (s : state) (self l : loc) (o : obj)
    (m : gmap string loc) (name : string) :
  live k s self = Some m →
  m !! key_of k name = Some l →
  heap s !! l = Some o → kind_of o = child_kind k →
  id_of o = Some (key_of k name) →
  ∃ s1 s2 b,
    discard k self (VRef l) s = Return (VBool true) s1
    ∧ fetch k self name s1 = Return VNone s1
    ∧ construct_or_fetch k self (VStr name) s1
      = Return (VRef (length (heap s))) s2
    ∧ length (heap s) ≠ l
    ∧ fetch k self name s2 = Return (VRef (length (heap s))) s2
    ∧ bin s2 self = Some b ∧ b !! key_of k name = Some l
    ∧ heap s2 !! l = Some o.
Proof.
  intros Hlive Hkey Hl Hk Hid.
  destruct (live_inv _ _ _ _ Hlive) as (oc & Hs & Hm & _).
  pose proof (kind_child_ne_container _ _ _ _ _ _ _ Hl Hk Hs Hm) as Hne.
  pose proof (lookup_fresh_ne _ _ _ Hl) as Hfresh.
  set (key := key_of k name) in *.
  set (oc1 := moved k oc key l).
  set (s1 := upd s self oc1).
  assert (heap s1 !! self = Some oc1) as Hs1
    by (unfold s1; by eapply lookup_upd_eq).
  assert (live_map k oc1 = Some (delete key m)) as Hm1
    by (by apply live_map_moved).
  assert (live k s1 self = Some (delete key m)) as Hlive1.
  { unfold live. by rewrite Hs1. }
  assert (length (heap s1) = length (heap s)) as Hlen.
  { unfold s1. cbn. by rewrite length_insert. }
  destruct (bin_of_moved k oc m key l Hm) as (b & Hb & Hb1).
  destruct (cof_new_full k s1 self oc1 _ name Hs1 Hm1) as (oc2 & Hrun & Hm2 & Hb2).
  { apply lookup_delete_eq. }
  rewrite Hlen in Hrun, Hm2.
  set (s2 := upd (push s1 (new_child k name self)) self oc2) in *.
  assert (heap s2 !! self = Some oc2) as Hs2.
  { unfold s2. eapply lookup_upd_eq. by apply lookup_push_old. }
  exists s1, s2, (<[key := l]> b).
  split.
  { by rewrite (discard_ref k s self oc m l o key), Hkey. }
  split.
  { rewrite (fetch_run k s1 self _ name Hlive1). fold key.
    by rewrite lookup_delete_eq. }
  split; [exact Hrun|].
  split; [done|].
  split.
  { rewrite (fetch_run k s2 self (<[key := length (heap s)]> (delete key m))
               name); [|unfold live; by rewrite Hs2].
    fold key. by rewrite lookup_insert_eq. }
  split.
  { unfold bin. rewrite Hs2. cbn. rewrite Hb2. exact Hb1. }
  split; [apply lookup_insert_eq|].
  unfold s2. rewrite lookup_upd_ne by done. apply lookup_push_old.
  unfold s1. by rewrite lookup_upd_ne.
Qed.

Lemma remove_then_set_builds_anew_witness :
  ∃ s1 s2 b,
    discard SetItem 2 (VRef 3) item_state = Return (VBool true) s1
    ∧ fetch SetItem 2 "x" s1 = Return VNone s1
    ∧ construct_or_fetch SetItem 2 (VStr "x") s1
      = Return (VRef (length (heap item_state))) s2
    ∧ length (heap item_state) ≠ 3
    ∧ fetch SetItem 2 "x" s2 = Return (VRef (length (heap item_state))) s2
    ∧ bin s2 2 = Some b ∧ b !! key_of SetItem "x" = Some 3
    ∧ heap s2 !! 3 = Some (new_item "x" 2).
Proof.
  assert (live SetItem item_state 2 = Some {["x" := 3]}) as H1
    by (vm_compute; reflexivity).
  assert (heap item_state !! 3 = Some (new_item "x" 2)) as H2
    by (vm_compute; reflexivity).
  exact (remove_then_set_builds_anew SetItem item_state 2 3 (new_item "x" 2)
           {["x" := 3]} "x" H1 eq_refl H2 eq_refl eq_refl).
Defined.

(** ** [setItem]: the longest tag and the table flag *)

Lemma setdefault_lookup_ne (m : gmap string loc) k l j :
  j ≠ k → (setdefault m k l).1 !! j = m !! j.
Proof.
  intros Hne. unfold setdefault. destruct (m !! k); cbn; [done|].
  by rewrite lookup_insert_ne.
Qed.

Lemma setItem_effect_measured c i l :
  (∀ key l', cat_items c !! key = Some l' → key ≠ it_id i →
             (tag_length c key ≤ cat_maxTagLength c)%nat) →
  measured_from c (setItem_effect c i l).1
  ∧ (is_list (it_value i) = true →
     cat_isTable (setItem_effect c i l).1 = true).
Proof.
  intros Hfit. unfold setItem_effect. cbn [fst snd].
  set (n := String.length ("_" +:+ cat_id c +:+ it_id i)).
  set (c1 := Category.with_maxTagLength c _).
  assert (cat_maxTagLength c ≤ cat_maxTagLength c1
          ∧ n ≤ cat_maxTagLength c1)%nat as [Hmax Hn].
  { unfold c1. cbn [cat_maxTagLength Category.with_maxTagLength].
    destruct (Nat.ltb (cat_maxTagLength c) n) eqn:E;
      [apply Nat.ltb_lt in E|apply Nat.ltb_ge in E]; lia. }
  match goal with
  | |- context [if ?b then Category.with_isTable c1 true else c1] =>
      set (c2 := if b then Category.with_isTable c1 true else c1)
  end.
  assert (cat_id c2 = cat_id c ∧ cat_items c2 = cat_items c
          ∧ cat_maxTagLength c2 = cat_maxTagLength c1
          ∧ (cat_isTable c = true → cat_isTable c2 = true)
          ∧ (is_list (it_value i) = true → cat_isTable c2 = true))
    as (Hid & Hitems & Hmax2 & Htab & Hlist).
  { unfold c2.
    destruct (it_value i), (cat_isTable c) eqn:Et; cbn; rewrite ?Et; done. }
  split; [|exact Hlist].
  split; [exact Hid|]. split; [|split; [cbn; lia|exact Htab]].
  intros key l' Hl'. cbn in Hl'. unfold tag_length. cbn. rewrite Hid, Hmax2.
  destruct (decide (key = it_id i)) as [->|Hne]; [exact Hn|].
  rewrite Hitems, setdefault_lookup_ne in Hl' by done.
  specialize (Hfit key l' Hl' Hne). unfold tag_length in Hfit. lia.
Qed.

Lemma measured_from_longer c n :
  tags_fit c →
  measured_from c
    (Category.with_maxTagLength c
       (if Nat.ltb (cat_maxTagLength c) n then n else cat_maxTagLength c)).
Proof.
  intros Hfit. split; [done|]. split; [|split; [|done]].
  - intros key l Hl. specialize (Hfit key l Hl). unfold tag_length in *.
    cbn [cat_maxTagLength Category.with_maxTagLength cat_id].
    destruct (Nat.ltb (cat_maxTagLength c) n) eqn:E;
      [apply Nat.ltb_lt in E|apply Nat.ltb_ge in E]; lia.
  - cbn [cat_maxTagLength Category.with_maxTagLength].
    destruct (Nat.ltb (cat_maxTagLength c) n) eqn:E;
      [apply Nat.ltb_lt in E|apply Nat.ltb_ge in E]; lia.
Qed.

Lemma measured_from_refl c : tags_fit c → measured_from c c.
Proof. intros Hfit. by repeat split. Qed.

(** X14: [setItem] keeps [_maxTagLength] an upper bound of the tags of the
    live items.  In a category whose live items are Items and whose tags all
    fit, [setItem] on any argument but the class [str] that is no dangling
    reference returns or raises [AttributeError], and either way the
    category has the same id, tags that all fit, a [_maxTagLength] that is
    no smaller, and is still a table if it was one; when the argument is an
    Item that holds a list and [setItem] returns, the category is a table.
    On the class [str] itself [setItem] raises [TypeError] at
    [item.isalnum()], before it touches the category: the store is as it
    was. *)
Theorem setItem_keeps_tags_fit
    (s : state) (self : loc) (c : Category_) (arg : pyval) :
  heap s !! self = Some (OCategory c) →
  all_kind s KItem (cat_items c) →
  (∀ l, arg = VRef l → is_Some (heap s !! l)) →
  tags_fit c →
  (arg ≠ VStrClass →
   ends (Category.setItem self arg s)
     (λ _ s', ∃ c',
        heap s' !! self = Some (OCategory c') ∧ measured_from c c'
        ∧ ∀ l i, arg = VRef l → heap s !! l = Some (OItem i) →
                 is_list (it_value i) = true → cat_isTable c' = true)
     (λ s', ∃ c', heap s' !! self = Some (OCategory c') ∧ measured_from c c'))
  ∧ (arg = VStrClass → Category.setItem self arg s = Raise TypeError s).
Proof.
  intros Hs Hitems Harg Hfit.
  split; [intros Hcls|by intros ->].
  assert (∀ l i, heap s !! l = Some (OItem i) →
            ends (Category.setItem self (VRef l) s)
              (λ _ s', ∃ c',
                 heap s' !! self = Some (OCategory c') ∧ measured_from c c'
                 ∧ (is_list (it_value i) = true → cat_isTable c' = true))
              (λ s', ∃ c', heap s' !! self = Some (OCategory c')
                           ∧ measured_from c c')) as Hitem.
  { intros l i Hl. rewrite (setItem_ref s self c l i Hs Hl). cbn [ends].
    destruct (setItem_effect_measured c i l) as [Hm Hlist].
    { intros key l' Hl' _. by eapply Hfit. }
    eexists. split; [by eapply lookup_upd_eq|]. by split. }
  destruct arg as [| | |name| | | |l]; [| | | | | |done|].
  1-3, 5-6:
    rewrite setItem_no_id by done; cbn [ends];
    exists c; (split; [done|]); (split; [by apply measured_from_refl|]);
    by intros.
  - (* a name *)
    destruct (cat_items c !! name) as [l|] eqn:Hname.
    + rewrite (setItem_fetch s self c name l Hs Hname).
      specialize (Hitems name l Hname). unfold has_kind in Hitems.
      destruct (heap s !! l) as [[i| | | |]|] eqn:Hl; try discriminate Hitems.
      eapply ends_mono; [apply (Hitem l i Hl)| |done].
      intros _ s' (c' & Hc' & Hm & _). exists c'. split; [done|].
      split; [done|]. by intros.
    + rewrite (setItem_construct s self c name Hs Hname).
      pose proof (lookup_fresh_ne _ _ _ Hs) as Hne.
      erewrite setItem_ref; [|slook|unfold new_item; slook].
      rewrite upd_upd. cbn [ends].
      set (c0 := Category.with_items c _).
      set (i0 := {| it_value := VNone |}).
      destruct (setItem_effect_measured c0 i0 (length (heap s)))
        as [(Hid & Hfit' & Hmax & Htab) _].
      { intros key l' Hl' Hkey. cbn in Hl', Hkey.
        rewrite lookup_insert_ne in Hl' by done. by eapply Hfit. }
      eexists. split; [eapply lookup_upd_eq; by apply lookup_push_old|].
      split; [by repeat split|]. by intros.
  - (* an object *)
    destruct (Harg l eq_refl) as [o Hl].
    destruct o as [i|c2|f|b|f].
    + eapply ends_mono; [apply (Hitem l i Hl)| |done].
      intros _ s' (c' & Hc' & Hm & Hlist). exists c'. split; [done|].
      split; [done|]. intros l' i' [= <-] Hl'. simplify_eq. exact Hlist.
    + unfold Category.setItem. mrun.
      set (c1 := Category.with_maxTagLength c _).
      assert (obj_value (VRef l) (upd s self (OCategory c1))
              = Raise AttributeError (upd s self (OCategory c1))) as ->.
      { unfold obj_value. rewrite bind_unfold.
        destruct (decide (self = l)) as [->|Hne].
        - by erewrite get_obj_ok by (by eapply lookup_upd_eq).
        - erewrite get_obj_ok; [|by rewrite lookup_upd_ne]. done. }
      cbn [ends]. exists c1. split; [by eapply lookup_upd_eq|].
      by apply measured_from_longer.
    + assert (self ≠ l) as Hne by congruence.
      unfold Category.setItem. mrun.
      set (c1 := Category.with_maxTagLength c _).
      assert (obj_value (VRef l) (upd s self (OCategory c1))
              = Raise AttributeError (upd s self (OCategory c1))) as ->.
      { unfold obj_value. rewrite bind_unfold.
        erewrite get_obj_ok; [|by rewrite lookup_upd_ne]. done. }
      cbn [ends]. exists c1. split; [by eapply lookup_upd_eq|].
      by apply measured_from_longer.
    + assert (self ≠ l) as Hne by congruence.
      unfold Category.setItem. mrun.
      set (c1 := Category.with_maxTagLength c _).
      assert (obj_value (VRef l) (upd s self (OCategory c1))
              = Raise AttributeError (upd s self (OCategory c1))) as ->.
      { unfold obj_value. rewrite bind_unfold.
        erewrite get_obj_ok; [|by rewrite lookup_upd_ne]. done. }
      cbn [ends]. exists c1. split; [by eapply lookup_upd_eq|].
      by apply measured_from_longer.
    + rewrite setItem_no_id; cbn [ends].
      * exists c. split; [done|]. split; [by apply measured_from_refl|].
        intros l' i' [= <-] Hl'. congruence.
      * done.
      * unfold obj_id. by rewrite bind_unfold, (get_obj_ok _ _ _ Hl).
Qed.

Lemma setItem_keeps_tags_fit_witness :
  (ends (Category.setItem 2 (VStr "a_long_item_name") item_state)
    (λ _ s', ∃ c',
       heap s' !! 2 = Some (OCategory c')
       ∧ measured_from
           {| cat_items := {["x" := 3]}; cat_recycleBin := ∅;
              cat_isTable := false; cat_id := "c"; cat_maxTagLength := 3;
              cat_parent := 1 |} c'
       ∧ ∀ l i, VStr "a_long_item_name" = VRef l →
                heap item_state !! l = Some (OItem i) →
                is_list (it_value i) = true → cat_isTable c' = true)
    (λ s', ∃ c',
       heap s' !! 2 = Some (OCategory c')
       ∧ measured_from
           {| cat_items := {["x" := 3]}; cat_recycleBin := ∅;
              cat_isTable := false; cat_id := "c"; cat_maxTagLength := 3;
              cat_parent := 1 |} c'))
  ∧ Category.setItem 2 VStrClass item_state = Raise TypeError item_state.
Proof.
  assert (heap item_state !! 2
          = Some (OCategory
                    {| cat_items := {["x" := 3]}; cat_recycleBin := ∅;
                       cat_isTable := false; cat_id := "c";
                       cat_maxTagLength := 3; cat_parent := 1 |})) as Hs
    by (vm_compute; reflexivity).
  assert (all_kind item_state KItem {["x" := 3]}) as Hitems
    by (apply (bool_decide_unpack _); vm_compute; exact I).
  assert (tags_fit
            {| cat_items := {["x" := 3]}; cat_recycleBin := ∅;
               cat_isTable := false; cat_id := "c";
               cat_maxTagLength := 3; cat_parent := 1 |}) as Hfit.
  { intros key l Hl. cbn in Hl.
    apply lookup_singleton_Some in Hl as [<- _]. vm_compute. lia. }
  split.
  - apply (setItem_keeps_tags_fit item_state 2 _ (VStr "a_long_item_name")
             Hs Hitems); [intros l Hl; discriminate Hl|exact Hfit|].
    discriminate.
  - apply (setItem_keeps_tags_fit item_state 2 _ VStrClass Hs Hitems);
      [intros l Hl; discriminate Hl|exact Hfit|reflexivity].
Defined.

(** ** The import of a well-formed mapping *)

(** X15: the import, read back.  [CifFile(file_path, mapping)] on a nested
    mapping of block names to category names to item names to values
    returns the new file and raises nothing; no object that existed is
    written, and nothing is printed unless the mapping is empty; and for
    every block [b], category [c] and item [i] of the mapping with value
    [v], [f.getDataBlock(b).getCategory(c).getItem(i).getRawValue()] on the
    new file [f] returns [v], or the one element of [v] when [v] is a list
    of one. *)
Theorem import_round_trip
    (file_path : option string) (data : block_map) (s : state) :
  well_keyed data →
  ∃ s',
    CifFile.__init__ file_path (encode_blocks data) s
    = Return (length (heap s)) s'
    ∧ (data ≠ [] → stdout s' = stdout s)
    ∧ (∀ l o, heap s !! l = Some o → heap s' !! l = Some o)
    ∧ ∀ bn cats cn items n v,
        (bn, cats) ∈ data → (cn, items) ∈ cats → (n, v) ∈ items →
        read_leaf (length (heap s)) bn cn n s' = Return (stored v) s'.
Proof.
  intros Hwk.
  destruct (init_run file_path data s Hwk) as (s' & Hrun & Hout & Hold & Hat).
  exists s'. do 3 (split; [done|]).
  intros bn cats cn items n v Hb Hc Hn.
  eapply read_leaf_run; [by apply Hat|done|done].
Qed.

Lemma import_round_trip_witness :
  ∃ s',
    CifFile.__init__ None
      (encode_blocks
         [("B", [("_c", [("x", VList [VInt 1; VInt 2]); ("y", VList [VInt 3])]);
                 ("d", [])])])
      empty_state
    = Return 0 s'
    ∧ read_leaf 0 "B" "_c" "y" s' = Return (VInt 3) s'.
Proof.
  destruct (import_round_trip None
              [("B", [("_c", [("x", VList [VInt 1; VInt 2]);
                              ("y", VList [VInt 3])]);
                      ("d", [])])]
              empty_state)
    as (s' & Hrun & _ & _ & Hleaves).
  - split; [apply (bool_decide_unpack _); vm_compute; exact I|].
    repeat constructor; cbn; try (apply (bool_decide_unpack _); vm_compute; exact I).
  - exists s'. split; [exact Hrun|].
    refine (Hleaves "B" _ "_c" _ "y" (VList [VInt 3]) _ _ _).
    + by left.
    + by left.
    + right. by left.
Defined.

(** X16: the tree the import builds.  After [CifFile(file_path, mapping)],
    for every block name of the mapping the new file holds under that name
    a DataBlock of that id whose parent is the file; for every category
    name of the block, the DataBlock holds under the name without its
    leading underscores a Category of that id whose parent is the block;
    and for every item name of the category with value [v], the Category
    holds under the name an Item of that id whose parent is the category,
    which is a column exactly when [v] is a list of two or more elements,
    and then the category is a table. *)
Theorem import_builds_tree
    (file_path : option string) (data : block_map) (s : state) :
  well_keyed data →
  ∃ s',
    CifFile.__init__ file_path (encode_blocks data) s
    = Return (length (heap s)) s'
    ∧ ∀ bn cats, (bn, cats) ∈ data →
        ∃ f lb blk,
          heap s' !! length (heap s) = Some (OCifFile f)
          ∧ cf_data_blocks f !! bn = Some lb
          ∧ heap s' !! lb = Some (ODataBlock blk)
          ∧ db_id blk = bn ∧ db_parent blk = length (heap s)
          ∧ ∀ cn items, (cn, items) ∈ cats →
              ∃ lc c,
                db_categories blk !! lstrip "_"%char cn = Some lc
                ∧ heap s' !! lc = Some (OCategory c)
                ∧ cat_id c = lstrip "_"%char cn ∧ cat_parent c = lb
                ∧ ∀ n v, (n, v) ∈ items →
                    ∃ li it,
                      cat_items c !! n = Some li
                      ∧ heap s' !! li = Some (OItem it)
                      ∧ it_id it = n ∧ it_parent it = lc
                      ∧ it_isColumn it = many v
                      ∧ (many v = true → cat_isTable c = true).
Proof.
  intros Hwk.
  destruct (init_run file_path data s Hwk) as (s' & Hrun & _ & _ & Hat).
  exists s'. split; [done|].
  intros bn cats Hb.
  destruct (Hat bn cats Hb) as (f & lb & Hself & Hlb & blk & Hblk & Hid & Hpar
                                & Hcats).
  exists f, lb, blk. do 5 (split; [done|]).
  intros cn items Hc.
  destruct (Hcats cn items Hc) as (blk2 & lc & Hblk2 & Hlc & c & Hcat & Hcid
                                   & Hcpar & Hitems).
  assert (blk2 = blk) as -> by congruence.
  exists lc, c. do 4 (split; [done|]).
  intros n v Hn.
  destruct (Hitems n v Hn) as (c2 & li & it & Hcat2 & Hli & Hit & _ & Hcol
                               & Hiid & Hipar & Htab).
  assert (c2 = c) as -> by congruence.
  by exists li, it.
Qed.

Lemma import_builds_tree_witness :
  ∃ s',
    CifFile.__init__ None
      (encode_blocks [("B", [("_c", [("x", VList [VInt 1; VInt 2])])])])
      empty_state
    = Return 0 s'
    ∧ ∃ f lb blk,
        heap s' !! 0 = Some (OCifFile f)
        ∧ cf_data_blocks f !! "B" = Some lb
        ∧ heap s' !! lb = Some (ODataBlock blk)
        ∧ db_id blk = "B" ∧ db_parent blk = 0.
Proof.
  destruct (import_builds_tree None
              [("B", [("_c", [("x", VList [VInt 1; VInt 2])])])]
              empty_state)
    as (s' & Hrun & Htree).
  - split; [apply (bool_decide_unpack _); vm_compute; exact I|].
    repeat constructor; cbn; try (apply (bool_decide_unpack _); vm_compute; exact I).
  - exists s'. split; [exact Hrun|].
    destruct (Htree "B" _ (list_elem_of_here _ _))
      as (f & lb & blk & H1 & H2 & H3 & H4 & H5 & _).
    by exists f, lb, blk.
Defined.

(** ** The dictionary wrappers *)

Lemma dict_get_set_same {V} (d : list (pyval * V)) k c v :
  hash_key k = Some c → dict_get (dict_set d k c v) c = Some v.
Proof.
  intros Hk. induction d as [|[k' v'] d IH]; cbn.
  - by rewrite decide_True.
  - destruct (decide (hash_key k' = Some c)) as [E|E]; cbn.
    + by rewrite decide_True.
    + by rewrite decide_False.
Qed.

Lemma dict_get_set_other {V} (d : list (pyval * V)) k c v c' :
  hash_key k = Some c → c' ≠ c →
  dict_get (dict_set d k c v) c' = dict_get d c'.
Proof.
  intros Hk Hne. induction d as [|[k' v'] d IH]; cbn.
  - rewrite decide_False; [done|]. rewrite Hk. by intros [= ->].
  - destruct (decide (hash_key k' = Some c)) as [E|E]; cbn.
    + rewrite !decide_False; [done| |]; rewrite E; by intros [= ->].
    + destruct (decide (hash_key k' = Some c')); [done|exact IH].
Qed.

Lemma dict_get_del_same {V} (d : list (pyval * V)) c :
  dict_get (dict_del d c) c = None.
Proof.
  induction d as [|[k' v'] d IH]; cbn; [done|].
  destruct (decide (hash_key k' = Some c)) as [E|E]; cbn; [done|].
  by rewrite decide_False.
Qed.

Lemma dict_get_del_other {V} (d : list (pyval * V)) c c' :
  c' ≠ c → dict_get (dict_del d c) c' = dict_get d c'.
Proof.
  intros Hne. induction d as [|[k' v'] d IH]; cbn; [done|].
  destruct (decide (hash_key k' = Some c)) as [E|E]; cbn.
  - rewrite decide_False; [done|]. rewrite E. by intros [= ->].
  - destruct (decide (hash_key k' = Some c')); [done|exact IH].
Qed.

Lemma dict_del_absent {V} (d : list (pyval * V)) c :
  dict_get d c = None → dict_del d c = d.
Proof.
  induction d as [|[k' v'] d IH]; cbn; [done|].
  destruct (decide (hash_key k' = Some c)) as [E|E]; [done|].
  intros H. by rewrite IH.
Qed.

Lemma columns_are_lists_set t k c v :
  columns_are_lists t → is_list v = true →
  columns_are_lists (dict_set t k c v).
Proof.
  intros Ht Hv. induction Ht as [|[k' v'] t Hx Ht IH]; cbn.
  - by repeat constructor.
  - destruct (decide (hash_key k' = Some c)); constructor; done.
Qed.

Lemma columns_are_lists_del t c :
  columns_are_lists t → columns_are_lists (dict_del t c).
Proof.
  intros Ht. induction Ht as [|[k' v'] t Hx Ht IH]; cbn; [constructor|].
  destruct (decide (hash_key k' = Some c)); [done|by constructor].
Qed.

Lemma is_list_listify v : is_list (listify v) = true.
Proof. unfold listify. by destruct (is_list v) eqn:E. Qed.

(** X17: the item protocol of [CIFWrapperTable].  For a hashable name,
    [t[name] = v] stores [v] as a list, [v] itself when it is one and the
    list of [v] alone otherwise; [t[name]] then returns that list and
    [name in t] holds; the other names are as before, and a table whose
    columns were all lists still has only lists.  [del t[name]] after that
    takes the name out: [name in t] is false, [t[name]] is [None], the
    other names are untouched, and a second [del] changes nothing and
    raises nothing.  For a name that is unhashable all four raise
    [TypeError]. *)
Theorem table_set_get_del
    (t : list (pyval * pyval)) (name v : pyval) :
  (∀ c, hash_key name = Some c →
     ∃ t1 t2,
       CIFWrapperTable.__setitem__ t name v = Got t1
       ∧ CIFWrapperTable.__getitem__ t1 name = Got (listify v)
       ∧ CIFWrapperTable.__contains__ t1 name = Got true
       ∧ (∀ other c', hash_key other = Some c' → c' ≠ c →
            CIFWrapperTable.__getitem__ t1 other
            = CIFWrapperTable.__getitem__ t other)
       ∧ (columns_are_lists t → columns_are_lists t1)
       ∧ CIFWrapperTable.__delitem__ t1 name = Got t2
       ∧ CIFWrapperTable.__contains__ t2 name = Got false
       ∧ CIFWrapperTable.__getitem__ t2 name = Got VNone
       ∧ (∀ other c', hash_key other = Some c' → c' ≠ c →
            CIFWrapperTable.__getitem__ t2 other
            = CIFWrapperTable.__getitem__ t other)
       ∧ (columns_are_lists t → columns_are_lists t2)
       ∧ CIFWrapperTable.__delitem__ t2 name = Got t2)
  ∧ (hash_key name = None →
     CIFWrapperTable.__setitem__ t name v = Fails (Exn TypeError)
     ∧ CIFWrapperTable.__getitem__ t name = Fails (Exn TypeError)
     ∧ CIFWrapperTable.__contains__ t name = Fails (Exn TypeError)
     ∧ CIFWrapperTable.__delitem__ t name = Fails (Exn TypeError)).
Proof.
  split.
  - intros c Hc.
    set (t1 := dict_set t name c (listify v)).
    assert (CIFWrapperTable.__setitem__ t name v = Got t1) as Hset.
    { unfold CIFWrapperTable.__setitem__, hashed. rewrite Hc. cbn.
      unfold deepcopy. by destruct (bool_decide _). }
    assert (dict_get t1 c = Some (listify v)) as Hget
      by (by apply dict_get_set_same).
    exists t1, (dict_del t1 c).
    split; [exact Hset|].
    split.
    { unfold CIFWrapperTable.__getitem__, CIFWrapperTable.get, hashed.
      rewrite Hc. cbn. by rewrite Hget. }
    split.
    { unfold CIFWrapperTable.__contains__, hashed. rewrite Hc. cbn.
      rewrite Hget. by rewrite bool_decide_eq_true_2. }
    split.
    { intros other c' Ho Hne.
      unfold CIFWrapperTable.__getitem__, CIFWrapperTable.get, hashed.
      rewrite Ho. cbn. unfold t1. by rewrite dict_get_set_other. }
    split.
    { intros Ht. apply columns_are_lists_set; [done|apply is_list_listify]. }
    split.
    { unfold CIFWrapperTable.__delitem__, hashed. rewrite Hc. cbn.
      rewrite Hget. by rewrite bool_decide_eq_true_2. }
    split.
    { unfold CIFWrapperTable.__contains__, hashed. rewrite Hc. cbn.
      rewrite dict_get_del_same.
      by rewrite bool_decide_eq_false_2 by (by intros [? ?]). }
    split.
    { unfold CIFWrapperTable.__getitem__, CIFWrapperTable.get, hashed.
      rewrite Hc. cbn. by rewrite dict_get_del_same. }
    split.
    { intros other c' Ho Hne.
      unfold CIFWrapperTable.__getitem__, CIFWrapperTable.get, hashed.
      rewrite Ho. cbn. rewrite dict_get_del_other by done.
      unfold t1. by rewrite dict_get_set_other. }
    split.
    { intros Ht. apply columns_are_lists_del.
      apply columns_are_lists_set; [done|apply is_list_listify]. }
    unfold CIFWrapperTable.__delitem__, hashed. rewrite Hc. cbn.
    rewrite dict_get_del_same.
    by rewrite bool_decide_eq_false_2 by (by intros [? ?]).
  - intros Hnone.
    unfold CIFWrapperTable.__setitem__, CIFWrapperTable.__getitem__,
      CIFWrapperTable.get, CIFWrapperTable.__contains__,
      CIFWrapperTable.__delitem__, hashed.
    by rewrite Hnone.
Qed.

Lemma table_set_get_del_witness :
  ∃ t1 t2,
    CIFWrapperTable.__setitem__ [(VStr "id", VList [VInt 1])]
      (VStr "symbol") (VStr "C")
    = Got t1
    ∧ CIFWrapperTable.__getitem__ t1 (VStr "symbol") = Got (VList [VStr "C"])
    ∧ CIFWrapperTable.__delitem__ t1 (VStr "symbol") = Got t2
    ∧ CIFWrapperTable.__contains__ t2 (VStr "symbol") = Got false.
Proof.
  destruct (proj1 (table_set_get_del [(VStr "id", VList [VInt 1])]
                     (VStr "symbol") (VStr "C")) (KStr "symbol") eq_refl)
    as (t1 & t2 & H1 & H2 & _ & _ & _ & H3 & H4 & _).
  by exists t1, t2.
Defined.

Lemma row_rectangular n t idx :
  rectangular n t → (idx < n)%nat →
  ∃ r, CIFWrapperTable.row t idx = Got r
       ∧ Forall2 (λ e x, x.1 = e.1 ∧ py_index e.2 idx = Got x.2) t r.
Proof.
  intros Ht Hidx. induction Ht as [|[k v] t (l & Hv & Hlen) Ht IH].
  - exists []. split; [done|constructor].
  - cbn in Hv. subst v. destruct IH as (r & Hr & Hall).
    destruct (lookup_lt_is_Some_2 l idx) as [x Hx]; [lia|].
    exists ((k, x) :: r). split.
    + cbn. rewrite Hx. cbn. by rewrite Hr.
    + constructor; [|done]. split; [done|]. cbn. by rewrite Hx.
Qed.

Lemma rows_from_rectangular n t count :
  rectangular n t →
  ∀ idx, (idx + count = n)%nat →
    ∃ rs, CIFWrapperTable.rows_from t idx count = (rs, None)
          ∧ length rs = count
          ∧ ∀ i r, rs !! i = Some r →
              Forall2 (λ e x, x.1 = e.1 ∧ py_index e.2 (idx + i) = Got x.2)
                t r.
Proof.
  intros Ht. induction count as [|count IH]; intros idx Hn.
  - exists []. split; [done|]. split; [done|]. intros i r Hi. by inversion Hi.
  - destruct (row_rectangular n t idx Ht) as (r0 & Hr0 & Hall0); [lia|].
    destruct (IH (S idx)) as (rs & Hrs & Hlen & Hall); [lia|].
    exists (r0 :: rs). split; [cbn; by rewrite Hr0, Hrs|].
    split; [cbn; by rewrite Hlen|].
    intros [|i] r Hi; cbn in Hi.
    + injection Hi as <-. by rewrite Nat.add_0_r.
    + specialize (Hall i r Hi).
      by replace (idx + S i)%nat with (S idx + i)%nat by lia.
Qed.

(** X18: the rows of a table.  For a table that is not empty and whose
    columns are all lists of [n] entries, the iterator yields [n] rows and
    ends without an exception; row number [i] has the names of the table,
    each with entry [i] of its column. *)
Theorem table_iter_rectangular (n : nat) (t : list (pyval * pyval)) :
  rectangular n t → t ≠ [] →
  ∃ rs,
    CIFWrapperTable.__iter__ t = (rs, None)
    ∧ length rs = n
    ∧ ∀ i r, rs !! i = Some r →
        Forall2 (λ e x, x.1 = e.1 ∧ py_index e.2 i = Got x.2) t r.
Proof.
  intros Ht Hne. destruct t as [|[k v] t]; [done|].
  pose proof (Forall_inv Ht) as (l & Hv & Hlen). cbn in Hv. subst v.
  destruct (rows_from_rectangular n ((k, VList l) :: t) n Ht 0)
    as (rs & Hrs & Hlen' & Hall); [lia|].
  exists rs. split.
  { unfold CIFWrapperTable.__iter__. cbn [fmap list_fmap snd first py_len].
    by rewrite Hlen. }
  split; [done|]. exact Hall.
Qed.

Lemma table_iter_rectangular_witness :
  ∃ rs,
    CIFWrapperTable.__iter__
      [(VStr "id", VList [VInt 1; VInt 2]);
       (VStr "symbol", VList [VStr "C"; VStr "N"])]
    = (rs, None)
    ∧ length rs = 2.
Proof.
  destruct (table_iter_rectangular 2
              [(VStr "id", VList [VInt 1; VInt 2]);
               (VStr "symbol", VList [VStr "C"; VStr "N"])])
    as (rs & H1 & H2 & _).
  - repeat constructor; by eexists.
  - discriminate.
  - by exists rs.
Defined.

Lemma dict_get_named {A V} (g : A → V) (l : list (string * A)) n a :
  NoDup l.*1 → (n, a) ∈ l →
  dict_get ((λ e, (VStr e.1, g e.2)) <$> l) (KStr n) = Some (g a).
Proof.
  induction l as [|[n' a'] l IH]; intros Hnd Hin; [by inversion Hin|].
  cbn [fmap list_fmap fst] in Hnd. apply NoDup_cons in Hnd as [Hn' Hnd].
  cbn. apply elem_of_cons in Hin as [[= -> ->]|Hin].
  - by rewrite decide_True.
  - rewrite decide_False; [by apply IH|].
    intros [= ->]. apply Hn'. apply list_elem_of_fmap. by exists (n, a).
Qed.

Lemma dict_get_named_inv {A V} (g : A → V) (l : list (string * A)) n x :
  dict_get ((λ e, (VStr e.1, g e.2)) <$> l) (KStr n) = Some x →
  ∃ a, (n, a) ∈ l ∧ x = g a.
Proof.
  induction l as [|[n' a'] l IH]; cbn; [done|].
  destruct (decide (Some (KStr n') = Some (KStr n))) as [E|E].
  - intros [= <-]. injection E as ->. exists a'. split; [by left|done].
  - intros H. destruct (IH H) as (a & Hin & ->). exists a.
    split; [by right|done].
Qed.

Lemma listify_items_names items : (listify_items items).*1 = items.*1.
Proof.
  unfold listify_items. rewrite <- list_fmap_compose. done.
Qed.

Lemma listify_categories_names cats :
  (listify_categories cats).*1 = cats.*1.
Proof.
  unfold listify_categories. rewrite <- list_fmap_compose. done.
Qed.

Lemma stored_listify v : stored (listify v) = stored v.
Proof. by destruct v as [| | | |[|x [|y l]]| | |]. Qed.

Lemma to_table_encoded items :
  CIFWrapper.to_table (encode_items items)
  = Got (enc_item <$> listify_items items).
Proof.
  unfold CIFWrapper.to_table, encode_items, CIFWrapperTable.__init__,
    deepcopy, listify_items.
  cbn. by rewrite <- !list_fmap_compose.
Qed.

Lemma convert_encoded cats :
  CIFWrapper.convert (enc_category <$> cats)
  = Got ((λ e, (VStr e.1, enc_item <$> listify_items e.2)) <$> cats).
Proof.
  induction cats as [|[cn items] cats IH]; [done|].
  cbn [fmap list_fmap enc_category fst snd CIFWrapper.convert].
  rewrite to_table_encoded. cbn [mbind answer_bind]. by rewrite IH.
Qed.

(** The wrapper of the categories [cats] under the id [id], unwrapped. *)
Lemma unwrap_encoded (id : pyval) cats self_id :
  CIFWrapper.unwrap
    {| data_id := id;
       _DATA := (λ e, (VStr e.1, enc_item <$> listify_items e.2)) <$> cats |}
    self_id
  = (let key := if negb (is_None id) && CIFWrapper.not_empty_str id
                then id else VStr self_id in
     _ ← hashed key;
     Got (VDict [(key, encode_categories (listify_categories cats))])).
Proof.
  unfold CIFWrapper.unwrap. cbn [data_id _DATA].
  unfold encode_categories, listify_categories.
  by rewrite <- !list_fmap_compose.
Qed.

(** The leaves of the unwrapped dictionary, by the names that lead to
    them. *)
Lemma unwrapped_paths (cats : category_map) :
  NoDup cats.*1 → Forall (λ c, NoDup c.2.*1) cats →
  (∀ cn items n v, (cn, items) ∈ cats → (n, v) ∈ items →
     dict_path (encode_categories (listify_categories cats)) [cn; n]
     = Some (listify v))
  ∧ (∀ cn n x,
       dict_path (encode_categories (listify_categories cats)) [cn; n]
       = Some x →
       ∃ items v, (cn, items) ∈ cats ∧ (n, v) ∈ items ∧ x = listify v).
Proof.
  intros Hnd Hall.
  assert (encode_categories (listify_categories cats)
          = VDict ((λ e, (VStr e.1,
                          VDict ((λ i, (VStr i.1, listify i.2)) <$> e.2)))
                   <$> cats)) as ->.
  { unfold encode_categories, listify_categories.
    rewrite <- list_fmap_compose. f_equal.
    apply list_fmap_ext. intros _ [cn items] _.
    unfold compose, enc_category, encode_items, listify_items.
    cbn [fst snd]. by rewrite <- list_fmap_compose. }
  split.
  - intros cn items n v Hc Hn. cbn [dict_path].
    rewrite (dict_get_named (λ its, VDict ((λ i, (VStr i.1, listify i.2))
                                            <$> its)) cats cn items Hnd Hc).
    cbn. rewrite (dict_get_named listify items n v); [done| |done].
    rewrite Forall_forall in Hall. apply (Hall (cn, items) Hc).
  - intros cn n x. cbn [dict_path].
    destruct (dict_get _ (KStr cn)) as [y|] eqn:Hy; [|done].
    apply (dict_get_named_inv
             (λ its, VDict ((λ i : string * pyval, (VStr i.1, listify i.2))
                            <$> its)))
      in Hy as (items & Hc & ->). cbn.
    destruct (dict_get _ (KStr n)) as [z|] eqn:Hz; [|done].
    apply (dict_get_named_inv listify) in Hz as (v & Hn & ->).
    cbn. intros [= <-]. by exists items, v.
Qed.

Lemma init_three_levels bn cn0 n0 v0 ri rc rest (did : pyval) :
  CIFWrapper.__init__
    (encode_blocks ((bn, (cn0, (n0, v0) :: ri) :: rc) :: rest)) did
  = Got {| data_id := VStr bn;
           _DATA := (λ e, (VStr e.1, enc_item <$> listify_items e.2))
                    <$> ((cn0, (n0, v0) :: ri) :: rc) |}.
Proof.
  unfold CIFWrapper.__init__, encode_blocks, deepcopy. cbn [is_None].
  assert (CIFWrapper.first_block
            (VDict (enc_block
                    <$> (bn, (cn0, (n0, v0) :: ri) :: rc) :: rest))
          = Got (VStr bn, encode_categories ((cn0, (n0, v0) :: ri) :: rc)))
    as -> by reflexivity.
  unfold CIFWrapper.__convertDictToCIFWrapperTable, encode_categories.
  cbn [dict_items mbind answer_bind].
  by rewrite convert_encoded.
Qed.

(** X19: wrap, then unwrap.  [CIFWrapper(d)] on a dictionary of three
    levels whose first block has a first category with an item keeps that
    block and no other: its [data_id] is the name of the block, and
    [unwrap()] returns a dictionary with one key, that name, or
    [str(id(self))] when the name is the empty string; under it, by the
    name of a category and the name of an item, is the value of the item in
    the block, put in a list when it was not one; and nothing else is to be
    found there. *)
Theorem wrapper_round_trip
    (bn : string) (cats : category_map) (rest : block_map)
    (did : pyval) (self_id : string)
    (cn0 n0 : string) (v0 : pyval) (ri : item_map) (rc : category_map) :
  cats = (cn0, (n0, v0) :: ri) :: rc →
  NoDup cats.*1 → Forall (λ c, NoDup c.2.*1) cats →
  ∃ w cm,
    CIFWrapper.__init__ (encode_blocks ((bn, cats) :: rest)) did = Got w
    ∧ data_id w = VStr bn
    ∧ CIFWrapper.unwrap w self_id
      = Got (VDict [(VStr (if decide (bn = EmptyString) then self_id
                           else bn), cm)])
    ∧ (∀ cn items n v, (cn, items) ∈ cats → (n, v) ∈ items →
         dict_path cm [cn; n] = Some (listify v))
    ∧ (∀ cn n x, dict_path cm [cn; n] = Some x →
         ∃ items v, (cn, items) ∈ cats ∧ (n, v) ∈ items ∧ x = listify v).
Proof.
  intros -> Hnd Hall.
  destruct (unwrapped_paths _ Hnd Hall) as [Hfind Honly].
  eexists _, _. split; [apply init_three_levels|].
  split; [done|]. split; [|split; [exact Hfind|exact Honly]].
  rewrite unwrap_encoded. cbn [is_None negb andb].
  destruct (decide (bn = EmptyString)) as [->|Hne]; [done|].
  by destruct bn.
Qed.

Lemma wrapper_round_trip_witness :
  ∃ w cm,
    CIFWrapper.__init__
      (encode_blocks [("B", [("c", [("x", VInt 1); ("y", VList [VInt 2])])])])
      VNone
    = Got w
    ∧ data_id w = VStr "B"
    ∧ CIFWrapper.unwrap w "140" = Got (VDict [(VStr "B", cm)])
    ∧ dict_path cm ["c"; "x"] = Some (VList [VInt 1]).
Proof.
  destruct (wrapper_round_trip "B" [("c", [("x", VInt 1);
                                            ("y", VList [VInt 2])])]
              [] VNone "140" "c" "x" (VInt 1) [("y", VList [VInt 2])] [])
    as (w & cm & H1 & H2 & H3 & H4 & _).
  - reflexivity.
  - apply (bool_decide_unpack _). vm_compute. exact I.
  - repeat constructor; cbn; apply (bool_decide_unpack _); vm_compute; exact I.
  - exists w, cm. split; [exact H1|]. split; [exact H2|].
    split; [exact H3|].
    apply (H4 "c" [("x", VInt 1); ("y", VList [VInt 2])] "x" (VInt 1));
      by left.
Defined.

(** X20: a dictionary the constructor cannot wrap.  [CIFWrapper(d)] raises
    [IndexError] when [d] is the empty dictionary, when its first block has
    no category, and when the first category of its first block has no
    item, whatever else [d] holds; and also for a dictionary of two levels
    whose first category has no item. *)
Theorem wrapper_init_empty_raises (did : pyval) :
  CIFWrapper.__init__ (encode_blocks []) did = Fails (Exn IndexError)
  ∧ (∀ bn rest,
       CIFWrapper.__init__ (encode_blocks ((bn, []) :: rest)) did
       = Fails (Exn IndexError))
  ∧ (∀ bn cn rc rest,
       CIFWrapper.__init__ (encode_blocks ((bn, (cn, []) :: rc) :: rest)) did
       = Fails (Exn IndexError))
  ∧ (∀ cn rc,
       CIFWrapper.__init__ (encode_categories ((cn, []) :: rc)) did
       = Fails (Exn IndexError)).
Proof. repeat split. Qed.

(** X21: a dictionary of two levels.  [CIFWrapper(d, data_id)] on a
    dictionary of categories whose first category has a first item that is
    no dictionary wraps all of [d]: its [data_id] is the one given, or the
    empty string when none is; [unwrap()] returns a dictionary with one key,
    the [data_id], or [str(id(self))] when that is empty, and under it
    every value of [d] by the names of its category and item, put in a list
    when it was not one. *)
Theorem wrapper_two_levels
    (cats : category_map) (did : option string) (self_id : string)
    (cn0 n0 : string) (v0 : pyval) (ri : item_map) (rc : category_map) :
  cats = (cn0, (n0, v0) :: ri) :: rc →
  is_dict v0 = false →
  NoDup cats.*1 → Forall (λ c, NoDup c.2.*1) cats →
  ∃ w cm,
    CIFWrapper.__init__ (encode_categories cats) (from_option VStr VNone did)
    = Got w
    ∧ data_id w = VStr (default EmptyString did)
    ∧ CIFWrapper.unwrap w self_id
      = Got (VDict [(VStr (if decide (default EmptyString did = EmptyString)
                           then self_id else default EmptyString did), cm)])
    ∧ (∀ cn items n v, (cn, items) ∈ cats → (n, v) ∈ items →
         dict_path cm [cn; n] = Some (listify v))
    ∧ (∀ cn n x, dict_path cm [cn; n] = Some x →
         ∃ items v, (cn, items) ∈ cats ∧ (n, v) ∈ items ∧ x = listify v).
Proof.
  intros -> Hv0 Hnd Hall.
  destruct (unwrapped_paths _ Hnd Hall) as [Hfind Honly].
  assert (CIFWrapper.__init__
            (encode_categories ((cn0, (n0, v0) :: ri) :: rc))
            (from_option VStr VNone did)
          = Got {| data_id := VStr (default EmptyString did);
                   _DATA := (λ e, (VStr e.1, enc_item <$> listify_items e.2))
                            <$> ((cn0, (n0, v0) :: ri) :: rc) |}) as Hinit.
  { unfold CIFWrapper.__init__, encode_categories, deepcopy.
    cbn [is_None].
    assert (CIFWrapper.first_block
              (VDict (enc_category <$> (cn0, (n0, v0) :: ri) :: rc))
            = Fails (Exn AttributeError)) as ->.
    { unfold CIFWrapper.first_block. cbn. by destruct v0. }
    unfold CIFWrapper.__convertDictToCIFWrapperTable.
    cbn [dict_items mbind answer_bind].
    rewrite convert_encoded. cbn. by destruct did. }
  eexists _, _. split; [exact Hinit|].
  split; [done|]. split; [|split; [exact Hfind|exact Honly]].
  rewrite unwrap_encoded. cbn [is_None negb andb].
  destruct (decide (default EmptyString did = EmptyString)) as [->|Hne];
    [done|].
  by destruct (default EmptyString did).
Qed.

Lemma wrapper_two_levels_witness :
  ∃ w cm,
    CIFWrapper.__init__ (encode_categories [("c", [("x", VInt 1)])])
      (from_option VStr VNone (Some "B"))
    = Got w
    ∧ data_id w = VStr "B"
    ∧ CIFWrapper.unwrap w "140" = Got (VDict [(VStr "B", cm)])
    ∧ dict_path cm ["c"; "x"] = Some (VList [VInt 1]).
Proof.
  destruct (wrapper_two_levels [("c", [("x", VInt 1)])] (Some "B") "140"
              "c" "x" (VInt 1) [] [])
    as (w & cm & H1 & H2 & H3 & H4 & _).
  - reflexivity.
  - reflexivity.
  - apply (bool_decide_unpack _). vm_compute. exact I.
  - repeat constructor; cbn; apply (bool_decide_unpack _); vm_compute; exact I.
  - exists w, cm. split; [exact H1|]. split; [exact H2|].
    split; [exact H3|].
    apply (H4 "c" [("x", VInt 1)] "x" (VInt 1)); by left.
Defined.

(** X22: the three forms of the data agree.  The dictionary that
    [CIFWrapper(d).unwrap()] returns for a dictionary [d] of three levels
    can be given to [CifFile]: the import returns, and every item of the
    first block of [d] is read back from the file, under the name of the
    block, with the value that importing [d] itself gives it. *)
Theorem import_unwrapped_wrapper
    (bn : string) (cats : category_map) (rest : block_map)
    (did : pyval) (self_id : string) (file_path : option string)
    (s : state)
    (cn0 n0 : string) (v0 : pyval) (ri : item_map) (rc : category_map) :
  cats = (cn0, (n0, v0) :: ri) :: rc →
  bn ≠ EmptyString →
  NoDup (lstrip "_"%char <$> cats.*1) →
  Forall (λ c, NoDup c.2.*1) cats →
  ∃ w out s',
    CIFWrapper.__init__ (encode_blocks ((bn, cats) :: rest)) did = Got w
    ∧ CIFWrapper.unwrap w self_id = Got out
    ∧ CifFile.__init__ file_path out s = Return (length (heap s)) s'
    ∧ ∀ cn items n v, (cn, items) ∈ cats → (n, v) ∈ items →
        read_leaf (length (heap s)) bn cn n s' = Return (stored v) s'.
Proof.
  intros -> Hbn Hnd Hall.
  set (cats := (cn0, (n0, v0) :: ri) :: rc) in *.
  destruct (init_run file_path [(bn, listify_categories cats)] s)
    as (s' & Hrun & _ & _ & Hat).
  { split; [apply NoDup_singleton|]. constructor; [|constructor].
    cbn [snd]. rewrite listify_categories_names. split; [done|].
    unfold listify_categories. rewrite Forall_fmap.
    eapply Forall_impl; [exact Hall|]. intros [cn items] H. cbn in *.
    by rewrite listify_items_names. }
  eexists _, _, s'. split; [apply init_three_levels|].
  split.
  { rewrite unwrap_encoded. cbn [is_None negb andb].
    assert (CIFWrapper.not_empty_str (VStr bn) = true) as ->
      by (by destruct bn).
    reflexivity. }
  split; [exact Hrun|].
  intros cn items n v Hc Hn.
  rewrite <- stored_listify.
  eapply (read_leaf_run s' _ bn (listify_categories cats) cn
            (listify_items items) n (listify v)).
  - apply Hat. by left.
  - unfold listify_categories.
    apply (list_elem_of_fmap_2 (λ e, (e.1, listify_items e.2)) cats
             (cn, items) Hc).
  - unfold listify_items.
    apply (list_elem_of_fmap_2 (λ e, (e.1, listify e.2)) items (n, v) Hn).
Qed.

Lemma import_unwrapped_wrapper_witness :
  ∃ w out s',
    CIFWrapper.__init__
      (encode_blocks [("B", [("_c", [("x", VInt 1)])])]) VNone
    = Got w
    ∧ CIFWrapper.unwrap w "140" = Got out
    ∧ CifFile.__init__ None out empty_state = Return 0 s'
    ∧ read_leaf 0 "B" "_c" "x" s' = Return (VInt 1) s'.
Proof.
  destruct (import_unwrapped_wrapper "B" [("_c", [("x", VInt 1)])] [] VNone
              "140" None empty_state "_c" "x" (VInt 1) [] [])
    as (w & out & s' & H1 & H2 & H3 & H4).
  - reflexivity.
  - discriminate.
  - apply (bool_decide_unpack _). vm_compute. exact I.
  - repeat constructor; cbn; apply (bool_decide_unpack _); vm_compute; exact I.
  - exists w, out, s'. split; [exact H1|]. split; [exact H2|].
    split; [exact H3|].
    apply (H4 "_c" [("x", VInt 1)] "x" (VInt 1)); by left.
Defined.

Lemma columns_are_lists_listified items :
  columns_are_lists (enc_item <$> listify_items items).
Proof.
  unfold columns_are_lists, listify_items.
  rewrite <- list_fmap_compose, Forall_fmap. apply Forall_forall.
  intros [n v] _. apply is_list_listify.
Qed.

(** X23: access by name.  In the wrapper of a dictionary of three levels,
    the name of a category of the first block gives a table (by
    [__getattr__], [__getitem__] or [in]), and in the table the name of an
    item gives the list of its values; every column of the table is a list;
    a name that is no category of the block gives [None].  After
    [del w[name]] the name gives [None] and is not [in] the wrapper, and
    the other categories give the tables they gave. *)
Theorem wrapper_access_by_name
    (bn : string) (cats : category_map) (rest : block_map) (did : pyval)
    (cn0 n0 : string) (v0 : pyval) (ri : item_map) (rc : category_map) :
  cats = (cn0, (n0, v0) :: ri) :: rc →
  NoDup cats.*1 → Forall (λ c, NoDup c.2.*1) cats →
  ∃ w,
    CIFWrapper.__init__ (encode_blocks ((bn, cats) :: rest)) did = Got w
    ∧ (∀ cn items, (cn, items) ∈ cats →
         ∃ t,
           CIFWrapper.__getattr__ w cn = Got (Some t)
           ∧ CIFWrapper.__getitem__ w (VStr cn) = Got (Some t)
           ∧ CIFWrapper.__contains__ w (VStr cn) = Got true
           ∧ columns_are_lists t
           ∧ (∀ n v, (n, v) ∈ items →
                CIFWrapperTable.__getattr__ t n = Got (listify v)
                ∧ CIFWrapperTable.__getitem__ t (VStr n) = Got (listify v))
           ∧ ∃ w',
               CIFWrapper.__delitem__ w (VStr cn) = Got w'
               ∧ CIFWrapper.__getattr__ w' cn = Got None
               ∧ CIFWrapper.__contains__ w' (VStr cn) = Got false
               ∧ ∀ other, other ≠ cn →
                   CIFWrapper.__getattr__ w' other
                   = CIFWrapper.__getattr__ w other)
    ∧ (∀ cn, cn ∉ cats.*1 → CIFWrapper.__getattr__ w cn = Got None).
Proof.
  intros -> Hnd Hall.
  set (cats := (cn0, (n0, v0) :: ri) :: rc) in *.
  eexists. split; [apply init_three_levels|]. fold cats.
  set (tables := (λ e : string * item_map,
                    (VStr e.1, enc_item <$> listify_items e.2)) <$> cats).
  split.
  - intros cn items Hc.
    assert (dict_get tables (KStr cn)
            = Some (enc_item <$> listify_items items)) as Hget.
    { apply (dict_get_named (λ its, enc_item <$> listify_items its)
               cats cn items Hnd Hc). }
    exists (enc_item <$> listify_items items).
    unfold CIFWrapper.__getattr__, CIFWrapper.__getitem__, CIFWrapper.get,
      CIFWrapper.__contains__, CIFWrapper.__delitem__.
    cbn [hashed hash_key mbind answer_bind _DATA data_id]. rewrite Hget.
    do 2 (split; [done|]).
    split; [by rewrite bool_decide_eq_true_2|].
    split; [apply columns_are_lists_listified|].
    split.
    { intros n v Hn.
      unfold CIFWrapperTable.__getattr__, CIFWrapperTable.__getitem__,
        CIFWrapperTable.get.
      cbn [hashed hash_key mbind answer_bind].
      assert (enc_item <$> listify_items items
              = (λ e : string * pyval, (VStr e.1, listify e.2)) <$> items)
        as ->.
      { unfold listify_items. by rewrite <- list_fmap_compose. }
      rewrite (dict_get_named listify items n v); [done| |done].
      rewrite Forall_forall in Hall. apply (Hall (cn, items) Hc). }
    rewrite bool_decide_eq_true_2 by done.
    eexists. split; [reflexivity|].
    cbn [hashed hash_key mbind answer_bind _DATA data_id].
    rewrite dict_get_del_same.
    split; [done|].
    split; [by rewrite bool_decide_eq_false_2 by (by intros [? ?])|].
    intros other Hne. rewrite dict_get_del_other; [done|].
    by intros [= ->].
  - intros cn Hcn.
    unfold CIFWrapper.__getattr__, CIFWrapper.get.
    cbn [hashed hash_key mbind answer_bind _DATA].
    destruct (dict_get tables (KStr cn)) as [t|] eqn:Ht; [|done].
    apply (dict_get_named_inv (λ its, enc_item <$> listify_items its))
      in Ht as (items & Hin & _).
    exfalso. apply Hcn. apply list_elem_of_fmap. by exists (cn, items).
Qed.

Lemma wrapper_access_by_name_witness :
  ∃ w t,
    CIFWrapper.__init__
      (encode_blocks [("B", [("c", [("x", VInt 1); ("y", VList [VInt 2])])])])
      VNone
    = Got w
    ∧ CIFWrapper.__getattr__ w "c" = Got (Some t)
    ∧ CIFWrapperTable.__getattr__ t "x" = Got (VList [VInt 1]).
Proof.
  destruct (wrapper_access_by_name "B"
              [("c", [("x", VInt 1); ("y", VList [VInt 2])])]
              [] VNone "c" "x" (VInt 1) [("y", VList [VInt 2])] [])
    as (w & H1 & H2 & _).
  - reflexivity.
  - apply (bool_decide_unpack _). vm_compute. exact I.
  - repeat constructor; cbn; apply (bool_decide_unpack _); vm_compute; exact I.
  - destruct (H2 "c" [("x", VInt 1); ("y", VList [VInt 2])])
      as (t & G1 & _ & _ & _ & G2 & _); [by left|].
    exists w, t. split; [exact H1|]. split; [exact G1|].
    apply (G2 "x" (VInt 1)). by left.
Defined.
